(** * WhatsAppEvaluator: a shallow embedding of [evaluator.py]

    The development follows [src/whatsappevaluator/evaluator.py]:
    the two module-level dictionaries [patterns] and [datetimes], the
    constructor [WhatsappChat.__init__] (argument checks, file reading, the
    line loop, the construction of the [chat] table and of its derived
    columns) and the private method [__aggregate_by_time].

    Conventions of the embedding.
    - A Python [str] is a Rocq [string]; a character is an [ascii] (code
      points below 256, on which [\d] of [re] is exactly the ten decimal
      digits).
    - Python integers are [Z]; the float produced by the [mean] aggregation is
      the exact quotient in [Q].
    - A raised exception is the [Raise] branch of [result]; the exception
      classes are the ones Python raises at that place.
    - The file system, [Path.suffix] and [emoji.emoji_count] are outside the
      repository: they are parameters of the sections that need them. A call
      to the file system returns or raises: [Path.exists] too, which lets
      through every [OSError] that does not mean that the file is missing.
    - pandas holds the [Time] column as [datetime64[ns]], 64-bit counts of
      nanoseconds: a column with a time outside that range keeps the dtype
      [object]. Within the range, the group-by can still overflow when a bin
      edge falls outside it; when it does is a parameter ([grouper_limits]),
      known to be never for times in the years 1678 to 2261.
    - Library calls whose behaviour a statement depends on ([re.match],
      [datetime.strptime], [str.split], the pandas group-by) are modelled for
      the arguments this program passes to them. *)

From Stdlib Require Import ZArith QArith Ascii String List Lia.
From stdpp Require Import base option list gmap strings sorting.

Set Default Proof Using "Type".

(** ** Exceptions and results *)

Inductive exception :=
| ValueError (msg : string)
| IndexError (msg : string)
| KeyError (key : string)
| AttributeError (msg : string)
| OSError (msg : string).

Inductive result (A : Type) :=
| Ok (a : A)
| Raise (e : exception).
Arguments Ok {A} a.
Arguments Raise {A} e.

Definition bind {A B} (r : result A) (k : A → result B) : result B :=
  match r with
  | Ok a => k a
  | Raise e => Raise e
  end.

Global Instance result_ret : MRet result := λ A a, Ok a.
Global Instance result_bind : MBind result := λ A B k r, bind r k.

Definition is_ok {A} (r : result A) : bool :=
  match r with Ok _ => true | Raise _ => false end.

(** ** Characters and strings *)

Definition newline : ascii := ascii_of_nat 10.

Definition chr_between (lo hi c : ascii) : bool :=
  ((N_of_ascii lo <=? N_of_ascii c) && (N_of_ascii c <=? N_of_ascii hi))%N.

(** [\d] on characters below 256. *)
Definition is_digit (c : ascii) : bool := chr_between "0" "9" c.

(** [int(c)] for a decimal digit. *)
Definition digit_value (c : ascii) : Z :=
  (Z.of_N (N_of_ascii c) - 48)%Z.

(** [\s] of [re] on characters below 256, the ones [str.isspace] accepts:
    space, tab, line feed, vertical tab, form feed, carriage return, the four
    separators 28..31, next line (133) and no-break space (160). *)
Definition is_space (c : ascii) : bool :=
  let n := N_of_ascii c in
  ((n =? 32) || ((9 <=? n) && (n <=? 13)) || ((28 <=? n) && (n <=? 31))
   || (n =? 133) || (n =? 160))%N.

(** [s[n:]] *)
Fixpoint slice_from (n : nat) (s : string) : string :=
  match n, s with
  | O, _ => s
  | S n', String _ s' => slice_from n' s'
  | S _, EmptyString => EmptyString
  end.

(** [s.split(sep, 1)] for a one-character separator: the text before the
    first [sep] and the text after it, or the whole text alone when [sep] does
    not occur. *)
Fixpoint split_once (sep : ascii) (s : string) : list string :=
  match s with
  | EmptyString => [EmptyString]
  | String c s' =>
      if Ascii.eqb c sep then [EmptyString; s']
      else match split_once sep s' with
           | [a; b] => [String c a; b]
           | _ => [s]
           end
  end.

(** [sep in s] *)
Fixpoint contains_chr (sep : ascii) (s : string) : bool :=
  match s with
  | EmptyString => false
  | String c s' => Ascii.eqb c sep || contains_chr sep s'
  end.

(** [a, b = xs] *)
Definition unpack2 (xs : list string) : result (string * string) :=
  match xs with
  | [a; b] => Ok (a, b)
  | [] | [_] => Raise (ValueError "not enough values to unpack (expected 2)")
  | _ => Raise (ValueError "too many values to unpack (expected 2)")
  end.

(** ** Regular expressions of [patterns]

    Every pattern of the table is [^] followed by a concatenation of [\d{n}]
    groups and literal characters. *)

Inductive atom :=
| Digit
| Chr (c : ascii).

Definition regex := list atom.

Definition digits (n : nat) : regex := replicate n Digit.
Definition lit (s : string) : regex := Chr <$> list_ascii_of_string s.

Definition atom_matches (a : atom) (c : ascii) : bool :=
  match a with
  | Digit => is_digit c
  | Chr c' => Ascii.eqb c c'
  end.

(** [re.match(r, s)]: [None] or the matched text ([.group()]). *)
Fixpoint re_match (r : regex) (s : string) : option string :=
  match r with
  | [] => Some EmptyString
  | a :: r' =>
      match s with
      | EmptyString => None
      | String c s' =>
          if atom_matches a c then String c <$> re_match r' s' else None
      end
  end.

(** [^\d{2}/\d{2}/\d{4}, \d{2}:\d{2}] *)
Definition pattern_EU : regex :=
  digits 2 ++ lit "/" ++ digits 2 ++ lit "/" ++ digits 4
    ++ lit ", " ++ digits 2 ++ lit ":" ++ digits 2.

Definition pattern_NA : regex :=
  digits 2 ++ lit "/" ++ digits 2 ++ lit "/" ++ digits 4
    ++ lit ", " ++ digits 2 ++ lit ":" ++ digits 2.

(** [^\d{4}/\d{2}/\d{2}, \d{2}:\d{2}] *)
Definition pattern_JP : regex :=
  digits 4 ++ lit "/" ++ digits 2 ++ lit "/" ++ digits 2
    ++ lit ", " ++ digits 2 ++ lit ":" ++ digits 2.

Definition patterns : gmap string regex :=
  list_to_map [("EU", pattern_EU); ("NA", pattern_NA); ("JP", pattern_JP)].

(** ** Dates and [datetime.strptime] *)

Record datetime := mk_datetime {
  year : Z;
  month : Z;
  day : Z;
  hour : Z;
  minute : Z
}.

Global Instance datetime_eq_dec : EqDecision datetime.
Proof. solve_decision. Defined.

Definition is_leap (y : Z) : bool :=
  ((y mod 4 =? 0) && (negb (y mod 100 =? 0) || (y mod 400 =? 0)))%Z.

Definition days_in_month (y m : Z) : Z :=
  (if m =? 2 then (if is_leap y then 29 else 28)
   else if (m =? 4) || (m =? 6) || (m =? 9) || (m =? 11) then 30
   else 31)%Z.

Definition days_before_year (y : Z) : Z :=
  (let y1 := y - 1 in y1 * 365 + y1 / 4 - y1 / 100 + y1 / 400)%Z.

Fixpoint days_before_month_aux (y : Z) (m : nat) : Z :=
  match m with
  | O => 0%Z
  | S m' => (days_before_month_aux y m' + days_in_month y (Z.of_nat m))%Z
  end.

(** Number of days of year [y] before the first day of month [m]. *)
Definition days_before_month (y m : Z) : Z :=
  days_before_month_aux y (Z.to_nat (m - 1)).

(** Proleptic Gregorian ordinal: 0001-01-01 is day 1. *)
Definition ymd2ord (y m d : Z) : Z :=
  (days_before_year y + days_before_month y m + d)%Z.

(** [datetime.weekday()] and pandas' [dt.dayofweek]: Monday is 0. *)
Definition dayofweek (t : datetime) : Z :=
  ((ymd2ord (year t) (month t) (day t) + 6) mod 7)%Z.

(** The value pandas stores for a time in a [datetime64[ns]] column: the
    nanoseconds since 1970-01-01 00:00. *)
Definition datetime64_ns (t : datetime) : Z :=
  ((((ymd2ord (year t) (month t) (day t) - ymd2ord 1970 1 1) * 24 + hour t)
    * 60 + minute t) * 60 * 1000000000)%Z.

(** The values a [datetime64[ns]] column can hold: a 64-bit integer, the
    least one being kept for [NaT]. *)
Definition in_bounds (t : datetime) : bool :=
  ((- 2 ^ 63 <? datetime64_ns t) && (datetime64_ns t <? 2 ^ 63))%Z.

(** Directives of the templates of [datetimes]. A blank of the template
    becomes [\s+] in the regular expression [strptime] builds. *)
Inductive directive :=
| pct_d | pct_m | pct_Y | pct_H | pct_M
| Lit (c : ascii)
| Blank.

Definition set_year (v : Z) (t : datetime) : datetime :=
  mk_datetime v (month t) (day t) (hour t) (minute t).
Definition set_month (v : Z) (t : datetime) : datetime :=
  mk_datetime (year t) v (day t) (hour t) (minute t).
Definition set_day (v : Z) (t : datetime) : datetime :=
  mk_datetime (year t) (month t) v (hour t) (minute t).
Definition set_hour (v : Z) (t : datetime) : datetime :=
  mk_datetime (year t) (month t) (day t) v (minute t).
Definition set_minute (v : Z) (t : datetime) : datetime :=
  mk_datetime (year t) (month t) (day t) (hour t) v.

(** [int] of two and of four decimal digits. *)
Definition num2 (a b : ascii) : Z := (10 * digit_value a + digit_value b)%Z.

Definition num4 (a b c d : ascii) : Z :=
  (1000 * digit_value a + 100 * digit_value b + 10 * digit_value c
   + digit_value d)%Z.

(** One alternative made of two characters accepted by [p]. *)
Definition two_chars (p : ascii → ascii → bool) (s : string)
  : list (Z * string) :=
  match s with
  | String c1 (String c2 rest) => if p c1 c2 then [(num2 c1 c2, rest)] else []
  | _ => []
  end.

(** One alternative made of a single character accepted by [p]. *)
Definition one_char (p : ascii → bool) (s : string) : list (Z * string) :=
  match s with
  | String c rest => if p c then [(digit_value c, rest)] else []
  | EmptyString => []
  end.

(** The two-character alternatives of each directive. *)
Definition d_two (a b : ascii) : bool :=
  (Ascii.eqb a "3" && chr_between "0" "1" b)
  || (chr_between "1" "2" a && is_digit b)
  || (Ascii.eqb a "0" && chr_between "1" "9" b).

Definition m_two (a b : ascii) : bool :=
  (Ascii.eqb a "1" && chr_between "0" "2" b)
  || (Ascii.eqb a "0" && chr_between "1" "9" b).

Definition H_two (a b : ascii) : bool :=
  (Ascii.eqb a "2" && chr_between "0" "3" b)
  || (chr_between "0" "1" a && is_digit b).

Definition M_two (a b : ascii) : bool :=
  chr_between "0" "5" a && is_digit b.

(** [3[0-1]|[1-2]\d|0[1-9]|[1-9]| [1-9]] *)
Definition alts_d (s : string) : list (Z * string) :=
  two_chars d_two s
  ++ one_char (chr_between "1" "9") s
  ++ match s with
     | String c rest =>
         if Ascii.eqb c " " then one_char (chr_between "1" "9") rest else []
     | EmptyString => []
     end.

(** [1[0-2]|0[1-9]|[1-9]] *)
Definition alts_m (s : string) : list (Z * string) :=
  two_chars m_two s ++ one_char (chr_between "1" "9") s.

(** [\d\d\d\d] *)
Definition alts_Y (s : string) : list (Z * string) :=
  match s with
  | String c1 (String c2 (String c3 (String c4 rest))) =>
      if is_digit c1 && is_digit c2 && is_digit c3 && is_digit c4
      then [(num4 c1 c2 c3 c4, rest)]
      else []
  | _ => []
  end.

(** [2[0-3]|[0-1]\d|\d] *)
Definition alts_H (s : string) : list (Z * string) :=
  two_chars H_two s ++ one_char is_digit s.

(** [[0-5]\d|\d] *)
Definition alts_M (s : string) : list (Z * string) :=
  two_chars M_two s ++ one_char is_digit s.

(** [\s+], greedy: the longest run of blanks first, then the shorter ones. *)
Fixpoint alts_blank (s : string) : list string :=
  match s with
  | String c rest => if is_space c then alts_blank rest ++ [rest] else []
  | EmptyString => []
  end.

(** The ways directive [d] can consume a prefix of [s], in the order the
    backtracking matcher tries them, each with its effect on the fields. *)
Definition candidates (d : directive) (s : string)
  : list ((datetime → datetime) * string) :=
  match d with
  | pct_d => prod_map set_day id <$> alts_d s
  | pct_m => prod_map set_month id <$> alts_m s
  | pct_Y => prod_map set_year id <$> alts_Y s
  | pct_H => prod_map set_hour id <$> alts_H s
  | pct_M => prod_map set_minute id <$> alts_M s
  | Lit c =>
      match s with
      | String c' rest => if Ascii.eqb c' c then [(id, rest)] else []
      | EmptyString => []
      end
  | Blank => (λ rest, (id, rest)) <$> alts_blank s
  end.

Fixpoint first_some {A B} (f : A → option B) (l : list A) : option B :=
  match l with
  | [] => None
  | x :: l' => match f x with Some b => Some b | None => first_some f l' end
  end.

(** The match of the compiled template at the start of [s]: the fields found
    and the text left over. *)
Fixpoint match_format (ds : list directive) (s : string) (t : datetime)
  : option (datetime * string) :=
  match ds with
  | [] => Some (t, s)
  | d :: ds' =>
      first_some (λ c, match_format ds' c.2 (c.1 t)) (candidates d s)
  end.

Definition MINYEAR : Z := 1.
Definition MAXYEAR : Z := 9999.

(** The values [strptime] gives to the fields the template does not set. *)
Definition epoch : datetime := mk_datetime 1900 1 1 0 0.

(** [datetime.strptime(data, format)] *)
Definition strptime (data : string) (format : list directive)
  : result datetime :=
  match match_format format data epoch with
  | None => Raise (ValueError "time data does not match format")
  | Some (t, EmptyString) =>
      if ((year t <? MINYEAR) || (MAXYEAR <? year t))%Z
      then Raise (ValueError "year is out of range")
      else if (days_in_month (year t) (month t) <? day t)%Z
      then Raise (ValueError "day is out of range for month")
      else Ok t
  | Some (_, String _ _) => Raise (ValueError "unconverted data remains")
  end.

(** ["%d/%m/%Y, %H:%M"] *)
Definition template_EU : list directive :=
  [pct_d; Lit "/"; pct_m; Lit "/"; pct_Y; Lit ","; Blank;
   pct_H; Lit ":"; pct_M].

(** ["%m/%d/%Y, %H:%M"] *)
Definition template_NA : list directive :=
  [pct_m; Lit "/"; pct_d; Lit "/"; pct_Y; Lit ","; Blank;
   pct_H; Lit ":"; pct_M].

(** ["%Y/%m/%d, %H:%M"] *)
Definition template_JP : list directive :=
  [pct_Y; Lit "/"; pct_m; Lit "/"; pct_d; Lit ","; Blank;
   pct_H; Lit ":"; pct_M].

Definition datetimes : gmap string (list directive) :=
  list_to_map
    [("EU", template_EU); ("NA", template_NA); ("JP", template_JP)].

(** [d[k]] on a dictionary with string keys. *)
Definition getitem {V} (d : gmap string V) (k : string) : result V :=
  match d !! k with
  | Some v => Ok v
  | None => Raise (KeyError k)
  end.

(** ** The line loop of [WhatsappChat.__init__] *)

(** The three lists the loop fills. *)
Record columns := mk_columns {
  times : list datetime;
  speakers : list string;
  messages : list string
}.

Definition no_columns : columns := mk_columns [] [] [].

(** [xs[-1]] *)
Definition get_last (xs : list string) : result string :=
  match xs !! (length xs - 1) with
  | Some x => Ok x
  | None => Raise (IndexError "list index out of range")
  end.

(** [xs[-1] = v] *)
Definition set_last (xs : list string) (v : string) : result (list string) :=
  match xs !! (length xs - 1) with
  | Some _ => Ok (<[length xs - 1 := v]> xs)
  | None => Raise (IndexError "list assignment index out of range")
  end.

(** One iteration of the loop body. *)
Definition process_line (time_format : string) (st : columns) (line : string)
  : result columns :=
  pat ← getitem patterns time_format;
  match re_match pat line with
  | Some _ =>
      pat' ← getitem patterns time_format;
      match re_match pat' line with
      | Some matched =>
          template ← getitem datetimes time_format;
          time ← strptime matched template;
          '(speaker, message) ← unpack2 (split_once ":" (slice_from 20 line));
          Ok (mk_columns (times st ++ [time])
                         (speakers st ++ [speaker])
                         (messages st ++ [message]))
      | None =>
          Raise (AttributeError "'NoneType' object has no attribute 'group'")
      end
  | None =>
      last ← get_last (messages st);
      messages' ← set_last (messages st) (last +:+ line);
      Ok (mk_columns (times st) (speakers st) messages')
  end.

(** [for line in lines: ...], from the state [st]. *)
Fixpoint process_lines (time_format : string) (st : columns)
  (lines : list string) : result columns :=
  match lines with
  | [] => Ok st
  | line :: rest =>
      st' ← process_line time_format st line;
      process_lines time_format st' rest
  end.

(** Lines 53 to 76: the three empty lists, then the loop over [lines[1:]]. *)
Definition parse_lines (time_format : string) (lines : list string)
  : result columns :=
  process_lines time_format no_columns (drop 1 lines).

(** ** The [chat] table *)

(** A row of [pd.DataFrame({"Speaker": ..., "Message": ..., "Time": ...})]. *)
Record message_record := mk_message_record {
  rec_speaker : string;
  rec_message : string;
  rec_time : datetime
}.

Fixpoint zip_columns (ss ms : list string) (ts : list datetime)
  : list message_record :=
  match ss, ms, ts with
  | s :: ss', m :: ms', t :: ts' =>
      mk_message_record s m t :: zip_columns ss' ms' ts'
  | _, _, _ => []
  end.

(** The [DataFrame] constructor on a dictionary of three lists: the lists must
    have one length. *)
Definition records (c : columns) : list message_record :=
  zip_columns (speakers c) (messages c) (times c).

Definition balanced (c : columns) : Prop :=
  length (speakers c) = length (messages c)
  ∧ length (messages c) = length (times c).

Definition DataFrame (c : columns) : result (list message_record) :=
  if decide (balanced c)
  then Ok (records c)
  else Raise (ValueError "All arrays must be of the same length").

(** A row of [self.chat], with the derived columns. *)
Record chat_row := mk_chat_row {
  Speaker : string;
  Message : string;
  Time : datetime;
  Weekday : string;
  Message_Length : Z;
  Emoji_Count : Z;
  Contains_Emoji : Z
}.

Definition weekday_names : list string :=
  ["Monday"; "Tuesday"; "Wednesday"; "Thursday"; "Friday"; "Saturday";
   "Sunday"].

(** [Series.replace([0, ..., 6], weekday_names)] on one value. [dayofweek]
    stays within 0..6 ([dayofweek_range]), so every value is replaced and the
    default is never used. *)
Definition replace_weekday (d : Z) : string :=
  default "?" (weekday_names !! Z.to_nat d).

(** [Series.where(cond, other)] on one value: the value is kept where [cond]
    holds and replaced by [other] elsewhere. *)
Definition series_where (cond : bool) (other v : Z) : Z :=
  if cond then v else other.

(** [chat["Time"].dt]: a column built from an empty list, or from a list
    that holds a time outside [datetime64[ns]], has dtype [object], on which
    the accessor raises. *)
Definition dt_accessor (rows : list message_record) : result (list datetime) :=
  match rows with
  | [] => Raise (AttributeError "Can only use .dt accessor with datetimelike values")
  | _ =>
      if forallb (λ r, in_bounds (rec_time r)) rows
      then Ok (rec_time <$> rows)
      else Raise (AttributeError
                    "Can only use .dt accessor with datetimelike values")
  end.

Section Chat.

(** [emoji.emoji_count] *)
Variable emoji_count : string → Z.

(** Lines 81 to 99 on one row. *)
Definition enrich (r : message_record) : chat_row :=
  let count := emoji_count (rec_message r) in
  {| Speaker := rec_speaker r;
     Message := rec_message r;
     Time := rec_time r;
     Weekday := replace_weekday (dayofweek (rec_time r));
     Message_Length := Z.of_nat (String.length (rec_message r));
     Emoji_Count := count;
     Contains_Emoji := series_where (count =? 0)%Z 1%Z count |}.

(** Lines 78 to 99. *)
Definition make_chat (c : columns) : result (list chat_row) :=
  frame ← DataFrame c;
  _ ← dt_accessor frame;
  Ok (enrich <$> frame).

End Chat.

(** ** [__aggregate_by_time] *)

(** The three values [__init__] passes as [time_aggregator]:
    ["D"], ["W"] and ["M"]. *)
Inductive freq := freq_D | freq_W | freq_M.

Definition midnight (t : datetime) : datetime :=
  mk_datetime (year t) (month t) (day t) 0 0.

Definition next_day (t : datetime) : datetime :=
  if (day t <? days_in_month (year t) (month t))%Z
  then set_day (day t + 1) t
  else if (month t <? 12)%Z
  then set_day 1 (set_month (month t + 1) t)
  else set_day 1 (set_month 1 (set_year (year t + 1) t)).

(** The label of the bin of [pd.Grouper(key="Time", freq=f)] that holds [t]:
    the day for ["D"]; the Sunday that ends the week for ["W"] (weekly bins
    are anchored on Sunday, closed and labelled on the right); the last day of
    the month for ["M"]. *)
Definition time_bucket (f : freq) (t : datetime) : datetime :=
  match f with
  | freq_D => midnight t
  | freq_W => Nat.iter (Z.to_nat (6 - dayofweek t)) next_day (midnight t)
  | freq_M => set_day (days_in_month (year t) (month t)) (midnight t)
  end.

Definition group_key : Type := datetime * string * string.

Definition key_of (f : freq) (r : chat_row) : group_key :=
  (time_bucket f (Time r), Weekday r, Speaker r).

Definition datetime_compare (a b : datetime) : comparison :=
  match (year a ?= year b)%Z with
  | Eq => match (month a ?= month b)%Z with
          | Eq => match (day a ?= day b)%Z with
                  | Eq => match (hour a ?= hour b)%Z with
                          | Eq => (minute a ?= minute b)%Z
                          | c => c
                          end
                  | c => c
                  end
          | c => c
          end
  | c => c
  end.

(** The order in which [groupby] sorts its keys: by bin, then by weekday
    name, then by speaker, strings being compared character by character. *)
Definition key_compare (a b : group_key) : comparison :=
  match datetime_compare a.1.1 b.1.1 with
  | Eq => match String.compare a.1.2 b.1.2 with
          | Eq => String.compare a.2 b.2
          | c => c
          end
  | c => c
  end.

Definition key_le (a b : group_key) : Prop := key_compare a b ≠ Gt.

Global Instance key_le_dec : RelDecision key_le.
Proof. intros a b. unfold key_le. apply _. Defined.

(** A row of an aggregate table, after [reset_index] and the flattening of
    the two-level column names. *)
Record agg_row := mk_agg_row {
  agg_Time : datetime;
  agg_Weekday : string;
  agg_Speaker : string;
  Message_count : Z;
  Message_Length_sum : Z;
  Contains_Emoji_mean : Q
}.

Definition agg_key (a : agg_row) : group_key :=
  (agg_Time a, agg_Weekday a, agg_Speaker a).

Definition sum_Z (l : list Z) : Z := foldr Z.add 0%Z l.

(** The rows of [chat] whose key is [k]. *)
Definition group (f : freq) (chat : list chat_row) (k : group_key)
  : list chat_row :=
  filter (λ r, key_of f r = k) chat.

(** [count], [sum] and [mean] over one group. *)
Definition aggregate_group (k : group_key) (g : list chat_row) : agg_row :=
  let n := Z.of_nat (length g) in
  {| agg_Time := k.1.1;
     agg_Weekday := k.1.2;
     agg_Speaker := k.2;
     Message_count := n;
     Message_Length_sum := sum_Z (Message_Length <$> g);
     Contains_Emoji_mean :=
       (inject_Z (sum_Z (Contains_Emoji <$> g)) / inject_Z n)%Q |}.

(** The keys present in [chat], each once, in the order of [groupby]. *)
Definition group_keys (f : freq) (chat : list chat_row) : list group_key :=
  merge_sort key_le (remove_dups (key_of f <$> chat)).

Definition aggregate_by_time (chat : list chat_row) (f : freq)
  : list agg_row :=
  (λ k, aggregate_group k (group f chat k)) <$> group_keys f chat.

(** Times far enough from the two ends of [datetime64[ns]] for every bin
    edge of the three granularities to be in range. *)
Definition in_window (t : datetime) : bool :=
  ((1678 <=? year t) && (year t <=? 2261)
   && (1 <=? month t) && (month t <=? 12)
   && (1 <=? day t) && (day t <=? days_in_month (year t) (month t))
   && (0 <=? hour t) && (hour t <=? 23)
   && (0 <=? minute t) && (minute t <=? 59))%Z.

(** When the group-by of [pd.Grouper(key="Time", freq=f)] raises on a [Time]
    column, and what: the bin edges are computed around the least and the
    greatest time, and one that falls outside [datetime64[ns]] makes the call
    fail. It never does for times of the years 1678 to 2261. *)
Record grouper_limits := mk_grouper_limits {
  grouper_error : freq → list datetime → option exception;
  grouper_window f ts :
    forallb in_window ts = true → grouper_error f ts = None
}.

(** ** The constructor *)

Record WhatsappChat := mk_WhatsappChat {
  chat : list chat_row;
  daily_chat : list agg_row;
  weekly_chat : list agg_row;
  monthly_chat : list agg_row
}.

(** What the constructor asks of the file system: whether the path exists
    (or the [OSError] that [Path.exists] lets through, as for a name that is
    too long), and the lines [open(...).readlines()] gives (or the exception
    opening or decoding raises). *)
Record filesystem := mk_filesystem {
  fs_exists : string → result bool;
  fs_open : string → result (list string)
}.

(** File-system calls, in the order they are made. *)
Inductive event :=
| ev_exists (path : string)
| ev_open (path : string).

Section Constructor.

Variable limits : grouper_limits.

Variable emoji_count : string → Z.

(** [Path.suffix] *)
Variable suffix : string → string.

(** [self.__aggregate_by_time(f)]: the table, unless the group-by raises. *)
Definition try_aggregate_by_time (chat : list chat_row) (f : freq)
  : result (list agg_row) :=
  match grouper_error limits f (Time <$> chat) with
  | Some e => Raise e
  | None => Ok (aggregate_by_time chat f)
  end.

(** Lines 53 to 107: from the lines of the file to the object. *)
Definition build (time_format : string) (lines : list string)
  : result WhatsappChat :=
  cols ← parse_lines time_format lines;
  chat ← make_chat emoji_count cols;
  daily ← try_aggregate_by_time chat freq_D;
  weekly ← try_aggregate_by_time chat freq_W;
  monthly ← try_aggregate_by_time chat freq_M;
  Ok {| chat := chat;
        daily_chat := daily;
        weekly_chat := weekly;
        monthly_chat := monthly |}.

(** [WhatsappChat(chat_file, time_format)]: the calls made to the file
    system and the outcome. Both a [Path] and a [str] argument pass the
    [isinstance] check and are the same path from line 41 on. *)
Definition init (fs : filesystem) (chat_file time_format : string)
  : list event * result WhatsappChat :=
  match fs_exists fs chat_file with
  | Raise e => ([ev_exists chat_file], Raise e)
  | Ok false =>
      ([ev_exists chat_file],
       Raise (ValueError "'chat_file' is not a valid file."))
  | Ok true =>
      if negb (String.eqb (suffix chat_file) ".txt")
      then ([ev_exists chat_file],
            Raise (ValueError "'chat_file' must be a valid .txt file."))
      else if decide (patterns !! time_format = None)
      then ([ev_exists chat_file],
            Raise (ValueError "'time_format' must be a valid format."))
      else ([ev_exists chat_file; ev_open chat_file],
            lines ← fs_open fs chat_file;
            build time_format lines)
  end.

End Constructor.


(** ** Well-formed transcripts *)

(** [line] starts with the stamp of the locale. *)
Definition is_stamp (time_format line : string) : bool :=
  match patterns !! time_format with
  | Some pat => bool_decide (is_Some (re_match pat line))
  | None => false
  end.

(** The stamp read at fixed positions along the template: two characters
    for the day, the month, the hour and the minute, four for the year, one
    for each separator. *)
Fixpoint stamp_fields (ds : list directive) (s : string) (t : datetime)
  : datetime :=
  match ds, s with
  | pct_Y :: ds', String a (String b (String c (String d rest))) =>
      stamp_fields ds' rest (set_year (num4 a b c d) t)
  | pct_d :: ds', String a (String b rest) =>
      stamp_fields ds' rest (set_day (num2 a b) t)
  | pct_m :: ds', String a (String b rest) =>
      stamp_fields ds' rest (set_month (num2 a b) t)
  | pct_H :: ds', String a (String b rest) =>
      stamp_fields ds' rest (set_hour (num2 a b) t)
  | pct_M :: ds', String a (String b rest) =>
      stamp_fields ds' rest (set_minute (num2 a b) t)
  | (Lit _ | Blank) :: ds', String _ rest => stamp_fields ds' rest t
  | _, _ => t
  end.

Definition stamp_time (template : list directive) (matched : string)
  : datetime :=
  stamp_fields template matched epoch.

(** A date of the calendar and a time of the day. *)
Definition valid_datetime (t : datetime) : bool :=
  ((1 <=? year t) && (year t <=? 9999)
   && (1 <=? month t) && (month t <=? 12)
   && (1 <=? day t) && (day t <=? days_in_month (year t) (month t))
   && (0 <=? hour t) && (hour t <=? 23)
   && (0 <=? minute t) && (minute t <=? 59))%Z.

(** A stamp line carries a valid date and time under the template of the
    locale and a colon after its first 20 characters; nothing is asked of the
    other lines. *)
Definition line_ok (time_format line : string) : bool :=
  match patterns !! time_format, datetimes !! time_format with
  | Some pat, Some template =>
      match re_match pat line with
      | Some matched =>
          valid_datetime (stamp_time template matched)
          && contains_chr ":" (slice_from 20 line)
      | None => true
      end
  | _, _ => false
  end.

(** The lines after the first one do not start with a continuation line, and
    each of them is [line_ok]. *)
Definition well_formed (time_format : string) (lines : list string) : bool :=
  let body := drop 1 lines in
  forallb (line_ok time_format) body
  && match body with
     | [] => true
     | first :: _ => is_stamp time_format first
     end.

Definition stamp_count (time_format : string) (lines : list string) : nat :=
  length (filter (λ l, is_stamp time_format l = true) lines).

(** Concatenation of lines, in order. *)
Definition concat_lines (ls : list string) : string :=
  foldr String.append EmptyString ls.

(** The columns of [a] followed by those of [b]. *)
Definition columns_app (a b : columns) : columns :=
  mk_columns (times a ++ times b) (speakers a ++ speakers b)
             (messages a ++ messages b).

(** Example transcript of the specification. *)
Definition nl : string := String newline EmptyString.

Definition example_lines : list string :=
  [ "Messages and calls are end-to-end encrypted." +:+ nl;
    "01/02/2023, 10:00 - Alice: Hello" +:+ nl;
    "there" +:+ nl;
    "01/02/2023, 10:05 - Bob: Hi!" +:+ nl ].

(** ** Inputs used as examples *)

(** A date written month first, read with the "EU" template, after a
    well-formed line. *)
Definition misread_pre : list string := ["01/02/2023, 10:00 - Alice: Hello"].

Definition misread_line : string := "12/31/2023, 10:05 - Bob: Hi!".

Definition orphan_lines : list string := ["notice"; "there"; misread_line].

Definition no_colon_line : string := "01/02/2023, 10:05 - Bob left".

(** [Path.suffix] on the names used below: the text from the last dot on. *)
Fixpoint last_dot (s : string) : option string :=
  match s with
  | EmptyString => None
  | String c s' =>
      match last_dot s' with
      | Some t => Some t
      | None => if Ascii.eqb c "." then Some s else None
      end
  end.

Definition example_suffix (path : string) : string :=
  default EmptyString (last_dot path).

Definition example_fs : filesystem :=
  {| fs_exists := λ _, Ok true; fs_open := λ _, Ok example_lines |}.

(** A file system that allows names of 255 characters: on a longer one
    [exists] raises the [OSError] of [stat], and so does [open]. *)
Definition long_name_fs : filesystem :=
  {| fs_exists := λ path,
       if 255 <? String.length path
       then Raise (OSError "[Errno 36] File name too long")
       else Ok true;
     fs_open := λ path,
       if 255 <? String.length path
       then Raise (OSError "[Errno 36] File name too long")
       else Ok example_lines |}.

(** A name of 304 characters that ends in [.log]. *)
Definition long_name : string :=
  string_of_list_ascii (replicate 300 "x"%char) +:+ ".log".

(** A group-by that never overflows. *)
Definition example_limits : grouper_limits :=
  {| grouper_error := λ _ _, None; grouper_window := λ _ _ _, eq_refl |}.

(** A stand-in for the emoji classifier: it counts the asterisks. *)
Fixpoint count_chr (c : ascii) (s : string) : Z :=
  match s with
  | EmptyString => 0%Z
  | String c' s' => ((if Ascii.eqb c' c then 1 else 0) + count_chr c s')%Z
  end.

Definition example_emoji_count : string → Z := count_chr "*".

Definition example_columns : columns :=
  mk_columns [mk_datetime 2023 2 1 10 0; mk_datetime 2023 2 1 10 5]
             ["Alice"; "Bob"] [" Hello **"; " Hi!"].

Definition example_chat : list chat_row :=
  enrich example_emoji_count <$> records example_columns.

Definition example_row : chat_row :=
  enrich example_emoji_count
    (mk_message_record "Alice" " Hello **" (mk_datetime 2023 2 1 10 0)).

Definition example_agg_row : agg_row :=
  aggregate_group (mk_datetime 2023 2 1 0 0, "Wednesday", "Alice")
    [example_row].

(** The speaker and the message of a stamp line: what [split] gives on the
    text after the first 20 characters. *)
Definition line_speaker (line : string) : string :=
  default EmptyString (split_once ":" (slice_from 20 line) !! 0).

Definition line_message (line : string) : string :=
  default EmptyString (split_once ":" (slice_from 20 line) !! 1).

(** The text the records hold: each speaker, a colon and the message. *)
Definition records_text (c : columns) : string :=
  concat_lines
    (zip_with (λ s m, s +:+ String ":" m) (speakers c) (messages c)).

(** The text the lines hold once the 20-character prefix of each stamp line
    is taken away. *)
Definition lines_text (time_format : string) (lines : list string) : string :=
  concat_lines
    ((λ l, if is_stamp time_format l then slice_from 20 l else l) <$> lines).

(** A transcript with a speaker whose line holds two colons. *)
Definition colon_lines : list string :=
  [ "notice";
    "01/02/2023, 10:00 - Alice: see http://example.org" +:+ nl;
    "and: more" +:+ nl;
    "02/02/2023, 23:59 - Bob: ok" +:+ nl ].

(** The stamp lines among [lines], in their order. *)
Definition stamp_lines (time_format : string) (lines : list string)
  : list string :=
  filter (λ l, is_stamp time_format l = true) lines.

(** The columns the loop gives on [colon_lines]. *)
Definition colon_columns : columns :=
  mk_columns [mk_datetime 2023 2 1 10 0; mk_datetime 2023 2 2 23 59]
             ["Alice"; "Bob"]
             [" see http://example.org" +:+ nl +:+ "and: more" +:+ nl;
              " ok" +:+ nl].

(** A date with its day and its month exchanged. *)
Definition swap_day_month (t : datetime) : datetime :=
  mk_datetime (year t) (day t) (month t) (hour t) (minute t).

Definition swap_columns (c : columns) : columns :=
  mk_columns (swap_day_month <$> times c) (speakers c) (messages c).

(** The two locales that share a pattern. *)
Definition day_month_locales (a b : string) : Prop :=
  (a = "EU" ∧ b = "NA") ∨ (a = "NA" ∧ b = "EU").

(** The key of a coarser table, from the key of the daily table: the bin
    is found from the day alone. *)
Definition coarsen (f : freq) (k : group_key) : group_key :=
  (time_bucket f k.1.1, k.1.2, k.2).

(** The rows of the daily table that fall in the bin of key [k] of the
    table of granularity [f]. *)
Definition daily_rows_of (f : freq) (daily : list agg_row) (k : group_key)
  : list agg_row :=
  filter (λ d, coarsen f (agg_key d) = k) daily.

(** The row of Alice in the weekly table of [example_chat]: the week of
    Wednesday 2023-02-01 ends on Sunday 2023-02-05. *)
Definition example_weekly_row : agg_row :=
  aggregate_group (mk_datetime 2023 2 5 0 0, "Wednesday", "Alice")
    [example_row].

(** A three-valued comparison that decides a strict total order. *)
Record order_compare {A} (cmp : A → A → comparison) : Prop :=
  mk_order_compare {
    cmp_eq a b : cmp a b = Eq → a = b;
    cmp_antisym a b : cmp a b = CompOpp (cmp b a);
    cmp_trans a b c : cmp a b = Lt → cmp b c = Lt → cmp a c = Lt
  }.

(** Comparison of pairs, first components first. *)
Definition lex_compare {A B} (cmpA : A → A → comparison)
    (cmpB : B → B → comparison) (a b : A * B) : comparison :=
  match cmpA a.1 b.1 with
  | Eq => cmpB a.2 b.2
  | c => c
  end.

(** A row comes before another one in the order of [groupby]. *)
Definition row_lt (a b : agg_row) : Prop :=
  key_compare (agg_key a) (agg_key b) = Lt.

(** The ordinal of the day of [t]. *)
Definition ordinal (t : datetime) : Z := ymd2ord (year t) (month t) (day t).

(** A day of the calendar, from year 1 on. *)
Definition is_date (t : datetime) : Prop :=
  (1 ≤ year t ∧ 1 ≤ month t ≤ 12
   ∧ 1 ≤ day t ≤ days_in_month (year t) (month t))%Z.

(** * Properties *)

(** ** Results *)

Ltac unfold_bind := unfold mbind, result_bind, bind in *.

Lemma bind_Ok {A B} (r : result A) (k : A → result B) b :
  r ≫= k = Ok b → ∃ a, r = Ok a ∧ k a = Ok b.
Proof. destruct r as [a|e]; unfold_bind; [eauto | discriminate]. Qed.

Lemma bind_Raise {A B} (k : A → result B) e :
  Raise e ≫= k = Raise e.
Proof. reflexivity. Qed.

(** ** Strings *)

Lemma string_app_nil (b : string) : EmptyString +:+ b = b.
Proof. reflexivity. Qed.

Lemma string_app_cons c (a b : string) : String c a +:+ b = String c (a +:+ b).
Proof. reflexivity. Qed.

Lemma string_app_assoc (a b c : string) : (a +:+ b) +:+ c = a +:+ (b +:+ c).
Proof.
  induction a as [|x a IH]; [done |].
  by rewrite !string_app_cons, IH.
Qed.

Lemma string_app_empty_r (a : string) : a +:+ EmptyString = a.
Proof.
  induction a as [|x a IH]; [done |].
  by rewrite string_app_cons, IH.
Qed.

Lemma split_once_cases sep s :
  (contains_chr sep s = false ∧ split_once sep s = [s])
  ∨ (contains_chr sep s = true ∧ ∃ a b, split_once sep s = [a; b]).
Proof.
  induction s as [|c s IH]; simpl; [by left |].
  destruct (Ascii.eqb c sep); simpl; [right; eauto |].
  destruct IH as [[-> ->] | [-> (a & b & ->)]]; [by left | right; eauto].
Qed.

Lemma split_once_no_sep sep s :
  contains_chr sep s = false → split_once sep s = [s].
Proof. destruct (split_once_cases sep s) as [[_ ?] | [? _]]; [done | congruence]. Qed.

Lemma split_once_sep sep s :
  contains_chr sep s = true → ∃ a b, split_once sep s = [a; b].
Proof. destruct (split_once_cases sep s) as [[? _] | [_ ?]]; [congruence | done]. Qed.

(** What [split] returns joins back to the text it split. *)
Lemma split_once_join sep s a b :
  split_once sep s = [a; b] → s = a +:+ String sep b.
Proof.
  revert a; induction s as [|c s IH]; intros a; simpl; [discriminate |].
  destruct (Ascii.eqb_spec c sep) as [-> | _].
  - by intros [= <- <-].
  - destruct (split_once sep s) as [|a' [|b' [|? ?]]] eqn:E; try discriminate.
    intros [= <- <-]. rewrite string_app_cons. f_equal. by apply IH.
Qed.

(** ** The last element of a list *)

Lemma get_last_snoc xs x : get_last (xs ++ [x]) = Ok x.
Proof.
  unfold get_last. rewrite length_app; simpl.
  replace (length xs + 1 - 1) with (length xs) by lia.
  by rewrite list_lookup_middle.
Qed.

Lemma set_last_snoc xs x v : set_last (xs ++ [x]) v = Ok (xs ++ [v]).
Proof.
  unfold set_last. rewrite length_app; simpl.
  replace (length xs + 1 - 1) with (length xs) by lia.
  rewrite list_lookup_middle by done.
  replace (length xs) with (length xs + 0) at 1 by lia.
  by rewrite insert_app_r.
Qed.

Lemma get_last_nil : get_last [] = Raise (IndexError "list index out of range").
Proof. reflexivity. Qed.

Lemma snoc_cases {A} (l : list A) : l = [] ∨ ∃ l' x, l = l' ++ [x].
Proof.
  induction l as [|a l IH] using rev_ind; [by left | right; eauto].
Qed.

(** ** The two dictionaries *)

Lemma patterns_None time_format :
  patterns !! time_format = None ↔ time_format ∉ ["EU"; "NA"; "JP"].
Proof.
  unfold patterns; simpl.
  rewrite !lookup_insert_None, !not_elem_of_cons.
  split.
  - intros [[[_ ?] ?] ?]. repeat split; try congruence. apply not_elem_of_nil.
  - intros (? & ? & ? & _). repeat split; congruence.
Qed.

Lemma datetimes_None time_format :
  datetimes !! time_format = None ↔ time_format ∉ ["EU"; "NA"; "JP"].
Proof.
  unfold datetimes; simpl.
  rewrite !lookup_insert_None, !not_elem_of_cons.
  split.
  - intros [[[_ ?] ?] ?]. repeat split; try congruence. apply not_elem_of_nil.
  - intros (? & ? & ? & _). repeat split; congruence.
Qed.

(** Both dictionaries have the same keys: [datetimes[time_format]] cannot
    raise once [time_format in patterns] holds. *)
Lemma datetimes_of_patterns time_format pat :
  patterns !! time_format = Some pat →
  ∃ template, datetimes !! time_format = Some template.
Proof.
  intros Hpat. destruct (datetimes !! time_format) as [t|] eqn:E; [eauto |].
  apply datetimes_None, patterns_None in E. congruence.
Qed.

(** ** [strptime] on a matched stamp *)

Lemma is_digit_inv c :
  is_digit c = true →
  c ∈ ["0"; "1"; "2"; "3"; "4"; "5"; "6"; "7"; "8"; "9"]%char.
Proof.
  destruct c as [[] [] [] [] [] [] [] []]; intros H;
    try (vm_compute in H; discriminate H);
    rewrite !elem_of_cons; auto 12.
Qed.

Ltac digit_cases H :=
  apply is_digit_inv in H;
  repeat (apply elem_of_cons in H as [-> | H]);
  [.. | by apply elem_of_nil in H].

Lemma d_two_range c1 c2 :
  is_digit c1 = true → is_digit c2 = true →
  d_two c1 c2 = ((1 <=? num2 c1 c2) && (num2 c1 c2 <=? 31))%Z.
Proof. intros H1 H2. digit_cases H1; digit_cases H2; reflexivity. Qed.

Lemma m_two_range c1 c2 :
  is_digit c1 = true → is_digit c2 = true →
  m_two c1 c2 = ((1 <=? num2 c1 c2) && (num2 c1 c2 <=? 12))%Z.
Proof. intros H1 H2. digit_cases H1; digit_cases H2; reflexivity. Qed.

Lemma H_two_range c1 c2 :
  is_digit c1 = true → is_digit c2 = true →
  H_two c1 c2 = (num2 c1 c2 <=? 23)%Z.
Proof. intros H1 H2. digit_cases H1; digit_cases H2; reflexivity. Qed.

Lemma M_two_range c1 c2 :
  is_digit c1 = true → is_digit c2 = true →
  M_two c1 c2 = (num2 c1 c2 <=? 59)%Z.
Proof. intros H1 H2. digit_cases H1; digit_cases H2; reflexivity. Qed.

Lemma digit_value_range c : is_digit c = true → (0 ≤ digit_value c ≤ 9)%Z.
Proof. intros H. digit_cases H; vm_compute; split; discriminate. Qed.

Lemma digit_not_space c : is_digit c = true → is_space c = false.
Proof. intros H. digit_cases H; reflexivity. Qed.

Lemma digit_not_blank c : is_digit c = true → Ascii.eqb c " " = false.
Proof. intros H. digit_cases H; reflexivity. Qed.

Lemma digit_not_sep c sep :
  is_digit c = true → is_digit sep = false → Ascii.eqb c sep = false.
Proof.
  intros Hc Hsep. destruct (Ascii.eqb_spec c sep) as [-> |]; [congruence | done].
Qed.

Lemma first_some_one {A B} (f : A → option B) x : first_some f [x] = f x.
Proof. simpl. by destruct (f x). Qed.

Lemma first_some_two {A B} (f : A → option B) x y :
  f y = None → first_some f [x; y] = f x.
Proof. intros Hy. simpl. rewrite Hy. by destruct (f x). Qed.

Lemma match_Lit c ds rest t :
  match_format (Lit c :: ds) (String c rest) t = match_format ds rest t.
Proof.
  simpl. rewrite Ascii.eqb_refl.
  apply (first_some_one (λ c0, match_format ds c0.2 (c0.1 t))).
Qed.

Lemma match_Lit_digit c sep ds rest t :
  is_digit c = true → is_digit sep = false →
  match_format (Lit sep :: ds) (String c rest) t = None.
Proof.
  intros Hc Hsep. simpl. by rewrite (digit_not_sep _ _ Hc Hsep).
Qed.

(** A directive of one or two digits in front of a separator: only the
    alternative of two digits lets the separator match. *)
Section two_digits.

Context (d : directive) (two : ascii → ascii → bool) (one : ascii → bool)
        (set : Z → datetime → datetime).
Hypothesis Hcand : ∀ c1 c2 rest,
  is_digit c1 = true →
  candidates d (String c1 (String c2 rest))
  = prod_map set id <$>
      (two_chars two (String c1 (String c2 rest))
       ++ one_char one (String c1 (String c2 rest))).

Lemma match_two_digits c1 c2 sep ds rest t :
  is_digit c1 = true → is_digit c2 = true → is_digit sep = false →
  match_format (d :: Lit sep :: ds) (String c1 (String c2 (String sep rest))) t
  = if two c1 c2 then match_format ds rest (set (num2 c1 c2) t) else None.
Proof using Hcand.
  intros H1 H2 Hsep.
  change (match_format (d :: Lit sep :: ds) ?s t)
    with (first_some (λ c, match_format (Lit sep :: ds) c.2 (c.1 t))
            (candidates d s)).
  rewrite Hcand by done. unfold two_chars, one_char.
  destruct (two c1 c2), (one c1); simpl fmap; simpl app.
  - rewrite first_some_two; simpl; [apply match_Lit |].
    by apply match_Lit_digit.
  - rewrite first_some_one; simpl. apply match_Lit.
  - rewrite first_some_one; simpl. by apply match_Lit_digit.
  - done.
Qed.
End two_digits.

Lemma candidates_d c1 c2 rest :
  is_digit c1 = true →
  candidates pct_d (String c1 (String c2 rest))
  = prod_map set_day id <$>
      (two_chars d_two (String c1 (String c2 rest))
       ++ one_char (chr_between "1" "9") (String c1 (String c2 rest))).
Proof.
  intros H1. unfold candidates, alts_d.
  rewrite (digit_not_blank _ H1). by rewrite app_nil_r.
Qed.

Lemma match_d c1 c2 sep ds rest t :
  is_digit c1 = true → is_digit c2 = true → is_digit sep = false →
  match_format (pct_d :: Lit sep :: ds)
    (String c1 (String c2 (String sep rest))) t
  = if ((1 <=? num2 c1 c2) && (num2 c1 c2 <=? 31))%Z
    then match_format ds rest (set_day (num2 c1 c2) t) else None.
Proof.
  intros H1 H2 Hs. rewrite <- d_two_range by done.
  by apply (match_two_digits pct_d d_two (chr_between "1" "9") set_day
              candidates_d).
Qed.

Lemma match_m c1 c2 sep ds rest t :
  is_digit c1 = true → is_digit c2 = true → is_digit sep = false →
  match_format (pct_m :: Lit sep :: ds)
    (String c1 (String c2 (String sep rest))) t
  = if ((1 <=? num2 c1 c2) && (num2 c1 c2 <=? 12))%Z
    then match_format ds rest (set_month (num2 c1 c2) t) else None.
Proof.
  intros H1 H2 Hs. rewrite <- m_two_range by done.
  by apply (match_two_digits pct_m m_two (chr_between "1" "9") set_month).
Qed.

Lemma match_H c1 c2 sep ds rest t :
  is_digit c1 = true → is_digit c2 = true → is_digit sep = false →
  match_format (pct_H :: Lit sep :: ds)
    (String c1 (String c2 (String sep rest))) t
  = if (num2 c1 c2 <=? 23)%Z
    then match_format ds rest (set_hour (num2 c1 c2) t) else None.
Proof.
  intros H1 H2 Hs. rewrite <- H_two_range by done.
  by apply (match_two_digits pct_H H_two is_digit set_hour).
Qed.

Lemma match_Y c1 c2 c3 c4 sep ds rest t :
  is_digit c1 = true → is_digit c2 = true →
  is_digit c3 = true → is_digit c4 = true →
  match_format (pct_Y :: Lit sep :: ds)
    (String c1 (String c2 (String c3 (String c4 (String sep rest))))) t
  = match_format ds rest (set_year (num4 c1 c2 c3 c4) t).
Proof.
  intros H1 H2 H3 H4.
  change (match_format (pct_Y :: Lit sep :: ds) ?s t)
    with (first_some (λ c, match_format (Lit sep :: ds) c.2 (c.1 t))
            (candidates pct_Y s)).
  unfold candidates, alts_Y. rewrite H1, H2, H3, H4. simpl fmap.
  rewrite first_some_one. simpl. apply match_Lit.
Qed.

Lemma match_Blank c ds rest t :
  is_digit c = true →
  match_format (Blank :: ds) (String " " (String c rest)) t
  = match_format ds (String c rest) t.
Proof.
  intros Hc.
  change (match_format (Blank :: ds) ?s t)
    with (first_some (λ c, match_format ds c.2 (c.1 t)) (candidates Blank s)).
  unfold candidates. simpl alts_blank.
  rewrite (digit_not_space _ Hc). simpl.
  by destruct (match_format ds (String c rest) t).
Qed.

Lemma match_M_end c1 c2 t :
  is_digit c1 = true → is_digit c2 = true →
  match_format [pct_M] (String c1 (String c2 EmptyString)) t
  = if (num2 c1 c2 <=? 59)%Z
    then Some (set_minute (num2 c1 c2) t, EmptyString)
    else Some (set_minute (digit_value c1) t, String c2 EmptyString).
Proof.
  intros H1 H2. rewrite <- M_two_range by done.
  unfold match_format, candidates, alts_M, two_chars, one_char.
  rewrite H1. by destruct (M_two c1 c2).
Qed.


Lemma re_match_cons a r s :
  re_match (a :: r) s =
    match s with
    | EmptyString => None
    | String c s' => if atom_matches a c then String c <$> re_match r s' else None
    end.
Proof. reflexivity. Qed.

Lemma re_match_Some_cons a r s m :
  re_match (a :: r) s = Some m →
  ∃ c s' m', s = String c s' ∧ m = String c m'
             ∧ atom_matches a c = true ∧ re_match r s' = Some m'.
Proof.
  rewrite re_match_cons. destruct s as [|c s']; [done |].
  destruct (atom_matches a c) eqn:Ha; [|done].
  destruct (re_match r s') as [m'|] eqn:Hm; simpl; [|done].
  intros [= <-]. by exists c, s', m'.
Qed.

Lemma re_match_Some_nil s m : re_match [] s = Some m → m = EmptyString.
Proof. by intros [= <-]. Qed.

Lemma atom_matches_Chr c c' : atom_matches (Chr c') c = true → c = c'.
Proof. apply Ascii.eqb_eq. Qed.

Lemma valid_datetime_spec t :
  valid_datetime t = true ↔
    (1 ≤ year t ≤ 9999 ∧ 1 ≤ month t ≤ 12
     ∧ 1 ≤ day t ≤ days_in_month (year t) (month t)
     ∧ 0 ≤ hour t ≤ 23 ∧ 0 ≤ minute t ≤ 59)%Z.
Proof.
  unfold valid_datetime. rewrite !andb_true_iff, !Z.leb_le. tauto.
Qed.

Lemma days_in_month_bounds y m : (28 ≤ days_in_month y m ≤ 31)%Z.
Proof.
  unfold days_in_month.
  destruct (m =? 2)%Z; [destruct (is_leap y); lia |].
  destruct (_ || _); lia.
Qed.

Lemma num2_range a b :
  is_digit a = true → is_digit b = true → (0 ≤ num2 a b ≤ 99)%Z.
Proof.
  intros Ha%digit_value_range Hb%digit_value_range. unfold num2. lia.
Qed.

Lemma num4_range a b c d :
  is_digit a = true → is_digit b = true →
  is_digit c = true → is_digit d = true → (0 ≤ num4 a b c d ≤ 9999)%Z.
Proof.
  intros Ha%digit_value_range Hb%digit_value_range
         Hc%digit_value_range Hd%digit_value_range.
  unfold num4. lia.
Qed.


Ltac invert_stamp H :=
  repeat
    (let c := fresh "c" in
     let Hc := fresh "Hc" in
     apply re_match_Some_cons in H as (c & ? & ? & -> & -> & Hc & H);
     first [apply atom_matches_Chr in Hc; subst c
           | change (is_digit c = true) in Hc]);
  apply re_match_Some_nil in H; subst.

Ltac decide_tests :=
  repeat match goal with
    | |- context [(?a <=? ?b)%Z] =>
        first [rewrite (proj2 (Z.leb_le a b)) by lia
              | rewrite (proj2 (Z.leb_gt a b)) by lia]
    | |- context [(?a <? ?b)%Z] =>
        first [rewrite (proj2 (Z.ltb_lt a b)) by lia
              | rewrite (proj2 (Z.ltb_ge a b)) by lia]
    end.

Ltac props_of_tests :=
  repeat match goal with
    | H : _ && _ = true |- _ => apply andb_true_iff in H as [? ?]
    | H : _ || _ = false |- _ => apply orb_false_iff in H as [? ?]
    | H : (_ <=? _)%Z = true |- _ => apply Z.leb_le in H
    | H : (_ <? _)%Z = false |- _ => apply Z.ltb_ge in H
    end.

Ltac finish_stamp :=
  unfold strptime, stamp_time;
  repeat first [rewrite match_d by done | rewrite match_m by done
               | rewrite match_Y by done | rewrite match_Blank by done
               | rewrite match_H by done | rewrite match_M_end by done];
  cbn [stamp_fields];
  unfold epoch, set_day, set_month, set_year, set_hour, set_minute,
    MINYEAR, MAXYEAR;
  cbn [year month day hour minute];
  repeat match goal with
    | |- context [num2 ?a ?b] =>
        let H := fresh in
        assert (0 ≤ num2 a b ≤ 99)%Z as H by (by apply num2_range);
        generalize dependent (num2 a b); intros
    | |- context [num4 ?a ?b ?c ?d] =>
        let H := fresh in
        assert (0 ≤ num4 a b c d ≤ 9999)%Z as H by (by apply num4_range);
        generalize dependent (num4 a b c d); intros
    end;
  let V := fresh "V" in
  match goal with
  | |- if valid_datetime ?t then _ else _ =>
      destruct (valid_datetime t) eqn:V
  end;
  [ apply valid_datetime_spec in V; cbn [year month day hour minute] in V;
    match type of V with
    | context [days_in_month ?y ?m] =>
        pose proof (days_in_month_bounds y m)
    end;
    repeat (decide_tests; cbn [andb orb year month day hour minute]);
    reflexivity
  | repeat match goal with
      | |- context [if ?b then _ else _] =>
          let E := fresh "E" in
          destruct b eqn:E;
          cbn [andb orb year month day hour minute];
          try reflexivity
      end;
    exfalso; apply not_true_iff_false in V; apply V;
    apply valid_datetime_spec; cbn [year month day hour minute];
    props_of_tests; lia ].

Lemma strptime_stamp_EU line m :
  re_match pattern_EU line = Some m →
  if valid_datetime (stamp_time template_EU m)
  then strptime m template_EU = Ok (stamp_time template_EU m)
  else is_ok (strptime m template_EU) = false.
Proof.
  unfold pattern_EU, digits, lit. simpl app. intros H.
  invert_stamp H. unfold template_EU. finish_stamp.
Qed.

Lemma strptime_stamp_NA line m :
  re_match pattern_NA line = Some m →
  if valid_datetime (stamp_time template_NA m)
  then strptime m template_NA = Ok (stamp_time template_NA m)
  else is_ok (strptime m template_NA) = false.
Proof.
  unfold pattern_NA, digits, lit. simpl app. intros H.
  invert_stamp H. unfold template_NA. finish_stamp.
Qed.

Lemma strptime_stamp_JP line m :
  re_match pattern_JP line = Some m →
  if valid_datetime (stamp_time template_JP m)
  then strptime m template_JP = Ok (stamp_time template_JP m)
  else is_ok (strptime m template_JP) = false.
Proof.
  unfold pattern_JP, digits, lit. simpl app. intros H.
  invert_stamp H. unfold template_JP. finish_stamp.
Qed.

Lemma locale_cases time_format pat template :
  patterns !! time_format = Some pat →
  datetimes !! time_format = Some template →
  (pat = pattern_EU ∧ template = template_EU)
  ∨ (pat = pattern_NA ∧ template = template_NA)
  ∨ (pat = pattern_JP ∧ template = template_JP).
Proof.
  unfold patterns, datetimes; simpl.
  rewrite !lookup_insert_Some, !lookup_empty.
  intros [[<- <-] | [? [[<- <-] | [? [[<- <-] | [_ ?]]]]]];
    intros [[? <-] | [? [[? <-] | [? [[? <-] | [_ ?]]]]]];
    try done; auto.
Qed.

(** On the text a pattern of [patterns] has matched, [strptime] with the
    template of the same locale returns the fields read at their fixed
    positions when they form a valid date and time, and raises otherwise. *)
Lemma strptime_stamp time_format pat template line matched :
  patterns !! time_format = Some pat →
  datetimes !! time_format = Some template →
  re_match pat line = Some matched →
  if valid_datetime (stamp_time template matched)
  then strptime matched template = Ok (stamp_time template matched)
  else is_ok (strptime matched template) = false.
Proof.
  intros Hpat Htemplate Hm.
  destruct (locale_cases _ _ _ Hpat Htemplate)
    as [[-> ->] | [[-> ->] | [-> ->]]].
  - by eapply strptime_stamp_EU.
  - by eapply strptime_stamp_NA.
  - by eapply strptime_stamp_JP.
Qed.

Lemma strptime_stamp_Ok time_format pat template line matched :
  patterns !! time_format = Some pat →
  datetimes !! time_format = Some template →
  re_match pat line = Some matched →
  valid_datetime (stamp_time template matched) = true →
  strptime matched template = Ok (stamp_time template matched).
Proof.
  intros Hpat Htemplate Hm Hv.
  pose proof (strptime_stamp _ _ _ _ _ Hpat Htemplate Hm) as H.
  by rewrite Hv in H.
Qed.

Lemma strptime_Raise data format e :
  strptime data format = Raise e → ∃ msg, e = ValueError msg.
Proof.
  unfold strptime.
  destruct (match_format _ _ _) as [[t [|c rest]]|]; [| |];
    try (intros [= <-]; eauto).
  destruct (_ || _); [intros [= <-]; eauto |].
  destruct (_ <? _)%Z; [intros [= <-]; eauto | done].
Qed.

Lemma strptime_stamp_Raise time_format pat template line matched :
  patterns !! time_format = Some pat →
  datetimes !! time_format = Some template →
  re_match pat line = Some matched →
  valid_datetime (stamp_time template matched) = false →
  ∃ msg, strptime matched template = Raise (ValueError msg).
Proof.
  intros Hpat Htemplate Hm Hv.
  pose proof (strptime_stamp _ _ _ _ _ Hpat Htemplate Hm) as H.
  rewrite Hv in H.
  destruct (strptime matched template) as [t|e] eqn:E; [done |].
  destruct (strptime_Raise _ _ _ E) as [msg ->]. eauto.
Qed.

(** ** One line *)

Section Line.

Context (time_format : string) (pat : regex) (template : list directive).
Hypothesis Hpat : patterns !! time_format = Some pat.
Hypothesis Htemplate : datetimes !! time_format = Some template.

Lemma process_line_stamp st line matched :
  re_match pat line = Some matched →
  process_line time_format st line =
    (time ← strptime matched template;
     '(speaker, message) ← unpack2 (split_once ":" (slice_from 20 line));
     Ok (mk_columns (times st ++ [time]) (speakers st ++ [speaker])
                    (messages st ++ [message]))).
Proof using Hpat Htemplate.
  intros Hm. unfold process_line, getitem.
  rewrite Hpat, Htemplate. unfold_bind. by rewrite Hm.
Qed.

Lemma process_line_continuation st line :
  re_match pat line = None →
  process_line time_format st line =
    (last ← get_last (messages st);
     messages' ← set_last (messages st) (last +:+ line);
     Ok (mk_columns (times st) (speakers st) messages')).
Proof using Hpat.
  intros Hm. unfold process_line, getitem.
  rewrite Hpat. unfold_bind. by rewrite Hm.
Qed.

Lemma process_line_continuation_snoc st line ms m :
  re_match pat line = None →
  messages st = ms ++ [m] →
  process_line time_format st line =
    Ok (mk_columns (times st) (speakers st) (ms ++ [m +:+ line])).
Proof using Hpat.
  intros Hm Hms. rewrite process_line_continuation by done.
  rewrite Hms, get_last_snoc. unfold_bind. by rewrite set_last_snoc.
Qed.

Lemma process_line_continuation_nil st line :
  re_match pat line = None →
  messages st = [] →
  process_line time_format st line =
    Raise (IndexError "list index out of range").
Proof using Hpat.
  intros Hm Hms. rewrite process_line_continuation by done.
  by rewrite Hms.
Qed.

(** A stamp line is processed the same way whatever was read before it. *)
Lemma process_line_stamp_Ok st line matched time speaker message :
  re_match pat line = Some matched →
  strptime matched template = Ok time →
  split_once ":" (slice_from 20 line) = [speaker; message] →
  process_line time_format st line =
    Ok (columns_app st (mk_columns [time] [speaker] [message])).
Proof using Hpat Htemplate.
  intros Hm Ht Hs. rewrite (process_line_stamp _ _ _ Hm), Ht, Hs.
  reflexivity.
Qed.

Lemma process_line_stamp_Raise st line matched e :
  re_match pat line = Some matched →
  strptime matched template = Raise e →
  process_line time_format st line = Raise e.
Proof using Hpat Htemplate.
  intros Hm Ht. by rewrite (process_line_stamp _ _ _ Hm), Ht.
Qed.

Lemma process_line_no_colon st line matched time :
  re_match pat line = Some matched →
  strptime matched template = Ok time →
  contains_chr ":" (slice_from 20 line) = false →
  process_line time_format st line =
    Raise (ValueError "not enough values to unpack (expected 2)").
Proof using Hpat Htemplate.
  intros Hm Ht Hc. rewrite (process_line_stamp _ _ _ Hm), Ht.
  by rewrite (split_once_no_sep _ _ Hc).
Qed.

End Line.

(** ** The loop *)

Lemma process_lines_app time_format st l1 l2 :
  process_lines time_format st (l1 ++ l2) =
    (st' ← process_lines time_format st l1; process_lines time_format st' l2).
Proof.
  revert st; induction l1 as [|l l1 IH]; intros st; [done |].
  simpl. destruct (process_line time_format st l) as [st1|e]; [|done].
  unfold_bind. apply IH.
Qed.

Lemma process_lines_cons time_format st l ls :
  process_lines time_format st (l :: ls) =
    (st' ← process_line time_format st l; process_lines time_format st' ls).
Proof. reflexivity. Qed.

(** A line that fails fails the loop, wherever it stands. *)
Lemma process_lines_Raise_at time_format st pre line post :
  (∀ st', ∃ e, process_line time_format st' line = Raise e) →
  ∃ e, process_lines time_format st (pre ++ line :: post) = Raise e.
Proof.
  intros Hline. rewrite process_lines_app.
  destruct (process_lines time_format st pre) as [st1|e]; [|by exists e].
  unfold_bind. rewrite process_lines_cons.
  destruct (Hline st1) as [e ->]. by exists e.
Qed.

Lemma process_lines_Raise_first time_format st st1 pre line post e :
  process_lines time_format st pre = Ok st1 →
  process_line time_format st1 line = Raise e →
  process_lines time_format st (pre ++ line :: post) = Raise e.
Proof.
  intros Hpre Hline. rewrite process_lines_app, Hpre.
  unfold_bind. by rewrite process_lines_cons, Hline.
Qed.

(** Continuation lines extend the last message and nothing else. *)
Lemma process_lines_continuations time_format pat ts ss ms m conts :
  patterns !! time_format = Some pat →
  Forall (λ l, re_match pat l = None) conts →
  process_lines time_format (mk_columns ts ss (ms ++ [m])) conts =
    Ok (mk_columns ts ss (ms ++ [m +:+ concat_lines conts])).
Proof.
  intros Hpat Hall. revert m.
  induction Hall as [|l conts Hl _ IH]; intros m; simpl.
  - by rewrite string_app_empty_r.
  - rewrite (process_line_continuation_snoc _ _ Hpat
               (mk_columns ts ss (ms ++ [m])) _ ms m Hl eq_refl).
    unfold_bind; simpl. rewrite IH.
    change (concat_lines (l :: conts)) with (l +:+ concat_lines conts).
    by rewrite string_app_assoc.
Qed.

(** What was read before is left alone by the lines that follow, as soon as
    they can be processed on their own. *)
Lemma process_line_frame time_format st0 st line st' :
  process_line time_format st line = Ok st' →
  process_line time_format (columns_app st0 st) line = Ok (columns_app st0 st').
Proof.
  unfold process_line, getitem.
  destruct (patterns !! time_format) as [pat|]; [|done].
  unfold_bind. destruct (re_match pat line) as [matched|].
  - destruct (datetimes !! time_format) as [template|]; [|done].
    destruct (strptime matched template) as [time|]; [|done].
    destruct (unpack2 _) as [[speaker message]|]; [|done].
    intros [= <-]. unfold columns_app; simpl. by rewrite !app_assoc.
  - destruct (snoc_cases (messages st)) as [Hnil | (ms & m & Hms)].
    + by rewrite Hnil.
    + rewrite Hms, get_last_snoc, set_last_snoc. intros [= <-].
      unfold columns_app; simpl.
      rewrite Hms, app_assoc, get_last_snoc, set_last_snoc.
      by rewrite app_assoc.
Qed.

Lemma process_lines_frame time_format st0 st lines st' :
  process_lines time_format st lines = Ok st' →
  process_lines time_format (columns_app st0 st) lines =
    Ok (columns_app st0 st').
Proof.
  revert st; induction lines as [|l lines IH]; intros st; simpl.
  - by intros [= <-].
  - intros (st1 & H1 & H2)%bind_Ok.
    rewrite (process_line_frame _ _ _ _ _ H1). unfold_bind. by apply IH.
Qed.

Lemma columns_app_nil_r st : columns_app st no_columns = st.
Proof. destruct st. unfold columns_app; simpl. by rewrite !app_nil_r. Qed.

Lemma columns_app_assoc a b c :
  columns_app (columns_app a b) c = columns_app a (columns_app b c).
Proof. unfold columns_app; simpl. by rewrite !app_assoc. Qed.

(** ** The three lists stay aligned *)

Lemma balanced_no_columns : balanced no_columns.
Proof. by split. Qed.

Lemma set_last_length xs v xs' : set_last xs v = Ok xs' → length xs' = length xs.
Proof.
  unfold set_last. destruct (xs !! _); [|done].
  intros [= <-]. apply length_insert.
Qed.

Lemma process_line_balanced time_format st line st' :
  balanced st → process_line time_format st line = Ok st' → balanced st'.
Proof.
  intros [H1 H2]. unfold process_line, getitem.
  destruct (patterns !! time_format) as [pat|]; [|done].
  unfold_bind. destruct (re_match pat line) as [matched|].
  - destruct (datetimes !! time_format) as [template|]; [|done].
    destruct (strptime matched template) as [time|]; [|done].
    destruct (unpack2 _) as [[speaker message]|]; [|done].
    intros [= <-]. unfold balanced; simpl. rewrite !length_app; simpl. lia.
  - destruct (get_last (messages st)) as [last|]; [|done].
    destruct (set_last _ _) as [ms'|] eqn:Hset; [|done].
    intros [= <-]. apply set_last_length in Hset.
    unfold balanced; simpl. lia.
Qed.

Lemma process_lines_balanced time_format st lines st' :
  balanced st → process_lines time_format st lines = Ok st' → balanced st'.
Proof.
  revert st; induction lines as [|l lines IH]; intros st Hb; simpl.
  - by intros [= <-].
  - intros (st1 & H1 & H2)%bind_Ok.
    eapply IH; [|done]. by eapply process_line_balanced.
Qed.

Lemma parse_lines_balanced time_format lines cols :
  parse_lines time_format lines = Ok cols → balanced cols.
Proof. apply process_lines_balanced, balanced_no_columns. Qed.

Lemma DataFrame_balanced c : balanced c → DataFrame c = Ok (records c).
Proof. intros Hb. unfold DataFrame. by rewrite decide_True. Qed.

Lemma zip_columns_length ss ms ts :
  length ss = length ms → length ms = length ts →
  length (zip_columns ss ms ts) = length ts.
Proof.
  revert ms ts; induction ss as [|s ss IH]; intros [|m ms] [|t ts] H1 H2;
    simplify_eq/=; [done |]. f_equal. by apply IH.
Qed.

Lemma zip_columns_app ss ms ts ss' ms' ts' :
  length ss = length ms → length ms = length ts →
  zip_columns (ss ++ ss') (ms ++ ms') (ts ++ ts') =
    zip_columns ss ms ts ++ zip_columns ss' ms' ts'.
Proof.
  revert ms ts; induction ss as [|s ss IH]; intros [|m ms] [|t ts] H1 H2;
    simplify_eq/=; [done |]. f_equal. by apply IH.
Qed.

Lemma records_length c : balanced c → length (records c) = length (times c).
Proof. intros [H1 H2]. by apply zip_columns_length. Qed.

Lemma records_app a b :
  balanced a → records (columns_app a b) = records a ++ records b.
Proof. intros [H1 H2]. by apply zip_columns_app. Qed.

(** ** Continuation folding *)

(** C2. A stamp line followed by continuation lines gives one record, whose
    message is the text after the first colon of the stamp line followed by
    the continuation lines as they are, line feed included: for every
    transcript made of a first line, lines [pre] that the loop accepts, the
    stamp line, its continuation lines [conts] and lines [post] that the loop
    accepts on their own, the records are those of [pre], this one record,
    and those of [post]. *)
Theorem continuation_folding
    time_format pat template header pre line conts post
    st_pre st_post matched time speaker body :
  patterns !! time_format = Some pat →
  datetimes !! time_format = Some template →
  process_lines time_format no_columns pre = Ok st_pre →
  re_match pat line = Some matched →
  strptime matched template = Ok time →
  split_once ":" (slice_from 20 line) = [speaker; body] →
  Forall (λ l, re_match pat l = None) conts →
  process_lines time_format no_columns post = Ok st_post →
  ∃ cols,
    parse_lines time_format (header :: pre ++ line :: conts ++ post) = Ok cols
    ∧ DataFrame cols = Ok (records cols)
    ∧ records cols =
        records st_pre
        ++ mk_message_record speaker (body +:+ concat_lines conts) time
        :: records st_post.
Proof.
  intros Hpat Htemplate Hpre Hm Ht Hs Hconts Hpost.
  pose proof (process_lines_balanced _ _ _ _ balanced_no_columns Hpre) as Hbpre.
  set (one := mk_columns [time] [speaker] [body +:+ concat_lines conts]).
  assert (parse_lines time_format (header :: pre ++ line :: conts ++ post)
          = Ok (columns_app (columns_app st_pre one) st_post)) as Hparse.
  { unfold parse_lines.
    change (drop 1 (header :: ?l)) with l.
    rewrite process_lines_app, Hpre.
    unfold_bind. rewrite process_lines_cons.
    rewrite (process_line_stamp_Ok _ _ _ Hpat Htemplate _ _ _ _ _ _ Hm Ht Hs).
    unfold_bind. rewrite process_lines_app.
    unfold columns_app at 1; simpl.
    rewrite (process_lines_continuations _ _ _ _ _ _ _ Hpat Hconts).
    unfold_bind.
    rewrite <- (columns_app_nil_r (mk_columns _ _ _)).
    by rewrite (process_lines_frame _ _ _ _ _ Hpost). }
  eexists; split; [exact Hparse |].
  split; [by eapply DataFrame_balanced, parse_lines_balanced |].
  rewrite columns_app_assoc, records_app by done.
  f_equal.
Qed.

(** The example transcript: "Hello" continued by "there". *)
Lemma continuation_folding_witness :
  ∃ cols,
    parse_lines "EU" example_lines = Ok cols
    ∧ DataFrame cols = Ok (records cols)
    ∧ records cols =
        [] ++ mk_message_record "Alice"
                (" Hello" +:+ nl +:+ concat_lines ["there" +:+ nl])
                (mk_datetime 2023 2 1 10 0)
        :: [mk_message_record "Bob" (" Hi!" +:+ nl) (mk_datetime 2023 2 1 10 5)].
Proof.
  apply (continuation_folding "EU" pattern_EU template_EU
           ("Messages and calls are end-to-end encrypted." +:+ nl)
           [] ("01/02/2023, 10:00 - Alice: Hello" +:+ nl)
           ["there" +:+ nl]
           ["01/02/2023, 10:05 - Bob: Hi!" +:+ nl]
           no_columns
           (mk_columns [mk_datetime 2023 2 1 10 5] ["Bob"] [" Hi!" +:+ nl])
           "01/02/2023, 10:00" (mk_datetime 2023 2 1 10 0) "Alice"
           (" Hello" +:+ nl)).
  - vm_compute; reflexivity.
  - vm_compute; reflexivity.
  - reflexivity.
  - vm_compute; reflexivity.
  - vm_compute; reflexivity.
  - vm_compute; reflexivity.
  - repeat constructor.
  - vm_compute; reflexivity.
Defined.

(** ** One record per stamp line *)

Lemma is_stamp_Some time_format pat line matched :
  patterns !! time_format = Some pat →
  re_match pat line = Some matched →
  is_stamp time_format line = true.
Proof.
  intros Hpat Hm. unfold is_stamp. rewrite Hpat, Hm.
  by apply bool_decide_eq_true.
Qed.

Lemma is_stamp_None time_format pat line :
  patterns !! time_format = Some pat →
  re_match pat line = None →
  is_stamp time_format line = false.
Proof.
  intros Hpat Hm. unfold is_stamp. rewrite Hpat, Hm.
  apply bool_decide_eq_false. by intros [? ?].
Qed.

Lemma stamp_count_cons time_format line lines :
  stamp_count time_format (line :: lines) =
    (if is_stamp time_format line then 1 else 0)
    + stamp_count time_format lines.
Proof.
  unfold stamp_count. destruct (is_stamp time_format line) eqn:E.
  - by rewrite filter_cons_True.
  - rewrite filter_cons_False; [done | congruence].
Qed.

Lemma process_lines_well_formed time_format st lines :
  balanced st →
  forallb (line_ok time_format) lines = true →
  (messages st ≠ []
   ∨ match lines with
     | [] => True
     | first :: _ => is_stamp time_format first = true
     end) →
  ∃ st', process_lines time_format st lines = Ok st'
    ∧ length (times st') = length (times st) + stamp_count time_format lines.
Proof.
  revert st; induction lines as [|l lines IH]; intros st Hb Hok Hfirst.
  { exists st. split; [done |]. unfold stamp_count; simpl. lia. }
  simpl in Hok. apply andb_prop in Hok as [Hl Hok].
  unfold line_ok in Hl.
  destruct (patterns !! time_format) as [pat|] eqn:Hpat; [|done].
  destruct (datetimes !! time_format) as [template|] eqn:Htemplate; [|done].
  rewrite process_lines_cons, stamp_count_cons.
  destruct (re_match pat l) as [matched|] eqn:Hm.
  - apply andb_prop in Hl as [Ht Hc].
    pose proof (strptime_stamp_Ok _ _ _ _ _ Hpat Htemplate Hm Ht) as Htime.
    set (time := stamp_time template matched) in *.
    destruct (split_once_sep _ _ Hc) as (speaker & message & Hs).
    rewrite (process_line_stamp_Ok _ _ _ Hpat Htemplate _ _ _ _ _ _ Hm Htime Hs).
    rewrite (is_stamp_Some _ _ _ _ Hpat Hm). unfold_bind.
    destruct (IH (columns_app st (mk_columns [time] [speaker] [message])))
      as (st' & Hrun & Hlen).
    + destruct Hb as [H1 H2]. unfold balanced; simpl.
      rewrite !length_app; simpl. lia.
    + done.
    + left. simpl. by destruct (messages st).
    + exists st'. split; [done |]. rewrite Hlen; simpl.
      rewrite length_app; simpl. lia.
  - rewrite (is_stamp_None _ _ _ Hpat Hm) in *.
    destruct Hfirst as [Hne | ?]; [|done].
    destruct (snoc_cases (messages st)) as [? | (ms & m & Hms)]; [done |].
    rewrite (process_line_continuation_snoc _ _ Hpat _ _ _ _ Hm Hms).
    unfold_bind.
    destruct (IH (mk_columns (times st) (speakers st) (ms ++ [m +:+ l])))
      as (st' & Hrun & Hlen).
    + destruct Hb as [H1 H2]. unfold balanced; simpl.
      rewrite Hms in *. rewrite !length_app in *; simpl in *. lia.
    + done.
    + left. simpl. by destruct ms.
    + exists st'. split; [done |]. rewrite Hlen; simpl. lia.
Qed.

Lemma process_line_Ok_line_ok time_format st line st' :
  process_line time_format st line = Ok st' →
  line_ok time_format line = true
  ∧ messages st' ≠ []
  ∧ (messages st = [] → is_stamp time_format line = true).
Proof.
  intros Hrun.
  destruct (patterns !! time_format) as [pat|] eqn:Hpat;
    [|by unfold process_line, getitem in Hrun; rewrite Hpat in Hrun].
  destruct (datetimes_of_patterns _ _ Hpat) as [template Htemplate].
  unfold line_ok. rewrite Hpat, Htemplate.
  destruct (re_match pat line) as [matched|] eqn:Hm.
  - rewrite (process_line_stamp _ _ _ Hpat Htemplate _ _ _ Hm) in Hrun.
    apply bind_Ok in Hrun as (time & Ht & Hrun).
    apply bind_Ok in Hrun as ([speaker message] & Hs & [= <-]).
    pose proof (strptime_stamp _ _ _ _ _ Hpat Htemplate Hm) as Hv.
    destruct (valid_datetime _); [|by rewrite Ht in Hv].
    destruct (split_once_cases ":" (slice_from 20 line))
      as [[_ Hone] | [-> _]].
    { by rewrite Hone in Hs. }
    split; [done |]. split; [simpl; by destruct (messages st) |].
    intros _. by eapply is_stamp_Some.
  - rewrite (process_line_continuation _ _ Hpat _ _ Hm) in Hrun.
    apply bind_Ok in Hrun as (last & Hlast & Hrun).
    apply bind_Ok in Hrun as (ms' & Hset & [= <-]).
    split; [done |].
    destruct (snoc_cases (messages st)) as [Hnil | (ms & m & Hms)].
    { by rewrite Hnil in Hlast. }
    rewrite Hms, set_last_snoc in Hset. injection Hset as <-.
    split; [simpl; by destruct ms |]. intros Hnil. rewrite Hnil in Hms.
    by destruct ms.
Qed.

Lemma process_lines_Ok_line_ok time_format st lines st' :
  process_lines time_format st lines = Ok st' →
  forallb (line_ok time_format) lines = true
  ∧ (messages st = [] →
     match lines with
     | [] => True
     | first :: _ => is_stamp time_format first = true
     end).
Proof.
  revert st; induction lines as [|l lines IH]; intros st; [done |].
  rewrite process_lines_cons. intros (st1 & H1 & Hrest)%bind_Ok.
  destruct (process_line_Ok_line_ok _ _ _ _ H1) as (Hl & _ & Hfirst).
  destruct (IH _ Hrest) as [Hall _].
  split; [|done]. simpl. by rewrite Hl, Hall.
Qed.

(** The well-formed transcripts are the ones the loop accepts. *)
Lemma well_formed_iff time_format lines :
  well_formed time_format lines = true
  ↔ ∃ cols, parse_lines time_format lines = Ok cols.
Proof.
  split.
  - intros Hwf. unfold well_formed in Hwf.
    apply andb_prop in Hwf as [Hok Hfirst].
    destruct (process_lines_well_formed time_format no_columns
                (drop 1 lines)) as (cols & Hrun & _).
    + apply balanced_no_columns.
    + done.
    + right. destruct (drop 1 lines); [done |].
      by apply Is_true_true_1, Is_true_true.
    + by exists cols.
  - intros [cols Hrun]. unfold parse_lines in Hrun.
    destruct (process_lines_Ok_line_ok _ _ _ _ Hrun) as [Hall Hfirst].
    unfold well_formed. rewrite Hall. simpl.
    specialize (Hfirst eq_refl). by destruct (drop 1 lines).
Qed.

(** C3. The first line is dropped whatever it is, and a well-formed
    transcript gives as many records as the lines after the first that start
    with the stamp of the locale. *)
Theorem record_count time_format lines :
  well_formed time_format lines = true →
  (∀ first, parse_lines time_format (first :: drop 1 lines)
            = parse_lines time_format lines)
  ∧ ∃ cols,
      parse_lines time_format lines = Ok cols
      ∧ DataFrame cols = Ok (records cols)
      ∧ length (records cols) = stamp_count time_format (drop 1 lines).
Proof.
  intros Hwf. split; [done |].
  unfold well_formed in Hwf. apply andb_prop in Hwf as [Hok Hfirst].
  destruct (process_lines_well_formed time_format no_columns (drop 1 lines))
    as (cols & Hrun & Hlen).
  - apply balanced_no_columns.
  - done.
  - right. destruct (drop 1 lines); [done | by apply Is_true_true_1, Is_true_true].
  - exists cols. pose proof (parse_lines_balanced _ _ _ Hrun) as Hb.
    split; [done |]. split; [by apply DataFrame_balanced |].
    by rewrite records_length.
Qed.

Lemma record_count_witness :
  (∀ first, parse_lines "EU" (first :: drop 1 example_lines)
            = parse_lines "EU" example_lines)
  ∧ ∃ cols,
      parse_lines "EU" example_lines = Ok cols
      ∧ DataFrame cols = Ok (records cols)
      ∧ length (records cols) = stamp_count "EU" (drop 1 example_lines).
Proof. apply (record_count "EU" example_lines). vm_compute; reflexivity. Defined.

(** ** A continuation line with nothing to continue *)

(** C8. When the first line after the dropped one does not start with a
    stamp (a continuation line met before any stamp line), [messages[-1]]
    raises [IndexError] and neither the lists nor an object are returned. *)
Theorem continuation_before_stamp
    time_format pat header pre line rest
    (limits : grouper_limits) (emoji_count : string → Z) :
  patterns !! time_format = Some pat →
  Forall (λ l, re_match pat l = None) pre →
  re_match pat line = None →
  parse_lines time_format (header :: pre ++ line :: rest)
    = Raise (IndexError "list index out of range")
  ∧ build limits emoji_count time_format (header :: pre ++ line :: rest)
    = Raise (IndexError "list index out of range").
Proof.
  intros Hpat Hpre Hline.
  assert (parse_lines time_format (header :: pre ++ line :: rest)
          = Raise (IndexError "list index out of range")) as Hparse.
  { unfold parse_lines. change (drop 1 (header :: ?l)) with l.
    destruct Hpre as [|l pre Hl _]; simpl.
    - by rewrite (process_line_continuation_nil _ _ Hpat).
    - by rewrite (process_line_continuation_nil _ _ Hpat). }
  split; [done |]. unfold build. by rewrite Hparse.
Qed.

Lemma continuation_before_stamp_witness :
  parse_lines "EU" ("notice" :: [] ++ "there" :: ["01/02/2023, 10:05 - Bob: Hi!"])
    = Raise (IndexError "list index out of range")
  ∧ build example_limits (λ _, 0%Z) "EU"
      ("notice" :: [] ++ "there" :: ["01/02/2023, 10:05 - Bob: Hi!"])
    = Raise (IndexError "list index out of range").
Proof.
  apply (continuation_before_stamp "EU" pattern_EU).
  - vm_compute; reflexivity.
  - constructor.
  - reflexivity.
Defined.

(** ** From the lines to the object *)

Lemma build_Raise limits emoji_count time_format lines e :
  parse_lines time_format lines = Raise e →
  build limits emoji_count time_format lines = Raise e.
Proof. intros H. unfold build. by rewrite H. Qed.

Lemma parse_lines_cons time_format header lines :
  parse_lines time_format (header :: lines)
  = process_lines time_format no_columns lines.
Proof. reflexivity. Qed.

(** ** A stamp the template rejects *)

(** C7, as the code has it. A line that starts with the stamp of the locale
    and whose stamp, read under the template of the locale, is not a valid
    date and time makes the parse fail: no lists and no object are returned.
    [strptime] raises a [ValueError] on that stamp, and that exception is the
    one that reaches the caller whenever the lines before that line are
    processed without an exception; otherwise the exception of the earlier
    line is the one that reaches the caller. *)
Theorem invalid_stamp_fails
    time_format pat template header pre line post matched
    (limits : grouper_limits) (emoji_count : string → Z) :
  patterns !! time_format = Some pat →
  datetimes !! time_format = Some template →
  re_match pat line = Some matched →
  valid_datetime (stamp_time template matched) = false →
  ∃ msg,
    strptime matched template = Raise (ValueError msg)
    ∧ (∃ e, parse_lines time_format (header :: pre ++ line :: post) = Raise e
            ∧ build limits emoji_count time_format
                (header :: pre ++ line :: post)
              = Raise e)
    ∧ (∀ st, process_lines time_format no_columns pre = Ok st →
         parse_lines time_format (header :: pre ++ line :: post)
         = Raise (ValueError msg)
         ∧ build limits emoji_count time_format
             (header :: pre ++ line :: post)
           = Raise (ValueError msg))
    ∧ (∀ e, process_lines time_format no_columns pre = Raise e →
         parse_lines time_format (header :: pre ++ line :: post) = Raise e
         ∧ build limits emoji_count time_format
             (header :: pre ++ line :: post)
           = Raise e).
Proof.
  intros Hpat Htemplate Hm Hv.
  destruct (strptime_stamp_Raise _ _ _ _ _ Hpat Htemplate Hm Hv) as [msg Ht].
  exists msg. split; [done |]. split; [|split].
  - destruct (process_lines_Raise_at time_format no_columns pre line post)
      as [e He].
    { intros st'. exists (ValueError msg).
      by apply (process_line_stamp_Raise _ _ _ Hpat Htemplate _ _ matched). }
    exists e. rewrite parse_lines_cons. split; [done |].
    by apply build_Raise.
  - intros st Hpre.
    assert (parse_lines time_format (header :: pre ++ line :: post)
            = Raise (ValueError msg)) as Hparse.
    { rewrite parse_lines_cons.
      eapply process_lines_Raise_first; [done |].
      by apply (process_line_stamp_Raise _ _ _ Hpat Htemplate _ _ matched). }
    split; [done | by apply build_Raise].
  - intros e Hpre.
    assert (parse_lines time_format (header :: pre ++ line :: post)
            = Raise e) as Hparse.
    { by rewrite parse_lines_cons, process_lines_app, Hpre. }
    split; [done | by apply build_Raise].
Qed.

Lemma invalid_stamp_fails_witness :
  ∃ msg,
    strptime "12/31/2023, 10:05" template_EU = Raise (ValueError msg)
    ∧ (∃ e, parse_lines "EU" ("notice" :: misread_pre ++ misread_line :: [])
            = Raise e
            ∧ build example_limits (λ _, 0%Z) "EU"
                ("notice" :: misread_pre ++ misread_line :: []) = Raise e)
    ∧ (∀ st, process_lines "EU" no_columns misread_pre = Ok st →
         parse_lines "EU" ("notice" :: misread_pre ++ misread_line :: [])
         = Raise (ValueError msg)
         ∧ build example_limits (λ _, 0%Z) "EU"
             ("notice" :: misread_pre ++ misread_line :: [])
           = Raise (ValueError msg))
    ∧ (∀ e, process_lines "EU" no_columns misread_pre = Raise e →
         parse_lines "EU" ("notice" :: misread_pre ++ misread_line :: [])
         = Raise e
         ∧ build example_limits (λ _, 0%Z) "EU"
             ("notice" :: misread_pre ++ misread_line :: [])
           = Raise e).
Proof.
  apply (invalid_stamp_fails "EU" pattern_EU template_EU "notice"
           misread_pre misread_line [] "12/31/2023, 10:05").
  - vm_compute; reflexivity.
  - vm_compute; reflexivity.
  - vm_compute; reflexivity.
  - vm_compute; reflexivity.
Defined.

(** The claim as the specification words it does not hold: here the line
    with the impossible date comes after a continuation line that has nothing
    to continue, and the exception is the [IndexError] of that earlier
    line. *)
Lemma invalid_stamp_counterexample :
  (∃ matched,
     misread_line ∈ orphan_lines
     ∧ patterns !! "EU" = Some pattern_EU
     ∧ datetimes !! "EU" = Some template_EU
     ∧ re_match pattern_EU misread_line = Some matched
     ∧ valid_datetime (stamp_time template_EU matched) = false
     ∧ is_ok (strptime matched template_EU) = false)
  ∧ parse_lines "EU" orphan_lines
    = Raise (IndexError "list index out of range")
  ∧ ¬ ∃ msg, parse_lines "EU" orphan_lines = Raise (ValueError msg).
Proof.
  split; [|split].
  - exists "12/31/2023, 10:05".
    split; [unfold orphan_lines; do 2 apply list_elem_of_further;
            apply list_elem_of_here |].
    repeat split; vm_compute; reflexivity.
  - vm_compute; reflexivity.
  - intros [msg H]. vm_compute in H. discriminate.
Qed.

(** ** A stamp line without a colon *)

Lemma process_line_no_colon_Raise time_format pat st line matched :
  patterns !! time_format = Some pat →
  re_match pat line = Some matched →
  contains_chr ":" (slice_from 20 line) = false →
  ∃ e, process_line time_format st line = Raise e.
Proof.
  intros Hpat Hm Hc.
  destruct (datetimes_of_patterns _ _ Hpat) as [template Htemplate].
  destruct (strptime matched template) as [time|e] eqn:Ht.
  - eexists. by eapply process_line_no_colon.
  - exists e. by eapply process_line_stamp_Raise.
Qed.

Lemma init_Raise limits emoji_count suffix fs chat_file time_format lines e :
  fs_open fs chat_file = Ok lines →
  build limits emoji_count time_format lines = Raise e →
  ∃ e', (init limits emoji_count suffix fs chat_file time_format).2 = Raise e'.
Proof.
  intros Hopen Hbuild. unfold init.
  destruct (fs_exists fs chat_file) as [[|]|e0]; [|eauto ..].
  destruct (negb (String.eqb _ _)); [eauto |].
  destruct (decide _); [eauto |].
  simpl. rewrite Hopen. unfold_bind. eauto.
Qed.

(** C10. A line that starts with the stamp of the locale and has no colon
    after its first 20 characters makes the constructor raise: whatever the
    path and the file system, no object is returned when the file holds such
    a line after the first one. When the lines before it are processed
    without an exception and its stamp is accepted, the exception is the
    [ValueError] of the unpacking of a one-element list. *)
Theorem stamp_without_colon_fails
    time_format pat header pre line post matched
    (limits : grouper_limits) (emoji_count : string → Z) :
  patterns !! time_format = Some pat →
  re_match pat line = Some matched →
  contains_chr ":" (slice_from 20 line) = false →
  (∃ e, build limits emoji_count time_format (header :: pre ++ line :: post)
        = Raise e)
  ∧ (∀ suffix fs chat_file,
       fs_open fs chat_file = Ok (header :: pre ++ line :: post) →
       ∃ e, (init limits emoji_count suffix fs chat_file time_format).2 = Raise e)
  ∧ (∀ template st time,
       datetimes !! time_format = Some template →
       process_lines time_format no_columns pre = Ok st →
       strptime matched template = Ok time →
       build limits emoji_count time_format (header :: pre ++ line :: post)
       = Raise (ValueError "not enough values to unpack (expected 2)")).
Proof.
  intros Hpat Hm Hc.
  assert (∃ e, build limits emoji_count time_format (header :: pre ++ line :: post)
               = Raise e) as [e He].
  { destruct (process_lines_Raise_at time_format no_columns pre line post)
      as [e He].
    - intros st'. by eapply process_line_no_colon_Raise.
    - exists e. by apply build_Raise. }
  split; [by exists e |]. split.
  - intros suffix fs chat_file Hopen. by eapply init_Raise.
  - intros template st time Htemplate Hpre Ht.
    apply build_Raise. rewrite parse_lines_cons.
    eapply process_lines_Raise_first; [done |].
    by eapply process_line_no_colon.
Qed.

Lemma stamp_without_colon_fails_witness :
  (∃ e, build example_limits (λ _, 0%Z) "EU" ("notice" :: misread_pre ++ no_colon_line :: [])
        = Raise e)
  ∧ (∀ suffix fs chat_file,
       fs_open fs chat_file = Ok ("notice" :: misread_pre ++ no_colon_line :: []) →
       ∃ e, (init example_limits (λ _, 0%Z) suffix fs chat_file "EU").2 = Raise e)
  ∧ (∀ template st time,
       datetimes !! "EU" = Some template →
       process_lines "EU" no_columns misread_pre = Ok st →
       strptime "01/02/2023, 10:05" template = Ok time →
       build example_limits (λ _, 0%Z) "EU" ("notice" :: misread_pre ++ no_colon_line :: [])
       = Raise (ValueError "not enough values to unpack (expected 2)")).
Proof.
  apply (stamp_without_colon_fails "EU" pattern_EU "notice" misread_pre
           no_colon_line [] "01/02/2023, 10:05").
  - vm_compute; reflexivity.
  - vm_compute; reflexivity.
  - vm_compute; reflexivity.
Defined.

(** ** Arguments refused before the file is opened *)

(** C9, as the code has it. A path whose suffix is not [.txt], or a
    [time_format] that is not a key of [patterns] (that is, none of "EU",
    "NA", "JP"), makes the constructor raise without any call that opens the
    file: the only call to the file system is [exists]. The exception is a
    [ValueError] whenever [exists] returns, and the exception of [exists]
    when that call raises. *)
Theorem invalid_arguments_fail_before_open
    (limits : grouper_limits) (emoji_count : string → Z)
    (suffix : string → string) fs chat_file time_format :
  suffix chat_file ≠ ".txt" ∨ time_format ∉ ["EU"; "NA"; "JP"] →
  (∃ e, (init limits emoji_count suffix fs chat_file time_format).2 = Raise e)
  ∧ (∀ b, fs_exists fs chat_file = Ok b →
       ∃ msg, (init limits emoji_count suffix fs chat_file time_format).2
              = Raise (ValueError msg))
  ∧ (∀ e, fs_exists fs chat_file = Raise e →
       (init limits emoji_count suffix fs chat_file time_format).2 = Raise e)
  ∧ (init limits emoji_count suffix fs chat_file time_format).1
    = [ev_exists chat_file]
  ∧ ∀ path,
      ev_open path
      ∉ (init limits emoji_count suffix fs chat_file time_format).1.
Proof.
  intros Hbad.
  assert (∃ e, init limits emoji_count suffix fs chat_file time_format
               = ([ev_exists chat_file], Raise e)
               ∧ match fs_exists fs chat_file with
                 | Ok _ => ∃ msg, e = ValueError msg
                 | Raise e' => e = e'
                 end)
    as (e & Hinit & He).
  { unfold init.
    destruct (fs_exists fs chat_file) as [[|]|e0]; [|eauto ..].
    destruct (String.eqb_spec (suffix chat_file) ".txt") as [Hs|Hs];
      simpl; [|eauto].
    destruct (decide _) as [|Hfmt]; [eauto |].
    destruct Hbad as [? | Hbad]; [done |].
    by apply patterns_None in Hbad. }
  rewrite Hinit; simpl. split; [eauto |]. split; [|split; [|split]].
  - intros b Hb. rewrite Hb in He. destruct He as [msg ->]. eauto.
  - intros e' He'. rewrite He' in He. by subst.
  - done.
  - intros path. rewrite list_elem_of_singleton. discriminate.
Qed.

Lemma invalid_arguments_fail_before_open_witness :
  (∃ e, (init example_limits (λ _, 0%Z) example_suffix example_fs
           "chat.log" "UK").2 = Raise e)
  ∧ (∀ b, fs_exists example_fs "chat.log" = Ok b →
       ∃ msg, (init example_limits (λ _, 0%Z) example_suffix example_fs
                 "chat.log" "UK").2
              = Raise (ValueError msg))
  ∧ (∀ e, fs_exists example_fs "chat.log" = Raise e →
       (init example_limits (λ _, 0%Z) example_suffix example_fs
          "chat.log" "UK").2 = Raise e)
  ∧ (init example_limits (λ _, 0%Z) example_suffix example_fs
       "chat.log" "UK").1
    = [ev_exists "chat.log"]
  ∧ ∀ path,
      ev_open path
      ∉ (init example_limits (λ _, 0%Z) example_suffix example_fs
           "chat.log" "UK").1.
Proof.
  apply (invalid_arguments_fail_before_open
           example_limits (λ _, 0%Z) example_suffix example_fs "chat.log" "UK").
  left. vm_compute. discriminate.
Defined.

(** The claim as the specification words it does not hold: on a name that
    ends in [.log] and is longer than the file system allows, with a
    [time_format] that is no key, the constructor leaves with the [OSError]
    of [exists], which is not a [ValueError]. *)
Lemma invalid_arguments_counterexample :
  example_suffix long_name ≠ ".txt"
  ∧ ("UK" ∉ ["EU"; "NA"; "JP"])
  ∧ (init example_limits (λ _, 0%Z) example_suffix long_name_fs
       long_name "UK").2
    = Raise (OSError "[Errno 36] File name too long")
  ∧ ¬ ∃ msg,
        (init example_limits (λ _, 0%Z) example_suffix long_name_fs
           long_name "UK").2
        = Raise (ValueError msg).
Proof.
  split; [vm_compute; discriminate |].
  split.
  { rewrite !not_elem_of_cons. repeat split; try discriminate.
    apply not_elem_of_nil. }
  split; [vm_compute; reflexivity |].
  intros [msg H]. vm_compute in H. discriminate.
Qed.

(** ** Groups *)

Lemma agg_key_aggregate_group k g : agg_key (aggregate_group k g) = k.
Proof. by destruct k as [[? ?] ?]. Qed.

Lemma aggregate_by_time_keys chat f :
  agg_key <$> aggregate_by_time chat f = group_keys f chat.
Proof.
  unfold aggregate_by_time. rewrite <- list_fmap_compose.
  rewrite <- (list_fmap_id (group_keys f chat)) at 2.
  apply list_fmap_ext. intros i k _. apply agg_key_aggregate_group.
Qed.

Lemma group_keys_NoDup f chat : NoDup (group_keys f chat).
Proof.
  unfold group_keys. rewrite merge_sort_Permutation. apply NoDup_remove_dups.
Qed.

Lemma elem_of_group_keys f chat k :
  k ∈ group_keys f chat ↔ ∃ r, r ∈ chat ∧ key_of f r = k.
Proof.
  unfold group_keys.
  rewrite merge_sort_Permutation, elem_of_remove_dups, list_elem_of_fmap.
  split; [intros (r & -> & Hr) | intros (r & Hr & <-)]; eauto.
Qed.

Lemma elem_of_aggregate_by_time chat f a :
  a ∈ aggregate_by_time chat f ↔
    agg_key a ∈ group_keys f chat
    ∧ a = aggregate_group (agg_key a) (group f chat (agg_key a)).
Proof.
  unfold aggregate_by_time. rewrite list_elem_of_fmap. split.
  - intros (k & -> & Hk). by rewrite agg_key_aggregate_group.
  - intros [Hk Ha]. by exists (agg_key a).
Qed.

Lemma group_cons f r chat k :
  group f (r :: chat) k =
    if decide (key_of f r = k) then r :: group f chat k else group f chat k.
Proof. unfold group. by rewrite filter_cons. Qed.

Lemma group_nonempty f chat k : k ∈ group_keys f chat → group f chat k ≠ [].
Proof.
  intros (r & Hr & Hk)%elem_of_group_keys Hnil.
  eapply (filter_nil_not_elem_of _ _ r); [exact Hnil | exact Hk | exact Hr].
Qed.

(** *** Sums *)

Lemma sum_Z_cons (x : Z) (l : list Z) : sum_Z (x :: l) = (x + sum_Z l)%Z.
Proof. reflexivity. Qed.

Lemma sum_Z_add {A} (g h : A → Z) (l : list A) :
  sum_Z ((λ x, g x + h x)%Z <$> l) = (sum_Z (g <$> l) + sum_Z (h <$> l))%Z.
Proof.
  induction l as [|x l IH]; [done |].
  rewrite !fmap_cons, !sum_Z_cons, IH. lia.
Qed.

Lemma sum_Z_zero {A} (l : list A) : sum_Z ((λ _, 0%Z) <$> l) = 0%Z.
Proof.
  induction l as [|x l IH]; [done |].
  by rewrite fmap_cons, sum_Z_cons, IH.
Qed.

(** A key counts once among keys without repetition. *)
Lemma sum_Z_indicator (k : group_key) (ks : list group_key) :
  NoDup ks → k ∈ ks →
  sum_Z ((λ k', if decide (k = k') then 1 else 0)%Z <$> ks) = 1%Z.
Proof.
  induction 1 as [|k0 ks Hnotin Hnd IH]; intros Hin; [by inversion Hin |].
  rewrite fmap_cons, sum_Z_cons. destruct (decide (k = k0)) as [-> | Hne].
  - assert (sum_Z ((λ k', if decide (k0 = k') then 1 else 0)%Z <$> ks) = 0%Z)
      as ->; [|done].
    etrans; [|apply (sum_Z_zero ks)]. f_equal. apply list_fmap_ext.
    intros i k' Hk'. destruct (decide (k0 = k')) as [<- |]; [|done].
    exfalso. apply Hnotin. by eapply list_elem_of_lookup_2.
  - apply elem_of_cons in Hin as [? | Hin]; [done |]. by rewrite IH.
Qed.

Lemma sum_group_sizes f chat (ks : list group_key) :
  NoDup ks →
  (∀ r, r ∈ chat → key_of f r ∈ ks) →
  sum_Z ((λ k, Z.of_nat (length (group f chat k))) <$> ks)
  = Z.of_nat (length chat).
Proof.
  intros Hnd. induction chat as [|r chat IH]; intros Hcover.
  - simpl. apply sum_Z_zero.
  - transitivity
      (sum_Z ((λ k, (if decide (key_of f r = k) then 1 else 0)
                    + Z.of_nat (length (group f chat k)))%Z <$> ks)).
    { f_equal. apply list_fmap_ext. intros i k _. rewrite group_cons.
      destruct (decide _); simpl length; lia. }
    rewrite sum_Z_add, IH, sum_Z_indicator.
    + simpl length. lia.
    + done.
    + apply Hcover. by left.
    + intros r' Hr'. apply Hcover. by right.
Qed.

Lemma filter_key_once (k : group_key) (g : group_key → agg_row) ks :
  (∀ k', agg_key (g k') = k') →
  NoDup ks → k ∈ ks →
  length (filter (λ a, agg_key a = k) (g <$> ks)) = 1.
Proof.
  intros Hg. induction 1 as [|k0 ks Hnotin Hnd IH]; intros Hin;
    [by inversion Hin |].
  rewrite fmap_cons, filter_cons, Hg.
  destruct (decide (k0 = k)) as [-> | Hne].
  - simpl. f_equal. apply length_zero_iff_nil.
    destruct (filter _ _) as [|a l] eqn:E; [done |].
    assert (a ∈ filter (λ a, agg_key a = k) (g <$> ks)) as Ha
      by (rewrite E; by left).
    apply list_elem_of_filter in Ha as [Hk (k' & -> & Hk')%list_elem_of_fmap].
    rewrite Hg in Hk. by subst.
  - apply elem_of_cons in Hin as [? | Hin]; [congruence | by apply IH].
Qed.

(** ** Every record belongs to one group *)

(** C4. At each of the three granularities the rows of the aggregate table
    have distinct (bin, weekday, speaker) keys, every row of [chat] has its
    key on exactly one of them, and the [Message_count] values add up to the
    number of rows of [chat]. *)
Theorem aggregate_partition (chat : list chat_row) (f : freq) :
  NoDup (agg_key <$> aggregate_by_time chat f)
  ∧ (∀ r, r ∈ chat →
       length (filter (λ a, agg_key a = key_of f r)
                 (aggregate_by_time chat f)) = 1)
  ∧ (∀ a, a ∈ aggregate_by_time chat f →
       Message_count a = Z.of_nat (length (group f chat (agg_key a))))
  ∧ sum_Z (Message_count <$> aggregate_by_time chat f)
    = Z.of_nat (length chat).
Proof.
  split; [|split; [|split]].
  - rewrite aggregate_by_time_keys. apply group_keys_NoDup.
  - intros r Hr. unfold aggregate_by_time.
    apply filter_key_once.
    + intros k'. apply agg_key_aggregate_group.
    + apply group_keys_NoDup.
    + apply elem_of_group_keys. eauto.
  - intros a [_ Ha]%elem_of_aggregate_by_time. by rewrite Ha at 1.
  - unfold aggregate_by_time. rewrite <- list_fmap_compose.
    apply sum_group_sizes; [apply group_keys_NoDup |].
    intros r Hr. apply elem_of_group_keys. eauto.
Qed.

(** ** The weekday column *)

Lemma dayofweek_range t : (0 ≤ dayofweek t < 7)%Z.
Proof. unfold dayofweek. by apply Z.mod_pos_bound. Qed.

(** Every value of [dt.dayofweek] is one of the replaced ones. *)
Lemma replace_weekday_name t :
  replace_weekday (dayofweek t) ∈ weekday_names.
Proof.
  pose proof (dayofweek_range t) as H.
  assert (∃ n, dayofweek t = Z.of_nat n ∧ n < 7) as (n & -> & Hn).
  { exists (Z.to_nat (dayofweek t)). lia. }
  unfold replace_weekday. rewrite Nat2Z.id.
  do 7 (destruct n as [|n];
        [vm_compute;
         repeat first [apply list_elem_of_here | apply list_elem_of_further] |]).
  lia.
Qed.

(** ** The emoji flag *)

Lemma make_chat_Ok emoji_count cols chat :
  make_chat emoji_count cols = Ok chat →
  chat = enrich emoji_count <$> records cols.
Proof.
  unfold make_chat, DataFrame. destruct (decide (balanced cols)); [|done].
  unfold_bind. destruct (dt_accessor _); [|done]. by intros [= <-].
Qed.

Lemma elem_of_make_chat emoji_count cols chat row :
  make_chat emoji_count cols = Ok chat → row ∈ chat →
  ∃ r, row = enrich emoji_count r.
Proof.
  intros -> %make_chat_Ok (r & -> & _)%list_elem_of_fmap. eauto.
Qed.

Lemma enrich_flag emoji_count r :
  (Contains_Emoji (enrich emoji_count r) = 0%Z
   ∧ Emoji_Count (enrich emoji_count r) = 0%Z)
  ∨ (Contains_Emoji (enrich emoji_count r) = 1%Z
     ∧ Emoji_Count (enrich emoji_count r) ≠ 0%Z).
Proof.
  unfold enrich, series_where; simpl.
  destruct (Z.eqb_spec (emoji_count (rec_message r)) 0); [left | right]; done.
Qed.

(** C5. On every row of [chat] the flag is the count where the count is 0
    and 1 elsewhere: 0 exactly when the message has no emoji, 1 for every
    positive count, that is, the count clamped to 0..1. *)
Theorem contains_emoji_clamped (emoji_count : string → Z) cols chat row :
  make_chat emoji_count cols = Ok chat →
  row ∈ chat →
  Emoji_Count row = emoji_count (Message row)
  ∧ Contains_Emoji row = (if (Emoji_Count row =? 0)%Z then 0%Z else 1%Z)
  ∧ (Contains_Emoji row = 0%Z ↔ Emoji_Count row = 0%Z)
  ∧ ((0 < Emoji_Count row)%Z → Contains_Emoji row = 1%Z)
  ∧ ((0 ≤ Emoji_Count row)%Z →
       Contains_Emoji row = Z.max 0 (Z.min (Emoji_Count row) 1)).
Proof.
  intros Hchat Hrow.
  destruct (elem_of_make_chat _ _ _ _ Hchat Hrow) as [r ->].
  unfold enrich, series_where; simpl.
  destruct (Z.eqb_spec (emoji_count (rec_message r)) 0) as [-> | Hne].
  - repeat split; try done; lia.
  - repeat split; try done; lia.
Qed.

(** ** The mean of the flag *)

Lemma Qdiv_Z_pos (s n : Z) :
  (0 < n)%Z → (inject_Z s / inject_Z n == s # Z.to_pos n)%Q.
Proof.
  intros Hn. destruct n as [|p|p]; try lia.
  unfold Qdiv, Qinv, Qmult, Qeq, inject_Z; simpl. lia.
Qed.

Lemma Qdiv_Z_bounds (s n : Z) :
  (0 < n)%Z →
  ((0 <= inject_Z s / inject_Z n)%Q ↔ (0 ≤ s)%Z)
  ∧ ((inject_Z s / inject_Z n <= 1)%Q ↔ (s ≤ n)%Z)
  ∧ ((inject_Z s / inject_Z n == 0)%Q ↔ s = 0%Z)
  ∧ ((inject_Z s / inject_Z n == 1)%Q ↔ s = n).
Proof.
  intros Hn. rewrite !(Qdiv_Z_pos s n Hn).
  destruct n as [|p|p]; try lia.
  unfold Qle, Qeq; simpl. repeat split; lia.
Qed.

(** On rows whose flag is 0 without emoji and 1 with, the sum of the flags
    counts the rows with an emoji. *)
Lemma sum_flags (g : list chat_row) :
  Forall (λ r, (Contains_Emoji r = 0%Z ∧ Emoji_Count r = 0%Z)
               ∨ (Contains_Emoji r = 1%Z ∧ Emoji_Count r ≠ 0%Z)) g →
  (0 ≤ sum_Z (Contains_Emoji <$> g) ≤ Z.of_nat (length g))%Z
  ∧ (sum_Z (Contains_Emoji <$> g) = 0%Z ↔ Forall (λ r, Emoji_Count r = 0%Z) g)
  ∧ (sum_Z (Contains_Emoji <$> g) = Z.of_nat (length g)
     ↔ Forall (λ r, Emoji_Count r ≠ 0%Z) g).
Proof.
  induction 1 as [|r g Hr _ (Hbound & Hzero & Hall)].
  - repeat split; try done; simpl; lia.
  - rewrite fmap_cons, sum_Z_cons, !Forall_cons. simpl length.
    rewrite <- Hzero, <- Hall. rewrite Nat2Z.inj_succ.
    destruct Hr as [[-> Hc] | [-> Hc]].
    + split; [lia |]. split.
      * split; [intros; split; [done | lia] | intros [_ ?]; lia].
      * split; [intros; lia | intros [? _]; done].
    + split; [lia |]. split.
      * split; [intros; lia | intros [? _]; done].
      * split; [intros; split; [done | lia] | intros [_ ?]; lia].
Qed.

(** C6. On every row of every aggregate table, [Contains_Emoji_mean] is the
    sum of the 0/1 flags of the group of the row divided by the size of the
    group; it lies between 0 and 1, is 0 exactly when no message of the group
    has an emoji and 1 exactly when every message of the group has one. *)
Theorem emoji_mean_bounds (emoji_count : string → Z) cols chat f a :
  make_chat emoji_count cols = Ok chat →
  a ∈ aggregate_by_time chat f →
  group f chat (agg_key a) ≠ []
  ∧ (Contains_Emoji_mean a ==
       inject_Z (sum_Z (Contains_Emoji <$> group f chat (agg_key a)))
       / inject_Z (Z.of_nat (length (group f chat (agg_key a)))))%Q
  ∧ (0 <= Contains_Emoji_mean a)%Q
  ∧ (Contains_Emoji_mean a <= 1)%Q
  ∧ ((Contains_Emoji_mean a == 0)%Q
     ↔ ∀ r, r ∈ group f chat (agg_key a) → Emoji_Count r = 0%Z)
  ∧ ((Contains_Emoji_mean a == 1)%Q
     ↔ ∀ r, r ∈ group f chat (agg_key a) → Emoji_Count r ≠ 0%Z).
Proof.
  intros Hchat [Hk Ha]%elem_of_aggregate_by_time.
  pose proof (group_nonempty _ _ _ Hk) as Hne.
  set (g := group f chat (agg_key a)) in *.
  assert (Contains_Emoji_mean a =
            (inject_Z (sum_Z (Contains_Emoji <$> g))
             / inject_Z (Z.of_nat (length g)))%Q) as Hmean
    by (by rewrite Ha at 1).
  assert (0 < Z.of_nat (length g))%Z as Hpos
    by (destruct g; [done | simpl; lia]).
  destruct (sum_flags g) as (Hbound & Hzero & Hall).
  { apply Forall_forall. intros r [_ Hr]%list_elem_of_filter.
    destruct (elem_of_make_chat _ _ _ _ Hchat Hr) as [r0 ->].
    apply enrich_flag. }
  destruct (Qdiv_Z_bounds (sum_Z (Contains_Emoji <$> g))
              (Z.of_nat (length g)) Hpos) as (Q0 & Q1 & Qz & Qo).
  rewrite Hmean, <- !Forall_forall.
  split; [done |]. split; [reflexivity |].
  split; [apply Q0; lia |]. split; [apply Q1; lia |].
  split; [by rewrite Qz | by rewrite Qo].
Qed.

Lemma contains_emoji_clamped_witness :
  Emoji_Count example_row = example_emoji_count (Message example_row)
  ∧ Contains_Emoji example_row
    = (if (Emoji_Count example_row =? 0)%Z then 0%Z else 1%Z)
  ∧ (Contains_Emoji example_row = 0%Z ↔ Emoji_Count example_row = 0%Z)
  ∧ ((0 < Emoji_Count example_row)%Z → Contains_Emoji example_row = 1%Z)
  ∧ ((0 ≤ Emoji_Count example_row)%Z →
       Contains_Emoji example_row
       = Z.max 0 (Z.min (Emoji_Count example_row) 1)).
Proof.
  apply (contains_emoji_clamped example_emoji_count example_columns
           example_chat example_row).
  - vm_compute; reflexivity.
  - vm_compute. left.
Defined.

Lemma emoji_mean_bounds_witness :
  group freq_D example_chat (agg_key example_agg_row) ≠ []
  ∧ (Contains_Emoji_mean example_agg_row ==
       inject_Z (sum_Z (Contains_Emoji
                          <$> group freq_D example_chat (agg_key example_agg_row)))
       / inject_Z (Z.of_nat (length (group freq_D example_chat
                                       (agg_key example_agg_row)))))%Q
  ∧ (0 <= Contains_Emoji_mean example_agg_row)%Q
  ∧ (Contains_Emoji_mean example_agg_row <= 1)%Q
  ∧ ((Contains_Emoji_mean example_agg_row == 0)%Q
     ↔ ∀ r, r ∈ group freq_D example_chat (agg_key example_agg_row) →
            Emoji_Count r = 0%Z)
  ∧ ((Contains_Emoji_mean example_agg_row == 1)%Q
     ↔ ∀ r, r ∈ group freq_D example_chat (agg_key example_agg_row) →
            Emoji_Count r ≠ 0%Z).
Proof.
  apply (emoji_mean_bounds example_emoji_count example_columns example_chat
           freq_D example_agg_row).
  - vm_compute; reflexivity.
  - vm_compute. left.
Defined.

(** ** The limits of [datetime64[ns]] *)

Lemma days_before_month_bounds y m :
  (1 ≤ m ≤ 12)%Z → (0 ≤ days_before_month y m ≤ 335)%Z.
Proof.
  intros Hm.
  assert (m ∈ [1; 2; 3; 4; 5; 6; 7; 8; 9; 10; 11; 12]%Z) as Hin.
  { rewrite !elem_of_cons. lia. }
  unfold days_before_month.
  repeat (apply elem_of_cons in Hin as [-> | Hin]);
    [.. | by apply elem_of_nil in Hin];
    simpl; unfold days_in_month; simpl; destruct (is_leap y); lia.
Qed.

Lemma in_window_spec t :
  in_window t = true
  ↔ valid_datetime t = true ∧ (1678 ≤ year t ≤ 2261)%Z.
Proof.
  unfold in_window. rewrite valid_datetime_spec.
  rewrite !andb_true_iff, !Z.leb_le. lia.
Qed.

(** A time of the years 1678 to 2261 fits in 64 bits of nanoseconds. *)
Lemma in_window_in_bounds t : in_window t = true → in_bounds t = true.
Proof.
  intros [Hv Hy]%in_window_spec. apply valid_datetime_spec in Hv.
  pose proof (days_before_month_bounds (year t) (month t)) as Hm.
  pose proof (days_in_month_bounds (year t) (month t)) as Hd.
  unfold in_bounds, datetime64_ns, ymd2ord.
  change (days_before_year 1970 + days_before_month 1970 1 + 1)%Z
    with 719163%Z.
  assert (612510 ≤ days_before_year (year t) ≤ 825450)%Z as Hby.
  { unfold days_before_year. cbv zeta. Z.div_mod_to_equations. lia. }
  apply andb_true_iff. rewrite !Z.ltb_lt. lia.
Qed.

Lemma forallb_in_window_in_bounds ts :
  forallb in_window ts = true → forallb in_bounds ts = true.
Proof.
  rewrite !forallb_forall. intros H t Ht. by apply in_window_in_bounds, H.
Qed.

Lemma zip_columns_projections ss ms ts :
  length ss = length ms → length ms = length ts →
  rec_speaker <$> zip_columns ss ms ts = ss
  ∧ rec_message <$> zip_columns ss ms ts = ms
  ∧ rec_time <$> zip_columns ss ms ts = ts.
Proof.
  revert ms ts; induction ss as [|s ss IH]; intros [|m ms] [|t ts] H1 H2;
    simplify_eq/=; [done |].
  destruct (IH ms ts) as (-> & -> & ->); done.
Qed.

Lemma forallb_fmap {A B} (p : B → bool) (g : A → B) (l : list A) :
  forallb p (g <$> l) = forallb (λ x, p (g x)) l.
Proof.
  induction l as [|x l IH]; [done |].
  rewrite fmap_cons. cbn [forallb]. by rewrite IH.
Qed.

Lemma records_times cols : balanced cols → rec_time <$> records cols = times cols.
Proof.
  intros [H1 H2]. by destruct (zip_columns_projections _ _ _ H1 H2) as (_ & _ & ?).
Qed.

(** Lines 78 to 99 on the lists of the loop: the table is built unless it
    is empty or holds a time outside [datetime64[ns]]. *)
Lemma make_chat_balanced emoji_count cols :
  balanced cols →
  make_chat emoji_count cols =
    match records cols with
    | [] => Raise (AttributeError
                     "Can only use .dt accessor with datetimelike values")
    | _ =>
        if forallb in_bounds (times cols)
        then Ok (enrich emoji_count <$> records cols)
        else Raise (AttributeError
                      "Can only use .dt accessor with datetimelike values")
    end.
Proof.
  intros Hb. unfold make_chat. rewrite (DataFrame_balanced _ Hb).
  unfold_bind. unfold dt_accessor.
  rewrite <- (records_times _ Hb), forallb_fmap.
  destruct (records cols) as [|r rs]; [done |].
  by destruct (forallb _ (r :: rs)).
Qed.

Lemma Time_enrich emoji_count (rows : list message_record) :
  Time <$> (enrich emoji_count <$> rows) = rec_time <$> rows.
Proof. by rewrite <- list_fmap_compose. Qed.

Lemma try_aggregate_in_window limits chat f :
  forallb in_window (Time <$> chat) = true →
  try_aggregate_by_time limits chat f = Ok (aggregate_by_time chat f).
Proof.
  intros Hw. unfold try_aggregate_by_time.
  by rewrite (grouper_window limits f _ Hw).
Qed.

(** From the lists to the object, for times of the years 1678 to 2261. *)
Lemma build_in_window limits emoji_count time_format lines cols :
  parse_lines time_format lines = Ok cols →
  records cols ≠ [] →
  forallb in_window (times cols) = true →
  build limits emoji_count time_format lines =
    Ok {| chat := enrich emoji_count <$> records cols;
          daily_chat :=
            aggregate_by_time (enrich emoji_count <$> records cols) freq_D;
          weekly_chat :=
            aggregate_by_time (enrich emoji_count <$> records cols) freq_W;
          monthly_chat :=
            aggregate_by_time (enrich emoji_count <$> records cols) freq_M |}.
Proof.
  intros Hrun Hne Hw. unfold build. rewrite Hrun. unfold_bind.
  pose proof (parse_lines_balanced _ _ _ Hrun) as Hb.
  rewrite (make_chat_balanced _ _ Hb).
  rewrite (forallb_in_window_in_bounds _ Hw).
  destruct (records cols) as [|r rs] eqn:Hr; [done |].
  rewrite !try_aggregate_in_window
    by (by rewrite Time_enrich, <- Hr, (records_times _ Hb)).
  reflexivity.
Qed.

(** ** The example of the specification *)

(** C1, as the code has it. For the "EU" locale and whatever the first line
    is, the three lines of the example give two rows, Alice at
    2023-02-01 10:00 and Bob at 2023-02-01 10:05; each message is the text
    after the first colon, which starts with the blank that follows the
    colon: " Hello\nthere\n" and " Hi!\n". The daily table has two rows for
    2023-02-01, one per speaker, each with [Message_count] 1. *)
Theorem example_transcript
    (limits : grouper_limits) (emoji_count : string → Z) (first : string) :
  ∃ w,
    build limits emoji_count "EU" (first :: drop 1 example_lines) = Ok w
    ∧ (λ r, (Speaker r, Message r, Time r)) <$> chat w
      = [ ("Alice", " Hello" +:+ nl +:+ "there" +:+ nl,
           mk_datetime 2023 2 1 10 0);
          ("Bob", " Hi!" +:+ nl, mk_datetime 2023 2 1 10 5) ]
    ∧ (λ a, (agg_Time a, agg_Speaker a, Message_count a)) <$> daily_chat w
      = [ (mk_datetime 2023 2 1 0 0, "Alice", 1%Z);
          (mk_datetime 2023 2 1 0 0, "Bob", 1%Z) ].
Proof.
  eexists. split.
  - eapply build_in_window.
    + vm_compute; reflexivity.
    + vm_compute. discriminate.
    + vm_compute; reflexivity.
  - split; vm_compute; reflexivity.
Qed.

(** The messages of the example are not the ones the specification lists:
    they keep the blank after the colon. *)
Lemma example_transcript_counterexample :
  ¬ ∃ cols,
      parse_lines "EU" example_lines = Ok cols
      ∧ rec_message <$> records cols
        = ["Hello" +:+ nl +:+ "there" +:+ nl; "Hi!" +:+ nl].
Proof.
  intros (cols & Hparse & Hmsg). vm_compute in Hparse.
  injection Hparse as <-. vm_compute in Hmsg. discriminate.
Qed.

Lemma unpack2_split_Raise sep s e :
  unpack2 (split_once sep s) = Raise e →
  e = ValueError "not enough values to unpack (expected 2)".
Proof.
  destruct (split_once_cases sep s) as [[_ ->] | [_ (a & b & ->)]]; simpl.
  - by intros [= <-].
  - done.
Qed.

(** What one iteration does when it does not raise. *)
Lemma process_line_Ok_inv time_format st line st' :
  process_line time_format st line = Ok st' →
  ∃ pat template,
    patterns !! time_format = Some pat
    ∧ datetimes !! time_format = Some template
    ∧ ((∃ matched time speaker message,
          re_match pat line = Some matched
          ∧ strptime matched template = Ok time
          ∧ split_once ":" (slice_from 20 line) = [speaker; message]
          ∧ st' = columns_app st (mk_columns [time] [speaker] [message]))
       ∨ (re_match pat line = None
          ∧ ∃ ms m, messages st = ms ++ [m]
                   ∧ st' = mk_columns (times st) (speakers st)
                             (ms ++ [m +:+ line]))).
Proof.
  intros Hrun.
  destruct (patterns !! time_format) as [pat|] eqn:Hpat;
    [|by unfold process_line, getitem in Hrun; rewrite Hpat in Hrun].
  destruct (datetimes_of_patterns _ _ Hpat) as [template Htemplate].
  exists pat, template. split; [done |]. split; [done |].
  destruct (re_match pat line) as [matched|] eqn:Hm.
  - left.
    rewrite (process_line_stamp _ _ _ Hpat Htemplate _ _ _ Hm) in Hrun.
    apply bind_Ok in Hrun as (time & Ht & Hrun).
    apply bind_Ok in Hrun as ([speaker message] & Hs & [= <-]).
    destruct (split_once_cases ":" (slice_from 20 line))
      as [[_ Hone] | [_ (a & b & Hab)]].
    { by rewrite Hone in Hs. }
    rewrite Hab in Hs. injection Hs as <- <-.
    by exists matched, time, a, b.
  - right. split; [done |].
    rewrite (process_line_continuation _ _ Hpat _ _ Hm) in Hrun.
    apply bind_Ok in Hrun as (last & Hlast & Hrun).
    apply bind_Ok in Hrun as (ms' & Hset & [= <-]).
    destruct (snoc_cases (messages st)) as [Hnil | (ms & m & Hms)].
    { by rewrite Hnil in Hlast. }
    rewrite Hms, get_last_snoc in Hlast. injection Hlast as <-.
    rewrite Hms, set_last_snoc in Hset. injection Hset as <-.
    by exists ms, m.
Qed.

(** What one iteration raises. *)
Lemma process_line_Raise_inv time_format pat st line e :
  patterns !! time_format = Some pat →
  process_line time_format st line = Raise e →
  (is_stamp time_format line = true ∧ ∃ msg, e = ValueError msg)
  ∨ (is_stamp time_format line = false ∧ messages st = []
     ∧ e = IndexError "list index out of range").
Proof.
  intros Hpat Hrun.
  destruct (datetimes_of_patterns _ _ Hpat) as [template Htemplate].
  destruct (re_match pat line) as [matched|] eqn:Hm.
  - left. split; [by eapply is_stamp_Some |].
    rewrite (process_line_stamp _ _ _ Hpat Htemplate _ _ _ Hm) in Hrun.
    destruct (strptime matched template) as [time|e'] eqn:Ht.
    + unfold_bind.
      destruct (unpack2 _) as [[speaker message]|e'] eqn:Hs; [done |].
      injection Hrun as <-. apply unpack2_split_Raise in Hs. eauto.
    + injection Hrun as <-. by eapply strptime_Raise.
  - right. split; [by eapply is_stamp_None |].
    rewrite (process_line_continuation _ _ Hpat _ _ Hm) in Hrun.
    destruct (snoc_cases (messages st)) as [Hnil | (ms & m & Hms)].
    + rewrite Hnil in Hrun. by injection Hrun as <-.
    + by rewrite Hms, get_last_snoc in Hrun; unfold_bind;
        rewrite set_last_snoc in Hrun.
Qed.

(** Once a message is there, one is there for good. *)
Lemma process_lines_messages_nonempty time_format st lines st' :
  messages st ≠ [] →
  process_lines time_format st lines = Ok st' →
  messages st' ≠ [].
Proof.
  revert st; induction lines as [|l lines IH]; intros st Hne.
  - by intros [= <-].
  - rewrite process_lines_cons. intros (st1 & H1 & Hrest)%bind_Ok.
    eapply IH; [|done].
    by destruct (process_line_Ok_line_ok _ _ _ _ H1) as (_ & ? & _).
Qed.

(** After the first message, a failure of the loop is a [ValueError] of a
    stamp line. *)
Lemma process_lines_Raise_nonempty time_format pat st lines e :
  patterns !! time_format = Some pat →
  messages st ≠ [] →
  process_lines time_format st lines = Raise e →
  ∃ msg, e = ValueError msg.
Proof.
  intros Hpat. revert st; induction lines as [|l lines IH]; intros st Hne.
  - done.
  - rewrite process_lines_cons.
    destruct (process_line time_format st l) as [st1|e1] eqn:H1.
    + unfold_bind. apply IH.
      by destruct (process_line_Ok_line_ok _ _ _ _ H1) as (_ & ? & _).
    + intros [= <-].
      by destruct (process_line_Raise_inv _ _ _ _ _ Hpat H1)
        as [[_ ?] | (_ & ? & _)].
Qed.

(** X1. The loop raises nothing but [ValueError] and [IndexError], and
    [IndexError] exactly when the first line after the dropped one is not a
    stamp line. *)
Theorem parse_lines_exceptions time_format pat lines :
  patterns !! time_format = Some pat →
  (∀ e, parse_lines time_format lines = Raise e →
        (∃ msg, e = ValueError msg)
        ∨ e = IndexError "list index out of range")
  ∧ (parse_lines time_format lines
       = Raise (IndexError "list index out of range")
     ↔ ∃ first rest, drop 1 lines = first :: rest
                     ∧ is_stamp time_format first = false).
Proof.
  intros Hpat. unfold parse_lines.
  destruct (drop 1 lines) as [|first rest]; [split |].
  { done. }
  { split; [done | by intros (? & ? & ? & _)]. }
  rewrite process_lines_cons.
  destruct (process_line time_format no_columns first) as [st1|e1] eqn:H1.
  - unfold_bind.
    destruct (process_line_Ok_line_ok _ _ _ _ H1) as (_ & Hne & Hstamp).
    specialize (Hstamp eq_refl). split.
    + intros e He. left.
      by eapply process_lines_Raise_nonempty.
    + split.
      * intros He.
        by destruct (process_lines_Raise_nonempty _ _ _ _ _ Hpat Hne He).
      * intros (f & r & [= <- <-] & Hf). congruence.
  - destruct (process_line_Raise_inv _ _ _ _ _ Hpat H1)
      as [[Hs [msg ->]] | (Hs & _ & ->)]; unfold_bind.
    + split; [intros e [= <-]; eauto |].
      split; [done |]. intros (f & r & [= <- <-] & Hf). congruence.
    + split; [intros e [= <-]; eauto |].
      split; [eauto | done].
Qed.

Lemma parse_lines_exceptions_witness :
  (∀ e, parse_lines "EU" orphan_lines = Raise e →
        (∃ msg, e = ValueError msg)
        ∨ e = IndexError "list index out of range")
  ∧ (parse_lines "EU" orphan_lines
       = Raise (IndexError "list index out of range")
     ↔ ∃ first rest, drop 1 orphan_lines = first :: rest
                     ∧ is_stamp "EU" first = false).
Proof.
  apply (parse_lines_exceptions "EU" pattern_EU orphan_lines).
  vm_compute; reflexivity.
Defined.

(** ** What the loop keeps of the lines *)

Lemma split_once_fst_no_sep sep s a b :
  split_once sep s = [a; b] → contains_chr sep a = false.
Proof.
  revert a; induction s as [|c s IH]; intros a; simpl; [discriminate |].
  destruct (Ascii.eqb c sep) eqn:Hc.
  - by intros [= <- <-].
  - destruct (split_once sep s) as [|a' [|b' [|? ?]]] eqn:E; try discriminate.
    intros [= <- <-]. simpl. rewrite Hc. by apply IH.
Qed.

Lemma process_lines_speakers time_format st lines st' :
  process_lines time_format st lines = Ok st' →
  Forall (λ s, contains_chr ":" s = false) (speakers st) →
  Forall (λ s, contains_chr ":" s = false) (speakers st').
Proof.
  revert st; induction lines as [|l lines IH]; intros st.
  - by intros [= <-].
  - rewrite process_lines_cons. intros (st1 & H1 & Hrest)%bind_Ok Hst.
    apply (IH _ Hrest).
    destruct (process_line_Ok_inv _ _ _ _ H1)
      as (pat & template & _ & _ &
          [(m & t & sp & body & _ & _ & Hs & ->) | (_ & ms & m & _ & ->)]).
    + simpl. apply Forall_app. split; [done |].
      apply Forall_singleton. by eapply split_once_fst_no_sep.
    + done.
Qed.

(** X2. No speaker holds a colon: the speaker of a record is the text
    between the 20-character prefix and the first colon of its stamp line. *)
Theorem speakers_without_colon time_format lines cols :
  parse_lines time_format lines = Ok cols →
  Forall (λ s, contains_chr ":" s = false) (speakers cols).
Proof.
  intros Hrun. by eapply process_lines_speakers.
Qed.

Lemma speakers_without_colon_witness :
  Forall (λ s, contains_chr ":" s = false)
    (speakers (mk_columns
                 [mk_datetime 2023 2 1 10 0; mk_datetime 2023 2 2 23 59]
                 ["Alice"; "Bob"]
                 [" see http://example.org" +:+ nl +:+ "and: more" +:+ nl;
                  " ok" +:+ nl])).
Proof.
  apply (speakers_without_colon "EU" colon_lines).
  vm_compute; reflexivity.
Defined.

Lemma concat_lines_app a b :
  concat_lines (a ++ b) = concat_lines a +:+ concat_lines b.
Proof.
  induction a as [|x a IH]; [done |].
  change (concat_lines ((x :: a) ++ b)) with (x +:+ concat_lines (a ++ b)).
  change (concat_lines (x :: a)) with (x +:+ concat_lines a).
  by rewrite IH, string_app_assoc.
Qed.

Lemma lines_text_cons time_format l ls :
  lines_text time_format (l :: ls) =
    (if is_stamp time_format l then slice_from 20 l else l)
    +:+ lines_text time_format ls.
Proof. reflexivity. Qed.

Lemma records_text_snoc ss ms ts s m :
  length ss = length ms →
  records_text (mk_columns ts (ss ++ [s]) (ms ++ [m])) =
    records_text (mk_columns ts ss ms) +:+ s +:+ String ":" m.
Proof.
  intros Hlen. unfold records_text; simpl.
  rewrite zip_with_app by done. rewrite concat_lines_app. simpl.
  change (concat_lines [s +:+ String ":" m])
    with ((s +:+ String ":" m) +:+ EmptyString).
  by rewrite string_app_empty_r.
Qed.

Lemma process_lines_text time_format st lines st' :
  balanced st →
  process_lines time_format st lines = Ok st' →
  records_text st' = records_text st +:+ lines_text time_format lines.
Proof.
  revert st; induction lines as [|l lines IH]; intros st Hb.
  - intros [= <-]. unfold lines_text; simpl. by rewrite string_app_empty_r.
  - rewrite process_lines_cons. intros (st1 & H1 & Hrest)%bind_Ok.
    pose proof (process_line_balanced _ _ _ _ Hb H1) as Hb1.
    rewrite (IH _ Hb1 Hrest), lines_text_cons.
    rewrite <- string_app_assoc. f_equal.
    destruct Hb as [Hsm Hmt].
    destruct (process_line_Ok_inv _ _ _ _ H1)
      as (pat & template & Hpat & _ &
          [(m & t & sp & body & Hm & _ & Hs & ->) | (Hm & ms & m & Hms & ->)]).
    + rewrite (is_stamp_Some _ _ _ _ Hpat Hm).
      rewrite (split_once_join _ _ _ _ Hs).
      destruct st as [ts ss mss]; simpl in *.
      unfold columns_app; simpl. by rewrite records_text_snoc.
    + rewrite (is_stamp_None _ _ _ Hpat Hm).
      destruct st as [ts ss mss]; simpl in *. subst mss.
      destruct (snoc_cases ss) as [-> | (ss' & s & ->)].
      { rewrite length_app in Hsm; simpl in Hsm. lia. }
      rewrite !length_app in Hsm; simpl in Hsm.
      rewrite !records_text_snoc by lia.
      rewrite !string_app_assoc. by do 2 f_equal.
Qed.

(** X3. Nothing of the text is lost: the records, each written as speaker,
    colon and message, spell the lines after the first one, stamp lines
    without their first 20 characters and continuation lines whole. *)
Theorem text_preserved time_format lines cols :
  parse_lines time_format lines = Ok cols →
  records_text cols = lines_text time_format (drop 1 lines).
Proof.
  intros Hrun.
  apply (process_lines_text _ _ _ _ balanced_no_columns Hrun).
Qed.

Lemma text_preserved_witness :
  records_text (mk_columns
                 [mk_datetime 2023 2 1 10 0; mk_datetime 2023 2 2 23 59]
                 ["Alice"; "Bob"]
                 [" see http://example.org" +:+ nl +:+ "and: more" +:+ nl;
                  " ok" +:+ nl])
  = lines_text "EU" (drop 1 colon_lines).
Proof.
  apply (text_preserved "EU" colon_lines).
  vm_compute; reflexivity.
Defined.

(** ** Times and speakers, in the order of the file *)

(** The fields sit in the first 17 characters of the line: they are read the
    same on the line and on the text the pattern matched. *)
Lemma stamp_time_line time_format pat template line matched :
  patterns !! time_format = Some pat →
  datetimes !! time_format = Some template →
  re_match pat line = Some matched →
  stamp_time template line = stamp_time template matched.
Proof.
  intros Hpat Htemplate Hm.
  destruct (locale_cases _ _ _ Hpat Htemplate)
    as [[-> ->] | [[-> ->] | [-> ->]]];
    unfold pattern_EU, pattern_NA, pattern_JP, digits, lit in Hm;
    simpl app in Hm; invert_stamp Hm; reflexivity.
Qed.

Lemma stamp_lines_cons time_format l ls :
  stamp_lines time_format (l :: ls) =
    if is_stamp time_format l then l :: stamp_lines time_format ls
    else stamp_lines time_format ls.
Proof.
  unfold stamp_lines. destruct (is_stamp time_format l) eqn:E.
  - by rewrite filter_cons_True.
  - rewrite filter_cons_False; [done | congruence].
Qed.

Lemma line_speaker_split line speaker message :
  split_once ":" (slice_from 20 line) = [speaker; message] →
  line_speaker line = speaker.
Proof. intros H. unfold line_speaker. by rewrite H. Qed.

Lemma process_lines_order time_format template st lines st' :
  datetimes !! time_format = Some template →
  process_lines time_format st lines = Ok st' →
  times st' = times st ++ (stamp_time template <$> stamp_lines time_format lines)
  ∧ speakers st'
    = speakers st ++ (line_speaker <$> stamp_lines time_format lines)
  ∧ Forall (λ t, valid_datetime t = true)
      (stamp_time template <$> stamp_lines time_format lines).
Proof.
  intros Htemplate.
  revert st; induction lines as [|l lines IH]; intros st.
  - intros [= <-]. by rewrite !app_nil_r.
  - rewrite process_lines_cons. intros (st1 & H1 & Hrest)%bind_Ok.
    destruct (IH _ Hrest) as (Ht & Hs & Hv).
    rewrite Ht, Hs, stamp_lines_cons.
    destruct (process_line_Ok_inv _ _ _ _ H1)
      as (pat & template' & Hpat & Htemplate' &
          [(m & t & sp & body & Hm & Htime & Hsplit & ->)
          | (Hm & ms & m & Hms & ->)]).
    + rewrite (is_stamp_Some _ _ _ _ Hpat Hm).
      assert (template' = template) as -> by congruence.
      pose proof (strptime_stamp _ _ _ _ _ Hpat Htemplate Hm) as Hstamp.
      destruct (valid_datetime (stamp_time template m)) eqn:Hvalid;
        [|by rewrite Htime in Hstamp].
      rewrite Htime in Hstamp. injection Hstamp as ->.
      rewrite !fmap_cons, (stamp_time_line _ _ _ _ _ Hpat Htemplate Hm).
      rewrite (line_speaker_split _ _ _ Hsplit). simpl.
      rewrite <- !app_assoc. split; [done |]. split; [done |].
      by constructor.
    + by rewrite (is_stamp_None _ _ _ Hpat Hm).
Qed.

(** X4. The records follow the file: when the loop returns, the times are
    the stamps of the stamp lines after the first line, read at their fixed
    positions under the template of the locale and in the order of the file,
    each of them a valid date and time, and the speakers are the texts
    between the 20-character prefix and the first colon of the same lines. *)
Theorem columns_in_file_order time_format template lines cols :
  datetimes !! time_format = Some template →
  parse_lines time_format lines = Ok cols →
  times cols
  = stamp_time template <$> stamp_lines time_format (drop 1 lines)
  ∧ speakers cols = line_speaker <$> stamp_lines time_format (drop 1 lines)
  ∧ Forall (λ t, valid_datetime t = true) (times cols).
Proof.
  intros Htemplate Hrun.
  destruct (process_lines_order _ _ _ _ _ Htemplate Hrun) as (Ht & Hs & Hv).
  simpl in Ht, Hs. by rewrite Ht, Hs.
Qed.

Lemma columns_in_file_order_witness :
  times colon_columns
  = stamp_time template_EU <$> stamp_lines "EU" (drop 1 colon_lines)
  ∧ speakers colon_columns
    = line_speaker <$> stamp_lines "EU" (drop 1 colon_lines)
  ∧ Forall (λ t, valid_datetime t = true) (times colon_columns).
Proof.
  apply (columns_in_file_order "EU" template_EU colon_lines).
  - reflexivity.
  - vm_compute; reflexivity.
Defined.

(** ** "EU" and "NA": one pattern, two templates *)

Lemma stamp_time_swap_EU_NA line m :
  re_match pattern_EU line = Some m →
  stamp_time template_NA m = swap_day_month (stamp_time template_EU m)
  ∧ stamp_time template_EU m = swap_day_month (stamp_time template_NA m).
Proof.
  unfold pattern_EU, digits, lit. simpl app. intros H.
  invert_stamp H. split; reflexivity.
Qed.

Lemma day_month_locales_cases a b :
  day_month_locales a b →
  ∃ ta tb,
    patterns !! a = Some pattern_EU ∧ patterns !! b = Some pattern_EU
    ∧ datetimes !! a = Some ta ∧ datetimes !! b = Some tb
    ∧ ∀ line m, re_match pattern_EU line = Some m →
        stamp_time tb m = swap_day_month (stamp_time ta m).
Proof.
  intros [[-> ->] | [-> ->]].
  - exists template_EU, template_NA. repeat split; try reflexivity.
    intros line m Hm. by destruct (stamp_time_swap_EU_NA _ _ Hm).
  - exists template_NA, template_EU. repeat split; try reflexivity.
    intros line m Hm. by destruct (stamp_time_swap_EU_NA _ _ Hm).
Qed.

(** A valid date stays valid with day and month exchanged exactly when its
    day can be a month. *)
Lemma valid_swap_day_month t :
  valid_datetime t = true →
  valid_datetime (swap_day_month t) = (day t <=? 12)%Z.
Proof.
  intros Hv%valid_datetime_spec.
  pose proof (days_in_month_bounds (year t) (day t)) as Hb.
  destruct (Z.leb_spec (day t) 12) as [Hd | Hd].
  - apply valid_datetime_spec. simpl. lia.
  - apply not_true_iff_false. intros Hs%valid_datetime_spec.
    simpl in Hs. lia.
Qed.

Lemma process_lines_swap a b ta st lines st' :
  day_month_locales a b →
  datetimes !! a = Some ta →
  process_lines a st lines = Ok st' →
  if forallb (λ t, day t <=? 12)%Z (stamp_time ta <$> stamp_lines a lines)
  then process_lines b (swap_columns st) lines = Ok (swap_columns st')
  else ∃ msg, process_lines b (swap_columns st) lines
              = Raise (ValueError msg).
Proof.
  intros Hab Hta.
  destruct (day_month_locales_cases _ _ Hab)
    as (ta' & tb & Hpa & Hpb & Hta' & Htb & Hswap).
  assert (ta' = ta) as -> by congruence.
  revert st; induction lines as [|l lines IH]; intros st.
  - by intros [= <-].
  - rewrite !process_lines_cons. intros (st1 & H1 & Hrest)%bind_Ok.
    specialize (IH _ Hrest). rewrite stamp_lines_cons.
    destruct (process_line_Ok_inv _ _ _ _ H1)
      as (pat & template & Hpat & Htemplate &
          [(m & t & sp & body & Hm & Htime & Hsplit & ->)
          | (Hm & ms & m & Hms & ->)]).
    + assert (pat = pattern_EU) as -> by congruence.
      assert (template = ta) as -> by congruence.
      rewrite (is_stamp_Some _ _ _ _ Hpa Hm), fmap_cons.
      rewrite (stamp_time_line _ _ _ _ _ Hpa Hta Hm).
      pose proof (strptime_stamp _ _ _ _ _ Hpa Hta Hm) as Hstamp.
      destruct (valid_datetime (stamp_time ta m)) eqn:Hvalid;
        [|by rewrite Htime in Hstamp].
      rewrite Htime in Hstamp. injection Hstamp as ->.
      pose proof (valid_swap_day_month _ Hvalid) as Hv.
      rewrite <- (Hswap _ _ Hm) in Hv.
      change (forallb ?p (?x :: ?xs)) with (p x && forallb p xs).
      destruct (day (stamp_time ta m) <=? 12)%Z eqn:Hday; simpl andb.
      * pose proof (strptime_stamp_Ok _ _ _ _ _ Hpb Htb Hm Hv) as Hb.
        rewrite (process_line_stamp_Ok _ _ _ Hpb Htb _ _ _ _ _ _ Hm Hb Hsplit).
        unfold_bind. rewrite (Hswap _ _ Hm).
        replace (columns_app (swap_columns st) _)
          with (swap_columns
                  (columns_app st
                     (mk_columns [stamp_time ta m] [sp] [body]))); [done |].
        unfold swap_columns, columns_app; simpl. by rewrite fmap_app.
      * destruct (strptime_stamp_Raise _ _ _ _ _ Hpb Htb Hm Hv) as [msg Hb].
        rewrite (process_line_stamp_Raise _ _ _ Hpb Htb _ _ _ _ Hm Hb).
        by exists msg.
    + assert (pat = pattern_EU) as -> by congruence.
      rewrite (is_stamp_None _ _ _ Hpa Hm).
      rewrite (process_line_continuation_snoc _ _ Hpb (swap_columns st)
                 _ ms m Hm Hms).
      unfold_bind. apply IH.
Qed.

(** X5. On text of code points below 256, where the digits of a stamp are
    among the ten digits 0 to 9 (a digit of another script passes [\d] of
    the pattern but not every field of [strptime], and such text is outside
    this statement): "EU" and "NA" share one pattern and differ by the order
    of day and month in the template. A transcript the loop accepts under
    one of the two is, under the other, read with day and month exchanged in
    every time (speakers and messages unchanged) when every day is at most
    12, and rejected with a [ValueError] as soon as one day is above 12. *)
Theorem day_month_exchanged a b lines cols :
  day_month_locales a b →
  parse_lines a lines = Ok cols →
  if forallb (λ t, day t <=? 12)%Z (times cols)
  then parse_lines b lines = Ok (swap_columns cols)
  else ∃ msg, parse_lines b lines = Raise (ValueError msg).
Proof.
  intros Hab Hrun.
  destruct (day_month_locales_cases _ _ Hab) as (ta & _ & _ & _ & Hta & _).
  destruct (process_lines_order _ _ _ _ _ Hta Hrun) as (Ht & _).
  simpl in Ht. rewrite Ht.
  apply (process_lines_swap a b ta no_columns _ _ Hab Hta Hrun).
Qed.

Lemma day_month_exchanged_witness :
  if forallb (λ t, day t <=? 12)%Z (times colon_columns)
  then parse_lines "NA" colon_lines = Ok (swap_columns colon_columns)
  else ∃ msg, parse_lines "NA" colon_lines = Raise (ValueError msg).
Proof.
  apply (day_month_exchanged "EU" "NA" colon_lines colon_columns).
  - left. split; reflexivity.
  - vm_compute; reflexivity.
Defined.

(** ** A transcript read under a pattern that is not its own *)

Lemma pattern_cases time_format pat :
  patterns !! time_format = Some pat →
  pat = pattern_EU ∨ pat = pattern_JP.
Proof.
  intros Hpat. destruct (datetimes_of_patterns _ _ Hpat) as [t Ht].
  destruct (locale_cases _ _ _ Hpat Ht) as [[-> _] | [[-> _] | [-> _]]];
    [by left | by left | by right].
Qed.

(** Day first and year first exclude each other at the third character. *)
Lemma pattern_EU_not_JP line m :
  re_match pattern_EU line = Some m → re_match pattern_JP line = None.
Proof.
  unfold pattern_EU, digits, lit. simpl app. intros H. invert_stamp H.
  unfold pattern_JP, digits, lit. simpl app.
  cbn [re_match atom_matches]. by rewrite Hc, Hc0.
Qed.

Lemma pattern_JP_not_EU line m :
  re_match pattern_JP line = Some m → re_match pattern_EU line = None.
Proof.
  unfold pattern_JP, digits, lit. simpl app. intros H. invert_stamp H.
  unfold pattern_EU, digits, lit. simpl app.
  cbn [re_match atom_matches]. rewrite Hc, Hc0.
  by rewrite (digit_not_sep _ "/" Hc1).
Qed.

Lemma patterns_exclusive pa pb line m :
  pa = pattern_EU ∨ pa = pattern_JP →
  pb = pattern_EU ∨ pb = pattern_JP →
  pa ≠ pb →
  re_match pa line = Some m → re_match pb line = None.
Proof.
  intros [-> | ->] [-> | ->] Hne Hm; try done.
  - by eapply pattern_EU_not_JP.
  - by eapply pattern_JP_not_EU.
Qed.

(** X6. A transcript with at least one line after the first that the loop
    accepts under one locale is rejected under every locale whose pattern is
    another one (day first against year first): its first stamp line is then
    taken for a continuation line, and [messages[-1]] raises [IndexError]. *)
Theorem other_pattern_rejected a b pa pb lines cols :
  patterns !! a = Some pa →
  patterns !! b = Some pb →
  pa ≠ pb →
  drop 1 lines ≠ [] →
  parse_lines a lines = Ok cols →
  parse_lines b lines = Raise (IndexError "list index out of range").
Proof.
  intros Hpa Hpb Hne Hbody Hrun. unfold parse_lines in *.
  destruct (drop 1 lines) as [|first rest]; [done |].
  rewrite process_lines_cons in Hrun.
  apply bind_Ok in Hrun as (st1 & H1 & _).
  destruct (process_line_Ok_inv _ _ _ _ H1)
    as (pat & template & Hpat & _ &
        [(m & t & sp & body & Hm & _) | (_ & ms & m & Hms & _)]).
  - assert (pat = pa) as -> by congruence.
    rewrite process_lines_cons.
    rewrite (process_line_continuation_nil _ _ Hpb); [done | | done].
    eapply patterns_exclusive; [by eapply pattern_cases .. | done | done].
  - by destruct ms.
Qed.

Lemma other_pattern_rejected_witness :
  parse_lines "JP" colon_lines = Raise (IndexError "list index out of range").
Proof.
  apply (other_pattern_rejected "EU" "JP" pattern_EU pattern_JP
           colon_lines colon_columns).
  - reflexivity.
  - reflexivity.
  - discriminate.
  - discriminate.
  - vm_compute; reflexivity.
Defined.

(** ** The three characters after the stamp *)

Lemma re_match_prefix r s t :
  length r = String.length s → re_match r (s +:+ t) = re_match r s.
Proof.
  revert s; induction r as [|a r IH]; intros [|c s] Hlen; try done.
  rewrite string_app_cons, !re_match_cons.
  destruct (atom_matches a c); [|done].
  rewrite IH; [done | by injection Hlen].
Qed.

Lemma slice_from_app s t : slice_from (String.length s) (s +:+ t) = t.
Proof.
  induction s as [|c s IH]; [by destruct t |].
  by rewrite string_app_cons.
Qed.

Lemma slice_from_add n k s :
  slice_from (n + k) s = slice_from k (slice_from n s).
Proof.
  revert s; induction n as [|n IH]; intros s; [done |].
  destruct s as [|c s]; simpl; [by destruct k | apply IH].
Qed.

Lemma pattern_length time_format pat :
  patterns !! time_format = Some pat → length pat = 17.
Proof. by intros [-> | ->]%pattern_cases. Qed.

(** X7. Characters 17 to 19 of a stamp line (the blank, the dash and the
    blank of the layout) are read by nothing: the pattern stops after the
    minutes and the text is cut at position 20, so an iteration gives the
    same outcome whatever these three characters are. *)
Theorem separator_unread time_format st stamp sep sep' rest :
  String.length stamp = 17 →
  String.length sep = 3 →
  String.length sep' = 3 →
  is_stamp time_format (stamp +:+ sep +:+ rest) = true →
  process_line time_format st (stamp +:+ sep' +:+ rest)
  = process_line time_format st (stamp +:+ sep +:+ rest).
Proof.
  intros Hstamp Hsep Hsep' Hmatch. unfold is_stamp in Hmatch.
  destruct (patterns !! time_format) as [pat|] eqn:Hpat; [|done].
  apply bool_decide_eq_true in Hmatch as [m Hm].
  destruct (datetimes_of_patterns _ _ Hpat) as [template Htemplate].
  pose proof (pattern_length _ _ Hpat) as Hlen.
  assert (re_match pat (stamp +:+ sep' +:+ rest) = Some m) as Hm'.
  { rewrite re_match_prefix by congruence.
    by rewrite re_match_prefix in Hm by congruence. }
  rewrite (process_line_stamp _ _ _ Hpat Htemplate _ _ _ Hm).
  rewrite (process_line_stamp _ _ _ Hpat Htemplate _ _ _ Hm').
  assert (∀ x, String.length x = 3 →
               slice_from 20 (stamp +:+ x +:+ rest) = rest) as Hcut.
  { intros x Hx. change 20 with (17 + 3).
    rewrite slice_from_add, <- Hstamp, slice_from_app.
    by rewrite <- Hx, slice_from_app. }
  by rewrite !Hcut.
Qed.

Lemma separator_unread_witness :
  process_line "EU" no_columns ("01/02/2023, 10:00" +:+ "abc" +:+ "Alice: hi")
  = process_line "EU" no_columns
      ("01/02/2023, 10:00" +:+ " - " +:+ "Alice: hi").
Proof.
  apply (separator_unread "EU" no_columns "01/02/2023, 10:00" " - " "abc"
           "Alice: hi"); reflexivity.
Defined.

(** ** The outcomes of the constructor *)

Lemma process_line_no_pattern time_format st line :
  patterns !! time_format = None →
  process_line time_format st line = Raise (KeyError time_format).
Proof. intros Hpat. unfold process_line, getitem. by rewrite Hpat. Qed.

(** What the loop raises, whatever [time_format] is. *)
Lemma parse_lines_Raise_cases time_format lines e :
  parse_lines time_format lines = Raise e →
  (∃ msg, e = ValueError msg)
  ∨ e = IndexError "list index out of range"
  ∨ (e = KeyError time_format ∧ patterns !! time_format = None).
Proof.
  unfold parse_lines. destruct (drop 1 lines) as [|first rest]; [done |].
  rewrite process_lines_cons.
  destruct (patterns !! time_format) as [pat|] eqn:Hpat.
  - destruct (process_line time_format no_columns first) as [st1|e1] eqn:H1.
    + unfold_bind. intros Hrest. left.
      eapply process_lines_Raise_nonempty; [done | | done].
      by destruct (process_line_Ok_line_ok _ _ _ _ H1) as (_ & ? & _).
    + intros [= <-].
      destruct (process_line_Raise_inv _ _ _ _ _ Hpat H1)
        as [[_ ?] | (_ & _ & ?)]; auto.
  - rewrite process_line_no_pattern by done. intros [= <-]. auto.
Qed.

(** The table is empty exactly when no line follows the first one. *)
Lemma parse_lines_no_records time_format lines cols :
  parse_lines time_format lines = Ok cols →
  records cols = [] ↔ drop 1 lines = [].
Proof.
  intros Hrun. pose proof (parse_lines_balanced _ _ _ Hrun) as Hb.
  unfold parse_lines in Hrun. split.
  - intros Hnil. destruct (drop 1 lines) as [|first rest]; [done |].
    rewrite process_lines_cons in Hrun.
    apply bind_Ok in Hrun as (st1 & H1 & Hrest).
    destruct (process_line_Ok_line_ok _ _ _ _ H1) as (_ & Hne & _).
    pose proof (process_lines_messages_nonempty _ _ _ _ Hne Hrest) as Hms.
    pose proof (records_length _ Hb) as Hlen. rewrite Hnil in Hlen.
    destruct Hb as [_ Hmt]. destruct (messages cols); [done |].
    simpl in *. lia.
  - intros Hnil. rewrite Hnil in Hrun. by injection Hrun as <-.
Qed.

Lemma make_chat_parse emoji_count time_format lines cols :
  parse_lines time_format lines = Ok cols →
  make_chat emoji_count cols =
    if bool_decide (drop 1 lines ≠ []) && forallb in_bounds (times cols)
    then Ok (enrich emoji_count <$> records cols)
    else Raise (AttributeError
                  "Can only use .dt accessor with datetimelike values").
Proof.
  intros Hrun.
  rewrite (make_chat_balanced _ _ (parse_lines_balanced _ _ _ Hrun)).
  pose proof (parse_lines_no_records _ _ _ Hrun) as Hnil.
  destruct (records cols) as [|r rs] eqn:Hr.
  - rewrite (proj1 Hnil eq_refl). by rewrite bool_decide_eq_false_2 by auto.
  - rewrite bool_decide_eq_true_2; [done |].
    intros Hbody. discriminate (proj2 Hnil Hbody).
Qed.

Lemma try_aggregate_records limits emoji_count cols f :
  balanced cols →
  try_aggregate_by_time limits (enrich emoji_count <$> records cols) f =
    match grouper_error limits f (times cols) with
    | Some e => Raise e
    | None =>
        Ok (aggregate_by_time (enrich emoji_count <$> records cols) f)
    end.
Proof.
  intros Hb. unfold try_aggregate_by_time.
  by rewrite Time_enrich, (records_times _ Hb).
Qed.

(** The object a parse gives when nothing more goes wrong. *)
Lemma build_Ok_iff limits emoji_count time_format lines w :
  build limits emoji_count time_format lines = Ok w
  ↔ ∃ cols,
      parse_lines time_format lines = Ok cols
      ∧ drop 1 lines ≠ []
      ∧ forallb in_bounds (times cols) = true
      ∧ (∀ f, grouper_error limits f (times cols) = None)
      ∧ w = {| chat := enrich emoji_count <$> records cols;
               daily_chat :=
                 aggregate_by_time (enrich emoji_count <$> records cols)
                   freq_D;
               weekly_chat :=
                 aggregate_by_time (enrich emoji_count <$> records cols)
                   freq_W;
               monthly_chat :=
                 aggregate_by_time (enrich emoji_count <$> records cols)
                   freq_M |}.
Proof.
  destruct (parse_lines time_format lines) as [cols|e] eqn:Hrun.
  2: { rewrite (build_Raise _ _ _ _ _ Hrun). split; [done |].
       by intros (cols & ? & _). }
  pose proof (parse_lines_balanced _ _ _ Hrun) as Hb.
  unfold build. rewrite Hrun. unfold_bind.
  rewrite (make_chat_parse _ _ _ _ Hrun).
  destruct (bool_decide (drop 1 lines ≠ [])) eqn:Hbody; simpl.
  2: { apply bool_decide_eq_false in Hbody. split; [done |].
       intros (cols' & [= <-] & ? & _). done. }
  apply bool_decide_eq_true in Hbody.
  destruct (forallb in_bounds (times cols)) eqn:Hin.
  2: { split; [done |]. intros (cols' & [= <-] & _ & ? & _). congruence. }
  rewrite !(try_aggregate_records _ _ _ _ Hb).
  destruct (grouper_error limits freq_D (times cols)) as [e|] eqn:HD.
  { split; [done |]. intros (cols' & [= <-] & _ & _ & Hg & _).
    specialize (Hg freq_D). congruence. }
  destruct (grouper_error limits freq_W (times cols)) as [e|] eqn:HW.
  { split; [done |]. intros (cols' & [= <-] & _ & _ & Hg & _).
    specialize (Hg freq_W). congruence. }
  destruct (grouper_error limits freq_M (times cols)) as [e|] eqn:HM.
  { split; [done |]. intros (cols' & [= <-] & _ & _ & Hg & _).
    specialize (Hg freq_M). congruence. }
  split.
  - intros [= <-]. exists cols. repeat split; try done. by intros [].
  - by intros (cols' & [= <-] & _ & _ & _ & ->).
Qed.

(** The ends of [datetime64[ns]], to the minute. *)
Lemma in_bounds_ends :
  in_bounds (mk_datetime 1677 9 21 0 12) = false
  ∧ in_bounds (mk_datetime 1677 9 21 0 13) = true
  ∧ in_bounds (mk_datetime 2262 4 11 23 47) = true
  ∧ in_bounds (mk_datetime 2262 4 11 23 48) = false.
Proof. repeat split; vm_compute; reflexivity. Qed.

(** X8. When the loop returns, lines 79 to 99 raise the [AttributeError] of
    the [.dt] accessor exactly when no line follows the first line of the
    file or some stamp lies outside [datetime64[ns]]; the constructor body
    then raises that exception; in every other case the table [chat] is
    built. *)
Theorem dt_accessor_raises
    (limits : grouper_limits) (emoji_count : string → Z)
    time_format lines cols :
  parse_lines time_format lines = Ok cols →
  (make_chat emoji_count cols
   = Raise (AttributeError "Can only use .dt accessor with datetimelike values")
   ↔ drop 1 lines = [] ∨ Exists (λ t, in_bounds t = false) (times cols))
  ∧ (make_chat emoji_count cols
     = Raise (AttributeError
                "Can only use .dt accessor with datetimelike values") →
     build limits emoji_count time_format lines
     = Raise (AttributeError
                "Can only use .dt accessor with datetimelike values"))
  ∧ (make_chat emoji_count cols
     ≠ Raise (AttributeError
                "Can only use .dt accessor with datetimelike values") →
     make_chat emoji_count cols
     = Ok (enrich emoji_count <$> records cols)).
Proof.
  intros Hrun. split; [|split].
  - rewrite (make_chat_parse _ _ _ _ Hrun).
    destruct (decide (drop 1 lines = [])) as [Hnil | Hbody].
    { rewrite bool_decide_eq_false_2 by auto. simpl. split; auto. }
    rewrite bool_decide_eq_true_2 by done. simpl.
    destruct (forallb in_bounds (times cols)) eqn:Hin.
    + split; [done |]. intros [? | Hex]; [done |].
      rewrite forallb_forall in Hin. apply Exists_exists in Hex as (t & Ht & Hf).
      rewrite (Hin t) in Hf; [done |]. by apply list_elem_of_In.
    + split; [|done]. intros _. right.
      apply Exists_exists.
      destruct (forallb_forall in_bounds (times cols)) as [_ Hall].
      destruct (decide (Exists (λ t, in_bounds t = false) (times cols)))
        as [Hex | Hno]; [by apply Exists_exists in Hex |].
      rewrite Hall in Hin; [done |].
      intros t Ht%list_elem_of_In.
      destruct (in_bounds t) eqn:E; [done |].
      destruct Hno. apply Exists_exists. eauto.
  - intros Hchat. unfold build. rewrite Hrun. unfold_bind. by rewrite Hchat.
  - rewrite (make_chat_parse _ _ _ _ Hrun). by destruct (_ && _).
Qed.

Lemma dt_accessor_raises_witness :
  (make_chat example_emoji_count colon_columns
   = Raise (AttributeError "Can only use .dt accessor with datetimelike values")
   ↔ drop 1 colon_lines = []
     ∨ Exists (λ t, in_bounds t = false) (times colon_columns))
  ∧ (make_chat example_emoji_count colon_columns
     = Raise (AttributeError
                "Can only use .dt accessor with datetimelike values") →
     build example_limits example_emoji_count "EU" colon_lines
     = Raise (AttributeError
                "Can only use .dt accessor with datetimelike values"))
  ∧ (make_chat example_emoji_count colon_columns
     ≠ Raise (AttributeError
                "Can only use .dt accessor with datetimelike values") →
     make_chat example_emoji_count colon_columns
     = Ok (enrich example_emoji_count <$> records colon_columns)).
Proof.
  apply (dt_accessor_raises example_limits example_emoji_count "EU"
           colon_lines colon_columns).
  vm_compute; reflexivity.
Defined.

(** X9. On text of code points below 256, the constructor returns an object
    exactly when [exists] returns [True], the suffix is [.txt],
    [time_format] is one of the three keys, the file can be read, its lines
    are well formed (the first line after the dropped one starts with a
    stamp, every stamp is a valid date and time, every stamp line has a
    colon after its first 20 characters), at least one line follows the
    first, every stamp lies within [datetime64[ns]] and none of the three
    group-bys overflows; the last two conditions hold as soon as every stamp
    is of the years 1678 to 2261. *)
Theorem init_succeeds_iff
    (limits : grouper_limits) (emoji_count : string → Z)
    (suffix : string → string) fs chat_file time_format :
  (is_ok (init limits emoji_count suffix fs chat_file time_format).2 = true
   ↔ fs_exists fs chat_file = Ok true
     ∧ suffix chat_file = ".txt"
     ∧ time_format ∈ ["EU"; "NA"; "JP"]
     ∧ ∃ lines cols,
         fs_open fs chat_file = Ok lines
         ∧ well_formed time_format lines = true
         ∧ drop 1 lines ≠ []
         ∧ parse_lines time_format lines = Ok cols
         ∧ forallb in_bounds (times cols) = true
         ∧ ∀ f, grouper_error limits f (times cols) = None)
  ∧ (fs_exists fs chat_file = Ok true
     ∧ suffix chat_file = ".txt"
     ∧ time_format ∈ ["EU"; "NA"; "JP"]
     ∧ (∃ lines cols,
          fs_open fs chat_file = Ok lines
          ∧ well_formed time_format lines = true
          ∧ drop 1 lines ≠ []
          ∧ parse_lines time_format lines = Ok cols
          ∧ forallb in_window (times cols) = true) →
     is_ok (init limits emoji_count suffix fs chat_file time_format).2 = true).
Proof.
  assert (is_ok (init limits emoji_count suffix fs chat_file time_format).2
          = true
          ↔ fs_exists fs chat_file = Ok true
            ∧ suffix chat_file = ".txt"
            ∧ time_format ∈ ["EU"; "NA"; "JP"]
            ∧ ∃ lines cols,
                fs_open fs chat_file = Ok lines
                ∧ well_formed time_format lines = true
                ∧ drop 1 lines ≠ []
                ∧ parse_lines time_format lines = Ok cols
                ∧ forallb in_bounds (times cols) = true
                ∧ ∀ f, grouper_error limits f (times cols) = None) as Hiff.
  { unfold init.
    destruct (fs_exists fs chat_file) as [[|]|e0]; simpl;
      [|split; [done | by intros [? _]] ..].
    destruct (String.eqb_spec (suffix chat_file) ".txt") as [Hs|Hs]; simpl;
      [|split; [done | by intros (_ & ? & _)]].
    destruct (decide (patterns !! time_format = None)) as [Hfmt|Hfmt]; simpl.
    { split; [done |]. intros (_ & _ & Hin & _).
      by apply patterns_None in Hfmt. }
    assert (time_format ∈ ["EU"; "NA"; "JP"]) as Hin.
    { destruct (decide (time_format ∈ ["EU"; "NA"; "JP"])) as [|Hn];
        [done |]. by apply patterns_None in Hn. }
    destruct (fs_open fs chat_file) as [lines|e]; unfold_bind; simpl.
    2: { split; [done |]. by intros (_ & _ & _ & lines & cols & ? & _). }
    destruct (build limits emoji_count time_format lines) as [w|e] eqn:Hbuild;
      simpl.
    - split; [|done]. intros _. do 3 (split; [done |]).
      apply build_Ok_iff in Hbuild as (cols & Hrun & Hbody & Hb & Hg & _).
      exists lines, cols. split; [done |].
      split; [apply well_formed_iff; eauto |]. done.
    - split; [done |].
      intros (_ & _ & _ & lines' & cols & [= <-] & _ & Hbody & Hrun & Hb & Hg).
      assert (∃ w, build limits emoji_count time_format lines = Ok w)
        as [w Hw]; [|congruence].
      eexists. apply build_Ok_iff. exists cols. by repeat split. }
  split; [exact Hiff |].
  intros (Hex & Hs & Hin & lines & cols & Hopen & Hwf & Hbody & Hrun & Hw).
  apply Hiff. do 3 (split; [done |]). exists lines, cols.
  do 4 (split; [done |]).
  split; [by apply forallb_in_window_in_bounds |].
  intros f. by apply grouper_window.
Qed.

Lemma process_line_Raise_not_length time_format st line :
  process_line time_format st line
  ≠ Raise (ValueError "All arrays must be of the same length").
Proof.
  unfold process_line, getitem.
  destruct (patterns !! time_format) as [pat|]; [|done].
  unfold_bind. destruct (re_match pat line) as [matched|].
  - destruct (datetimes !! time_format) as [template|]; [|done].
    unfold_bind. unfold strptime.
    destruct (match_format _ _ _) as [[t [|c rest]]|]; try done.
    destruct (_ || _); [done |]. destruct (_ <? _)%Z; [done |].
    unfold_bind.
    by destruct (split_once ":" (slice_from 20 line)) as [|a [|b [|c l]]].
  - unfold get_last, set_last.
    destruct (messages st !! _); [|done]. unfold_bind. done.
Qed.

Lemma process_lines_Raise_not_length time_format st lines :
  process_lines time_format st lines
  ≠ Raise (ValueError "All arrays must be of the same length").
Proof.
  revert st; induction lines as [|l lines IH]; intros st; [done |].
  rewrite process_lines_cons.
  destruct (process_line time_format st l) as [st1|e] eqn:H1.
  - unfold_bind. apply IH.
  - intros [= ->]. by eapply process_line_Raise_not_length.
Qed.

(** X10. What the constructor can raise: the exception of [exists] or of
    the reading of the file, the exception of a group-by that overflows, a
    [ValueError] other than the one [DataFrame] raises on lists of
    different lengths (an argument check, a stamp that is not a date, a
    stamp line without a colon), the [IndexError] of a continuation line
    that comes first, or the [AttributeError] of the [.dt] accessor. In
    particular the three lists handed to [DataFrame] never differ in
    length, and the program itself raises no [KeyError] on
    [patterns[time_format]] or [datetimes[time_format]] and no
    [AttributeError] on the second [re.match]. *)
Theorem init_exceptions
    (limits : grouper_limits) (emoji_count : string → Z)
    (suffix : string → string) fs chat_file time_format e :
  (init limits emoji_count suffix fs chat_file time_format).2 = Raise e →
  fs_exists fs chat_file = Raise e
  ∨ fs_open fs chat_file = Raise e
  ∨ (∃ f ts, grouper_error limits f ts = Some e)
  ∨ ((∃ msg, e = ValueError msg)
     ∧ e ≠ ValueError "All arrays must be of the same length")
  ∨ e = IndexError "list index out of range"
  ∨ e = AttributeError "Can only use .dt accessor with datetimelike values".
Proof.
  unfold init.
  destruct (fs_exists fs chat_file) as [[|]|e0]; simpl;
    [|intros [= <-]; do 3 right; left; split; [eauto | done]
     |intros [= <-]; auto].
  destruct (negb (String.eqb (suffix chat_file) ".txt")); simpl;
    [intros [= <-]; do 3 right; left; split; [eauto | done] |].
  destruct (decide (patterns !! time_format = None)) as [Hfmt|Hfmt]; simpl;
    [intros [= <-]; do 3 right; left; split; [eauto | done] |].
  destruct (fs_open fs chat_file) as [lines|e'];
    [|intros [= <-]; auto].
  unfold_bind.
  destruct (parse_lines time_format lines) as [cols|e'] eqn:Hrun.
  - pose proof (parse_lines_balanced _ _ _ Hrun) as Hb.
    unfold build. rewrite Hrun. unfold_bind.
    rewrite (make_chat_parse _ _ _ _ Hrun).
    destruct (_ && _); [|intros [= <-]; auto 10].
    unfold_bind. rewrite !(try_aggregate_records _ _ _ _ Hb).
    destruct (grouper_error limits freq_D (times cols)) as [e1|] eqn:HD;
      [intros [= <-]; eauto 10 |].
    destruct (grouper_error limits freq_W (times cols)) as [e1|] eqn:HW;
      [intros [= <-]; eauto 10 |].
    destruct (grouper_error limits freq_M (times cols)) as [e1|] eqn:HM;
      [intros [= <-]; eauto 10 | done].
  - rewrite (build_Raise _ _ _ _ _ Hrun). intros [= <-].
    destruct (parse_lines_Raise_cases _ _ _ Hrun)
      as [Hv | [? | [_ ?]]]; [|auto 10 | done].
    do 3 right. left. split; [done |]. intros ->.
    by eapply process_lines_Raise_not_length.
Qed.

Lemma init_exceptions_witness :
  (init example_limits (λ _, 0%Z) example_suffix long_name_fs
     long_name "EU").2
  = Raise (OSError "[Errno 36] File name too long")
  ∧ (fs_exists long_name_fs long_name
     = Raise (OSError "[Errno 36] File name too long")
     ∨ fs_open long_name_fs long_name
       = Raise (OSError "[Errno 36] File name too long")
     ∨ (∃ f ts, grouper_error example_limits f ts
                = Some (OSError "[Errno 36] File name too long"))
     ∨ ((∃ msg, OSError "[Errno 36] File name too long" = ValueError msg)
        ∧ OSError "[Errno 36] File name too long"
          ≠ ValueError "All arrays must be of the same length")
     ∨ OSError "[Errno 36] File name too long"
       = IndexError "list index out of range"
     ∨ OSError "[Errno 36] File name too long"
       = AttributeError "Can only use .dt accessor with datetimelike values").
Proof.
  split; [vm_compute; reflexivity |].
  apply (init_exceptions example_limits (λ _, 0%Z) example_suffix long_name_fs
           long_name "EU").
  vm_compute; reflexivity.
Defined.

(** ** The daily table *)

Lemma dayofweek_midnight t : dayofweek (midnight t) = dayofweek t.
Proof. reflexivity. Qed.

Lemma key_of_enrich emoji_count f r :
  key_of f (enrich emoji_count r)
  = (time_bucket f (rec_time r), replace_weekday (dayofweek (rec_time r)),
     rec_speaker r).
Proof. reflexivity. Qed.

(** In the daily table the weekday is the one of the bin. *)
Lemma daily_key_weekday emoji_count cols chat k :
  make_chat emoji_count cols = Ok chat →
  k ∈ group_keys freq_D chat →
  k.1.2 = replace_weekday (dayofweek k.1.1).
Proof.
  intros Hchat (r & Hr & <-)%elem_of_group_keys.
  destruct (elem_of_make_chat _ _ _ _ Hchat Hr) as [r0 ->].
  by rewrite key_of_enrich.
Qed.

(** X11. In the daily table the [Weekday] column adds nothing to the key:
    the weekday of a row is the weekday of its date, one of the seven names,
    and no two rows share their date and their speaker. *)
Theorem daily_rows_unique (emoji_count : string → Z) cols chat :
  make_chat emoji_count cols = Ok chat →
  NoDup ((λ a, (agg_Time a, agg_Speaker a)) <$> aggregate_by_time chat freq_D)
  ∧ ∀ a, a ∈ aggregate_by_time chat freq_D →
      agg_Weekday a = replace_weekday (dayofweek (agg_Time a))
      ∧ agg_Weekday a ∈ weekday_names.
Proof.
  intros Hchat. split.
  - apply NoDup_fmap_2_strong.
    + intros a b [Ha Ha']%elem_of_aggregate_by_time
        [Hb Hb']%elem_of_aggregate_by_time [= Ht Hs].
      rewrite Ha', Hb'.
      assert (agg_key a = agg_key b) as ->; [|done].
      pose proof (daily_key_weekday _ _ _ _ Hchat Ha) as Hwa.
      pose proof (daily_key_weekday _ _ _ _ Hchat Hb) as Hwb.
      unfold agg_key in *; simpl in *. by rewrite Hwa, Hwb, Ht, Hs.
    + eapply NoDup_fmap_1. rewrite aggregate_by_time_keys.
      apply group_keys_NoDup.
  - intros a [Ha _]%elem_of_aggregate_by_time.
    pose proof (daily_key_weekday _ _ _ _ Hchat Ha) as Hw.
    unfold agg_key in Hw; simpl in Hw. rewrite Hw. split; [done |].
    apply replace_weekday_name.
Qed.

Lemma daily_rows_unique_witness :
  NoDup ((λ a, (agg_Time a, agg_Speaker a))
           <$> aggregate_by_time example_chat freq_D)
  ∧ ∀ a, a ∈ aggregate_by_time example_chat freq_D →
      agg_Weekday a = replace_weekday (dayofweek (agg_Time a))
      ∧ agg_Weekday a ∈ weekday_names.
Proof.
  apply (daily_rows_unique example_emoji_count example_columns example_chat).
  vm_compute; reflexivity.
Defined.

(** ** Totals *)

(** A value is counted once among keys without repetition. *)
Lemma sum_Z_select (k : group_key) (x : Z) (ks : list group_key) :
  NoDup ks → k ∈ ks →
  sum_Z ((λ k', if decide (k = k') then x else 0)%Z <$> ks) = x.
Proof.
  induction 1 as [|k0 ks Hnotin Hnd IH]; intros Hin; [by inversion Hin |].
  rewrite fmap_cons, sum_Z_cons. destruct (decide (k = k0)) as [-> | Hne].
  - assert (sum_Z ((λ k', if decide (k0 = k') then x else 0)%Z <$> ks) = 0%Z)
      as ->; [|lia].
    etrans; [|apply (sum_Z_zero ks)]. f_equal. apply list_fmap_ext.
    intros i k' Hk'. destruct (decide (k0 = k')) as [<- |]; [|done].
    exfalso. apply Hnotin. by eapply list_elem_of_lookup_2.
  - apply elem_of_cons in Hin as [? | Hin]; [done |]. by rewrite IH.
Qed.

Lemma sum_group_weights (w : chat_row → Z) f chat (ks : list group_key) :
  NoDup ks →
  (∀ r, r ∈ chat → key_of f r ∈ ks) →
  sum_Z ((λ k, sum_Z (w <$> group f chat k)) <$> ks) = sum_Z (w <$> chat).
Proof.
  intros Hnd. induction chat as [|r chat IH]; intros Hcover.
  - simpl. apply sum_Z_zero.
  - transitivity
      (sum_Z ((λ k, (if decide (key_of f r = k) then w r else 0)
                    + sum_Z (w <$> group f chat k))%Z <$> ks)).
    { f_equal. apply list_fmap_ext. intros i k _. rewrite group_cons.
      destruct (decide _); [by rewrite fmap_cons, sum_Z_cons | done]. }
    rewrite sum_Z_add, IH, sum_Z_select.
    + by rewrite fmap_cons, sum_Z_cons.
    + done.
    + apply Hcover. by left.
    + intros r' Hr'. apply Hcover. by right.
Qed.

(** X12. Aggregation loses no character and no flag: at each of the three
    granularities the [Message_Length_sum] values add up to the total length
    of the messages of [chat], and the sums of the emoji flags of the groups
    add up to the number of flagged messages. *)
Theorem totals_preserved (chat : list chat_row) (f : freq) :
  sum_Z (Message_Length_sum <$> aggregate_by_time chat f)
  = sum_Z (Message_Length <$> chat)
  ∧ sum_Z ((λ a, sum_Z (Contains_Emoji <$> group f chat (agg_key a)))
             <$> aggregate_by_time chat f)
    = sum_Z (Contains_Emoji <$> chat).
Proof.
  assert (∀ r, r ∈ chat → key_of f r ∈ group_keys f chat) as Hcover.
  { intros r Hr. apply elem_of_group_keys. eauto. }
  split.
  - unfold aggregate_by_time. rewrite <- list_fmap_compose.
    apply (sum_group_weights Message_Length);
      [apply group_keys_NoDup | done].
  - unfold aggregate_by_time. rewrite <- list_fmap_compose.
    etrans; [|apply (sum_group_weights Contains_Emoji f chat
                       (group_keys f chat) (group_keys_NoDup _ _) Hcover)].
    f_equal. apply list_fmap_ext. intros i k _. simpl.
    by rewrite agg_key_aggregate_group.
Qed.

(** ** The sizes of the tables *)

Lemma group_keys_length f chat :
  length (group_keys f chat) = length (remove_dups (key_of f <$> chat)).
Proof. unfold group_keys. by rewrite merge_sort_Permutation. Qed.

Lemma aggregate_by_time_length chat f :
  length (aggregate_by_time chat f) = length (group_keys f chat).
Proof. unfold aggregate_by_time. by rewrite length_fmap. Qed.

Lemma remove_dups_length_le {A} `{EqDecision A} (l : list A) :
  length (remove_dups l) ≤ length l.
Proof.
  induction l as [|x l IH]; simpl; [done |].
  destruct (decide_rel _ _ _); simpl; lia.
Qed.

(** Keys that are a function of other keys are no more numerous. *)
Lemma remove_dups_fmap_length {A B} `{EqDecision A, EqDecision B}
    (g : A → B) (l : list A) :
  length (remove_dups (g <$> l)) ≤ length (remove_dups l).
Proof.
  rewrite <- (length_fmap g (remove_dups l)).
  apply submseteq_length, NoDup_submseteq; [apply NoDup_remove_dups |].
  intros y (x & -> & Hx)%elem_of_remove_dups%list_elem_of_fmap.
  apply list_elem_of_fmap. exists x. split; [done |].
  by apply elem_of_remove_dups.
Qed.

Lemma time_bucket_midnight f t :
  time_bucket f (midnight t) = time_bucket f t.
Proof. by destruct f. Qed.

Lemma key_of_coarsen f r : key_of f r = coarsen f (key_of freq_D r).
Proof.
  unfold key_of, coarsen; simpl.
  by rewrite (time_bucket_midnight f (Time r)).
Qed.

(** X13. No table is longer than the one it summarises: every aggregate
    table has at most as many rows as [chat] and is empty only if [chat] is,
    and the weekly and the monthly table have at most as many rows as the
    daily one, their keys being found from the daily keys. *)
Theorem table_sizes (chat : list chat_row) (f : freq) :
  length (aggregate_by_time chat f) ≤ length (aggregate_by_time chat freq_D)
  ∧ length (aggregate_by_time chat freq_D) ≤ length chat
  ∧ (aggregate_by_time chat f = [] ↔ chat = [])
  ∧ agg_key <$> aggregate_by_time chat f
    ≡ₚ remove_dups (coarsen f <$> (agg_key <$> aggregate_by_time chat freq_D)).
Proof.
  split; [|split; [|split]].
  - rewrite !aggregate_by_time_length, !group_keys_length.
    rewrite (list_fmap_ext (key_of f) (coarsen f ∘ key_of freq_D) chat)
      by (intros; apply key_of_coarsen).
    rewrite list_fmap_compose. apply remove_dups_fmap_length.
  - rewrite aggregate_by_time_length, group_keys_length.
    etrans; [apply remove_dups_length_le |]. by rewrite length_fmap.
  - split.
    + intros Hnil. destruct chat as [|r chat]; [done |].
      assert (key_of f r ∈ group_keys f (r :: chat)) as Hin.
      { apply elem_of_group_keys. exists r. split; [by left | done]. }
      rewrite <- aggregate_by_time_keys, Hnil in Hin. by inversion Hin.
    + by intros ->.
  - rewrite !aggregate_by_time_keys.
    apply NoDup_Permutation;
      [apply group_keys_NoDup | apply NoDup_remove_dups |].
    intros k. rewrite elem_of_remove_dups, list_elem_of_fmap.
    rewrite elem_of_group_keys. split.
    + intros (r & Hr & <-). exists (key_of freq_D r).
      split; [apply key_of_coarsen |]. apply elem_of_group_keys. eauto.
    + intros (k0 & -> & (r & Hr & <-)%elem_of_group_keys).
      exists r. by rewrite <- key_of_coarsen.
Qed.

(** ** The weekly and the monthly table from the daily one *)

Lemma sum_Z_select_filter (P : group_key → Prop) `{∀ k, Decision (P k)}
    (k : group_key) (x : Z) (ks : list group_key) :
  NoDup ks → k ∈ ks →
  sum_Z ((λ k', if decide (k = k') then x else 0)%Z <$> filter P ks)
  = if decide (P k) then x else 0%Z.
Proof.
  intros Hnd Hin. destruct (decide (P k)) as [Hk | Hk].
  - apply sum_Z_select; [by apply NoDup_filter |].
    by apply list_elem_of_filter.
  - etrans; [|apply (sum_Z_zero (filter P ks))]. f_equal.
    apply list_fmap_ext. intros i k' Hk'.
    destruct (decide (k = k')) as [<- |]; [|done].
    apply list_elem_of_lookup_2, list_elem_of_filter in Hk' as [? _]. done.
Qed.

Lemma sum_coarse_group (w : chat_row → Z) f chat ks k :
  NoDup ks →
  (∀ r, r ∈ chat → key_of freq_D r ∈ ks) →
  sum_Z (w <$> group f chat k)
  = sum_Z ((λ k1, sum_Z (w <$> group freq_D chat k1))
             <$> filter (λ k1, coarsen f k1 = k) ks).
Proof.
  intros Hnd. induction chat as [|r chat IH]; intros Hcover.
  - simpl. symmetry. apply sum_Z_zero.
  - transitivity
      (sum_Z ((λ k1, (if decide (key_of freq_D r = k1) then w r else 0)
                     + sum_Z (w <$> group freq_D chat k1))%Z
                <$> filter (λ k1, coarsen f k1 = k) ks)).
    2: { f_equal. apply list_fmap_ext. intros i k1 _. rewrite group_cons.
         destruct (decide _); [by rewrite fmap_cons, sum_Z_cons | done]. }
    rewrite sum_Z_add, <- IH by (intros r' Hr'; apply Hcover; by right).
    rewrite (sum_Z_select_filter (λ k1, coarsen f k1 = k))
      by (done || apply Hcover; by left).
    rewrite group_cons, <- key_of_coarsen.
    destruct (decide _); [by rewrite fmap_cons, sum_Z_cons | done].
Qed.

Lemma sum_Z_ones {A} (l : list A) :
  sum_Z ((λ _, 1%Z) <$> l) = Z.of_nat (length l).
Proof.
  induction l as [|x l IH]; [done |].
  rewrite fmap_cons, sum_Z_cons, IH. simpl length. lia.
Qed.

Lemma daily_rows_of_keys f chat k :
  daily_rows_of f (aggregate_by_time chat freq_D) k
  = (λ k1, aggregate_group k1 (group freq_D chat k1))
      <$> filter (λ k1, coarsen f k1 = k) (group_keys freq_D chat).
Proof.
  unfold daily_rows_of, aggregate_by_time.
  induction (group_keys freq_D chat) as [|k1 ks IH]; [done |].
  rewrite fmap_cons, !filter_cons, agg_key_aggregate_group, IH.
  by destruct (decide _).
Qed.

(** X14. The weekly and the monthly table are roll-ups of the daily one:
    the count and the length sum of a row are the sums of the counts and of
    the length sums of the daily rows whose day falls in the bin of the row
    and whose weekday and speaker are those of the row. *)
Theorem coarser_rows_roll_up (chat : list chat_row) (f : freq) a :
  a ∈ aggregate_by_time chat f →
  daily_rows_of f (aggregate_by_time chat freq_D) (agg_key a) ≠ []
  ∧ Message_count a
    = sum_Z (Message_count
               <$> daily_rows_of f (aggregate_by_time chat freq_D) (agg_key a))
  ∧ Message_Length_sum a
    = sum_Z (Message_Length_sum
               <$> daily_rows_of f (aggregate_by_time chat freq_D) (agg_key a)).
Proof.
  intros [Hk Ha]%elem_of_aggregate_by_time.
  assert (∀ r, r ∈ chat → key_of freq_D r ∈ group_keys freq_D chat) as Hcover.
  { intros r Hr. apply elem_of_group_keys. eauto. }
  rewrite daily_rows_of_keys. split; [|split].
  - apply elem_of_group_keys in Hk as (r & Hr & Hkey).
    intros Hnil%fmap_nil_inv.
    eapply (filter_nil_not_elem_of _ _ (key_of freq_D r)); [exact Hnil | |].
    + cbv beta. by rewrite <- key_of_coarsen.
    + by apply Hcover.
  - rewrite Ha at 1. simpl. rewrite <- list_fmap_compose.
    rewrite <- sum_Z_ones.
    rewrite (sum_coarse_group (λ _, 1%Z) f chat _ (agg_key a)
               (group_keys_NoDup _ _) Hcover).
    f_equal. apply list_fmap_ext. intros i k1 _. simpl.
    by rewrite sum_Z_ones.
  - rewrite Ha at 1. simpl. rewrite <- list_fmap_compose.
    apply (sum_coarse_group Message_Length f chat _ (agg_key a)
             (group_keys_NoDup _ _) Hcover).
Qed.

Lemma coarser_rows_roll_up_witness :
  daily_rows_of freq_W (aggregate_by_time example_chat freq_D)
    (agg_key example_weekly_row) ≠ []
  ∧ Message_count example_weekly_row
    = sum_Z (Message_count
               <$> daily_rows_of freq_W (aggregate_by_time example_chat freq_D)
                     (agg_key example_weekly_row))
  ∧ Message_Length_sum example_weekly_row
    = sum_Z (Message_Length_sum
               <$> daily_rows_of freq_W (aggregate_by_time example_chat freq_D)
                     (agg_key example_weekly_row)).
Proof.
  apply (coarser_rows_roll_up example_chat freq_W example_weekly_row).
  vm_compute. left.
Defined.

(** ** The order of the rows *)

Lemma order_compare_Z : order_compare Z.compare.
Proof.
  split.
  - apply Z.compare_eq.
  - intros a b. apply Z.compare_antisym.
  - intros a b c. rewrite !Z.compare_lt_iff. lia.
Qed.

Lemma order_compare_ascii : order_compare Ascii.compare.
Proof.
  split.
  - apply Ascii.compare_eq_iff.
  - apply Ascii.compare_antisym.
  - intros a b c. unfold Ascii.compare. rewrite !N.compare_lt_iff. lia.
Qed.

Lemma order_compare_refl {A} (cmp : A → A → comparison) a :
  order_compare cmp → cmp a a = Eq.
Proof.
  intros H. pose proof (cmp_antisym _ H a a) as Ha.
  by destruct (cmp a a).
Qed.

Lemma order_compare_string : order_compare String.compare.
Proof.
  split.
  - apply String.compare_eq_iff.
  - apply String.compare_antisym.
  - intros a. induction a as [|x a IH]; intros [|y b] [|z c]; simpl;
      try done.
    destruct (Ascii.compare x y) eqn:Hxy; [| |done];
      destruct (Ascii.compare y z) eqn:Hyz; try done.
    + apply (cmp_eq _ order_compare_ascii) in Hxy, Hyz. subst.
      rewrite (order_compare_refl Ascii.compare z order_compare_ascii).
      apply IH.
    + apply (cmp_eq _ order_compare_ascii) in Hxy. subst. by rewrite Hyz.
    + apply (cmp_eq _ order_compare_ascii) in Hyz. subst. by rewrite Hxy.
    + by rewrite (cmp_trans _ order_compare_ascii _ _ _ Hxy Hyz).
Qed.

Lemma order_compare_lex {A B} (cmpA : A → A → comparison)
    (cmpB : B → B → comparison) :
  order_compare cmpA → order_compare cmpB →
  order_compare (lex_compare cmpA cmpB).
Proof.
  intros HA HB. split; unfold lex_compare.
  - intros [a1 a2] [b1 b2]; simpl.
    destruct (cmpA a1 b1) eqn:E; try done.
    intros E2. by rewrite (cmp_eq _ HA _ _ E), (cmp_eq _ HB _ _ E2).
  - intros [a1 a2] [b1 b2]; simpl.
    rewrite (cmp_antisym _ HA a1 b1).
    destruct (cmpA b1 a1); simpl; try done. apply (cmp_antisym _ HB).
  - intros [a1 a2] [b1 b2] [c1 c2]; simpl.
    destruct (cmpA a1 b1) eqn:Hab; [| |done];
      destruct (cmpA b1 c1) eqn:Hbc; try done.
    + apply (cmp_eq _ HA) in Hab, Hbc. subst.
      rewrite (order_compare_refl cmpA c1 HA). apply (cmp_trans _ HB).
    + apply (cmp_eq _ HA) in Hab. subst. by rewrite Hbc.
    + apply (cmp_eq _ HA) in Hbc. subst. by rewrite Hab.
    + by rewrite (cmp_trans _ HA _ _ _ Hab Hbc).
Qed.

Lemma order_compare_proj {A B} (f : A → B) (cmp : B → B → comparison) :
  (∀ a b, f a = f b → a = b) →
  order_compare cmp → order_compare (λ a b, cmp (f a) (f b)).
Proof.
  intros Hf H. split.
  - intros a b E. by apply Hf, (cmp_eq _ H).
  - intros a b. apply (cmp_antisym _ H).
  - intros a b c. apply (cmp_trans _ H).
Qed.

Lemma order_compare_datetime : order_compare datetime_compare.
Proof.
  exact (order_compare_proj
           (λ t, (year t, (month t, (day t, (hour t, minute t)))))
           (lex_compare Z.compare (lex_compare Z.compare
              (lex_compare Z.compare (lex_compare Z.compare Z.compare))))
           (λ a b, match a, b with
                   | mk_datetime _ _ _ _ _, mk_datetime _ _ _ _ _ =>
                       λ E, ltac:(by simplify_eq/=)
                   end)
           (order_compare_lex _ _ order_compare_Z
              (order_compare_lex _ _ order_compare_Z
                 (order_compare_lex _ _ order_compare_Z
                    (order_compare_lex _ _ order_compare_Z
                       order_compare_Z))))).
Qed.

Lemma order_compare_key : order_compare key_compare.
Proof.
  exact (order_compare_proj
           (λ k : group_key, (k.1.1, (k.1.2, k.2)))
           (lex_compare datetime_compare
              (lex_compare String.compare String.compare))
           (λ a b, match a, b with
                   | (_, _, _), (_, _, _) => λ E, ltac:(by simplify_eq/=)
                   end)
           (order_compare_lex _ _ order_compare_datetime
              (order_compare_lex _ _ order_compare_string
                 order_compare_string))).
Qed.

Lemma key_le_total : Total key_le.
Proof.
  intros a b. unfold key_le.
  rewrite (cmp_antisym _ order_compare_key b a).
  destruct (key_compare a b); simpl; auto.
Qed.

Lemma key_le_trans : Transitive key_le.
Proof.
  intros a b c. unfold key_le. intros Hab Hbc.
  destruct (key_compare a b) eqn:E1; [| |done].
  - by apply (cmp_eq _ order_compare_key) in E1 as ->.
  - destruct (key_compare b c) eqn:E2; [| |done].
    + by apply (cmp_eq _ order_compare_key) in E2 as <-; rewrite E1.
    + by rewrite (cmp_trans _ order_compare_key _ _ _ E1 E2).
Qed.

Lemma key_le_antisym : AntiSymm eq key_le.
Proof.
  intros a b. unfold key_le.
  rewrite (cmp_antisym _ order_compare_key b a).
  destruct (key_compare a b) eqn:E; simpl; try done.
  intros _ _. by apply (cmp_eq _ order_compare_key).
Qed.

Lemma group_keys_sorted f chat : StronglySorted key_le (group_keys f chat).
Proof.
  apply StronglySorted_merge_sort; [apply key_le_trans | apply key_le_total].
Qed.

Lemma StronglySorted_strict (ks : list group_key) :
  StronglySorted key_le ks → NoDup ks →
  StronglySorted (λ a b, key_compare a b = Lt) ks.
Proof.
  induction 1 as [|k ks Hs IH Hall]; intros Hnd; [constructor |].
  apply NoDup_cons in Hnd as [Hnotin Hnd]. constructor; [by apply IH |].
  apply Forall_forall. intros k' Hk'.
  rewrite Forall_forall in Hall. specialize (Hall _ Hk'). unfold key_le in Hall.
  destruct (key_compare k k') eqn:E; try done.
  apply (cmp_eq _ order_compare_key) in E. by subst.
Qed.

(** X15. The rows of every aggregate table are in strictly increasing order
    of their keys: by bin first, then by weekday name, compared as text (so
    Friday comes before Monday), then by speaker. *)
Theorem rows_sorted (chat : list chat_row) (f : freq) :
  StronglySorted row_lt (aggregate_by_time chat f).
Proof.
  unfold aggregate_by_time.
  apply (StronglySorted_fmap _ (λ a b, key_compare a b = Lt)).
  - intros a b Hab. unfold row_lt. by rewrite !agg_key_aggregate_group.
  - apply StronglySorted_strict;
      [apply group_keys_sorted | apply group_keys_NoDup].
Qed.

(** ** The order of the messages does not matter *)

Lemma sum_Z_Permutation (l k : list Z) : l ≡ₚ k → sum_Z l = sum_Z k.
Proof.
  induction 1 as [|x l k _ IH|x y l|l k m _ IH1 _ IH2];
    rewrite ?sum_Z_cons; [done | by rewrite IH | lia | congruence].
Qed.

Lemma group_keys_Permutation f chat chat' :
  chat ≡ₚ chat' → group_keys f chat = group_keys f chat'.
Proof.
  intros Hp.
  apply (@StronglySorted_unique _ key_le key_le_antisym);
    [apply group_keys_sorted .. |].
  apply NoDup_Permutation; [apply group_keys_NoDup .. |].
  intros k. rewrite !elem_of_group_keys.
  by setoid_rewrite Hp.
Qed.

Lemma aggregate_group_Permutation k g g' :
  g ≡ₚ g' → aggregate_group k g = aggregate_group k g'.
Proof.
  intros Hp. unfold aggregate_group.
  rewrite (Permutation_length Hp).
  rewrite (sum_Z_Permutation (Message_Length <$> g) (Message_Length <$> g'))
    by (by apply fmap_Permutation).
  by rewrite (sum_Z_Permutation (Contains_Emoji <$> g) (Contains_Emoji <$> g'))
    by (by apply fmap_Permutation).
Qed.

(** X16. The aggregate tables depend on the messages, not on their order:
    two tables [chat] with the same rows in a different order give the same
    aggregate table, row for row. *)
Theorem aggregate_order_independent (chat chat' : list chat_row) (f : freq) :
  chat ≡ₚ chat' →
  aggregate_by_time chat f = aggregate_by_time chat' f.
Proof.
  intros Hp. unfold aggregate_by_time.
  rewrite (group_keys_Permutation f chat chat' Hp).
  apply list_fmap_ext. intros i k _.
  apply aggregate_group_Permutation. unfold group. by rewrite Hp.
Qed.

Lemma aggregate_order_independent_witness :
  aggregate_by_time example_chat freq_W
  = aggregate_by_time (reverse example_chat) freq_W.
Proof.
  apply (aggregate_order_independent example_chat (reverse example_chat)).
  vm_compute. apply perm_swap.
Defined.

(** ** The labels of the bins *)

Lemma days_before_month_succ y m :
  (1 ≤ m)%Z →
  days_before_month y (m + 1)
  = (days_before_month y m + days_in_month y m)%Z.
Proof.
  intros Hm. unfold days_before_month.
  replace (Z.to_nat (m + 1 - 1)) with (S (Z.to_nat (m - 1))) by lia.
  cbn [days_before_month_aux]. do 2 f_equal. lia.
Qed.

Lemma days_before_december y :
  (days_before_month y 12 + 31 = 365 + if is_leap y then 1 else 0)%Z.
Proof.
  unfold days_before_month. change (Z.to_nat (12 - 1)) with 11.
  cbn [days_before_month_aux]. unfold days_in_month. simpl.
  destruct (is_leap y); lia.
Qed.

Lemma days_before_year_succ y :
  days_before_year (y + 1)
  = (days_before_year y + 365 + if is_leap y then 1 else 0)%Z.
Proof.
  unfold days_before_year, is_leap. cbv zeta.
  replace (y + 1 - 1)%Z with y by lia.
  destruct (Z.eqb_spec (y mod 4) 0); destruct (Z.eqb_spec (y mod 100) 0);
    destruct (Z.eqb_spec (y mod 400) 0); simpl;
    Z.div_mod_to_equations; lia.
Qed.

Lemma is_date_valid t : valid_datetime t = true → is_date t.
Proof. intros Hv%valid_datetime_spec. unfold is_date. lia. Qed.

Lemma is_date_midnight t : is_date t → is_date (midnight t).
Proof. done. Qed.

(** The day after a day of the calendar is the next day of the calendar. *)
Lemma next_day_ordinal t :
  is_date t →
  is_date (next_day t) ∧ ordinal (next_day t) = (ordinal t + 1)%Z
  ∧ hour (next_day t) = hour t ∧ minute (next_day t) = minute t.
Proof.
  intros (Hy & Hm & Hd). unfold next_day, ordinal, is_date, ymd2ord.
  destruct (Z.ltb_spec (day t) (days_in_month (year t) (month t))) as [Hlt|Hge].
  - simpl. repeat split; lia.
  - destruct (Z.ltb_spec (month t) 12) as [Hlt|Hdec]; simpl.
    + pose proof (days_in_month_bounds (year t) (month t + 1)).
      rewrite days_before_month_succ by lia. repeat split; lia.
    + assert (month t = 12%Z) as Hmt by lia.
      pose proof (days_in_month_bounds (year t + 1) 1).
      rewrite days_before_year_succ.
      pose proof (days_before_december (year t)) as Hdec'.
      rewrite Hmt in *.
      change (days_in_month (year t) 12) with 31%Z in *.
      change (days_before_month (year t + 1) 1) with 0%Z.
      repeat split; lia.
Qed.

Lemma iter_next_day_ordinal n t :
  is_date t →
  is_date (Nat.iter n next_day t)
  ∧ ordinal (Nat.iter n next_day t) = (ordinal t + Z.of_nat n)%Z
  ∧ hour (Nat.iter n next_day t) = hour t
  ∧ minute (Nat.iter n next_day t) = minute t.
Proof.
  intros Ht. induction n as [|n (Hd & Ho & Hh & Hm)].
  - simpl. split; [done |]. split; [lia | done].
  - rewrite Nat.iter_succ. destruct (next_day_ordinal _ Hd) as (Hd' & Ho' & Hh' & Hm').
    split; [done |]. split; [rewrite Ho', Ho; lia |]. split; congruence.
Qed.

Lemma dayofweek_ordinal t : dayofweek t = ((ordinal t + 6) mod 7)%Z.
Proof. reflexivity. Qed.

(** X17. The label of a bin is a day of the calendar at 00:00, on or after
    the day of the message: the day itself in the daily table; the Sunday
    that ends the week of the message, at most six days later, in the weekly
    table; the last day of the month of the message in the monthly table. *)
Theorem bin_labels (f : freq) (t : datetime) :
  valid_datetime t = true →
  is_date (time_bucket f t)
  ∧ hour (time_bucket f t) = 0%Z ∧ minute (time_bucket f t) = 0%Z
  ∧ (ordinal t ≤ ordinal (time_bucket f t))%Z
  ∧ match f with
    | freq_D => ordinal (time_bucket f t) = ordinal t
    | freq_W =>
        dayofweek (time_bucket f t) = 6%Z
        ∧ (ordinal (time_bucket f t) < ordinal t + 7)%Z
    | freq_M =>
        year (time_bucket f t) = year t ∧ month (time_bucket f t) = month t
        ∧ day (next_day (time_bucket f t)) = 1%Z
    end.
Proof.
  intros Hv. pose proof (is_date_valid _ Hv) as Ht.
  destruct f; unfold time_bucket.
  - split; [exact Ht |]. split; [done |]. split; [done |].
    split; [apply Z.le_refl | reflexivity].
  - pose proof (dayofweek_range t) as Hr.
    destruct (iter_next_day_ordinal (Z.to_nat (6 - dayofweek t)) (midnight t))
      as (Hd & Ho & Hh & Hm); [done |].
    change (ordinal (midnight t)) with (ordinal t) in Ho.
    rewrite Z2Nat.id in Ho by lia.
    split; [done |]. split; [done |]. split; [done |].
    split; [lia |]. split; [|lia].
    rewrite dayofweek_ordinal, Ho.
    rewrite dayofweek_ordinal in *.
    Z.div_mod_to_equations. lia.
  - destruct Ht as (Hy & Hm & Hd).
    pose proof (days_in_month_bounds (year t) (month t)) as Hb.
    unfold is_date, ordinal, ymd2ord, next_day; simpl.
    rewrite Z.ltb_irrefl.
    repeat split; try lia. by destruct (month t <? 12)%Z.
Qed.

Lemma bin_labels_witness :
  is_date (time_bucket freq_W (mk_datetime 2023 2 1 10 0))
  ∧ hour (time_bucket freq_W (mk_datetime 2023 2 1 10 0)) = 0%Z
  ∧ minute (time_bucket freq_W (mk_datetime 2023 2 1 10 0)) = 0%Z
  ∧ (ordinal (mk_datetime 2023 2 1 10 0)
     ≤ ordinal (time_bucket freq_W (mk_datetime 2023 2 1 10 0)))%Z
  ∧ dayofweek (time_bucket freq_W (mk_datetime 2023 2 1 10 0)) = 6%Z
  ∧ (ordinal (time_bucket freq_W (mk_datetime 2023 2 1 10 0))
     < ordinal (mk_datetime 2023 2 1 10 0) + 7)%Z.
Proof.
  apply (bin_labels freq_W (mk_datetime 2023 2 1 10 0)). reflexivity.
Defined.

(** ** The columns of the object *)

(** X18. The object holds what the loop collected: when the constructor
    body returns, the loop has returned three lists of one length, and the
    columns [Speaker], [Message] and [Time] of [chat] are these lists, row
    by row and in the order of the file; [Message_Length] and [Emoji_Count]
    are the length and the emoji count of each message, and the three
    aggregate tables are computed from this [chat]. *)
Theorem object_columns
    (limits : grouper_limits) (emoji_count : string → Z)
    time_format lines w :
  build limits emoji_count time_format lines = Ok w →
  ∃ cols,
    parse_lines time_format lines = Ok cols
    ∧ length (speakers cols) = length (chat w)
    ∧ length (messages cols) = length (chat w)
    ∧ length (times cols) = length (chat w)
    ∧ Speaker <$> chat w = speakers cols
    ∧ Message <$> chat w = messages cols
    ∧ Time <$> chat w = times cols
    ∧ Message_Length <$> chat w
      = (λ m, Z.of_nat (String.length m)) <$> messages cols
    ∧ Emoji_Count <$> chat w = emoji_count <$> messages cols
    ∧ daily_chat w = aggregate_by_time (chat w) freq_D
    ∧ weekly_chat w = aggregate_by_time (chat w) freq_W
    ∧ monthly_chat w = aggregate_by_time (chat w) freq_M.
Proof.
  intros (cols & Hrun & _ & _ & _ & ->)%build_Ok_iff. simpl.
  exists cols. split; [done |].
  pose proof (parse_lines_balanced _ _ _ Hrun) as Hb.
  pose proof (records_length _ Hb) as Hlen.
  destruct Hb as [H1 H2].
  destruct (zip_columns_projections _ _ _ H1 H2) as (Hs & Hm & Ht).
  fold (records cols) in Hs, Hm, Ht.
  rewrite length_fmap, Hlen.
  split; [lia |]. split; [lia |]. split; [done |].
  rewrite <- !list_fmap_compose.
  split; [exact Hs |]. split; [exact Hm |]. split; [exact Ht |].
  split; [by rewrite <- Hm, <- list_fmap_compose |].
  split; [by rewrite <- Hm, <- list_fmap_compose |].
  done.
Qed.

Lemma object_columns_witness :
  ∃ w,
    build example_limits example_emoji_count "EU" colon_lines = Ok w
    ∧ ∃ cols,
        parse_lines "EU" colon_lines = Ok cols
        ∧ length (speakers cols) = length (chat w)
        ∧ length (messages cols) = length (chat w)
        ∧ length (times cols) = length (chat w)
        ∧ Speaker <$> chat w = speakers cols
        ∧ Message <$> chat w = messages cols
        ∧ Time <$> chat w = times cols
        ∧ Message_Length <$> chat w
          = (λ m, Z.of_nat (String.length m)) <$> messages cols
        ∧ Emoji_Count <$> chat w = example_emoji_count <$> messages cols
        ∧ daily_chat w = aggregate_by_time (chat w) freq_D
        ∧ weekly_chat w = aggregate_by_time (chat w) freq_W
        ∧ monthly_chat w = aggregate_by_time (chat w) freq_M.
Proof.
  eexists. split; [vm_compute; reflexivity |].
  eapply (object_columns example_limits example_emoji_count "EU"
            colon_lines).
  vm_compute; reflexivity.
Defined.
